(** * Quotation builder: pricing, service catalog and settings

    A shallow embedding of the two variants of the quotation builder:

    - the basic variant, [src/src/App.js] (module [Basic]): a fixed
      service catalog, a fixed exchange rate and tax rate;
    - the admin variant, [src/unnamed/part_000] (module [Admin]): an
      editable, persisted service catalog and persisted settings.

    JavaScript numbers are binary64 floating-point numbers and are
    modelled by Rocq's primitive [float]s, which are the same format.
    JavaScript strings are modelled by [string]; a character stands for
    a code unit in the range U+0000..U+00FF.  React state is threaded
    explicitly: every event handler is a function from the state (and
    the values the host supplies: fresh identifiers, the answer given
    to a confirmation dialog, the outcome of reading the storage) to
    the new state and the dialogs it raised.  [String(v)] and
    [Number(v)] throw a [TypeError] for some objects that the storage
    can hold: [raises] tells for which, and the two places where the
    program converts what it read from the storage are modelled with
    what they do then, the load of the catalog (whose [try] swallows
    the error) and [computed] of the admin variant (which does not).
    The layout of the document, its logo and the lines of the company
    in its header, and the settings written to the storage are left
    out. *)

From Stdlib Require Import ZArith QArith Qabs Qpower Lqa Floats String Ascii List Bool Lia.
From stdpp Require Import gmap strings.
Import ListNotations.

Set Warnings "-inexact-float,-register-all".
Local Open Scope Z_scope.

(** ** Strings: the part of [String.prototype] the program uses *)

Module JsString.

Definition code (c : ascii) : N := N_of_ascii c.

Definition between (lo hi : N) (c : ascii) : bool :=
  ((lo <=? code c) && (code c <=? hi))%N.

(** [WhiteSpace] and [LineTerminator] code units below U+0100: what
    [trim] strips and what the regular expression class [\s] matches. *)
Definition is_space (c : ascii) : bool :=
  between 9 13 c || (code c =? 32)%N || (code c =? 160)%N.

Definition is_digit (c : ascii) : bool := between 48 57 c.

(** The regular expression class [\w]: [A-Za-z0-9_]. *)
Definition is_word (c : ascii) : bool :=
  between 65 90 c || between 97 122 c || is_digit c || (code c =? 95)%N.

(** [toLowerCase] on one code unit: A-Z, and the Latin-1 capitals
    U+00C0..U+00DE except the multiplication sign U+00D7. *)
Definition lower (c : ascii) : ascii :=
  if between 65 90 c || (between 192 222 c && negb (code c =? 215)%N)
  then ascii_of_N (code c + 32) else c.

Fixpoint toLowerCase (s : string) : string :=
  match s with
  | EmptyString => EmptyString
  | String c s' => String (lower c) (toLowerCase s')
  end.

Fixpoint trimStart (s : string) : string :=
  match s with
  | EmptyString => EmptyString
  | String c s' => if is_space c then trimStart s' else s
  end.

(** [trimEnd] drops the longest suffix made of white space only. *)
Fixpoint trimEnd (s : string) : string :=
  match s with
  | EmptyString => EmptyString
  | String c s' =>
      match trimEnd s' with
      | EmptyString => if is_space c then EmptyString else String c EmptyString
      | t => String c t
      end
  end.

Definition trim (s : string) : string := trimEnd (trimStart s).

(** [s.replace(/[^...]/g, "")] for a character class given by [keep]. *)
Fixpoint remove_unless (keep : ascii -> bool) (s : string) : string :=
  match s with
  | EmptyString => EmptyString
  | String c s' =>
      if keep c then String c (remove_unless keep s') else remove_unless keep s'
  end.

(** [s.replace(/C+/g, r)] for a character class [C] given by [p]: every
    maximal run of characters of the class becomes one [r].  [in_run]
    says that the previous character was of the class. *)
Fixpoint replace_runs_from (in_run : bool) (p : ascii -> bool) (r : ascii)
    (s : string) : string :=
  match s with
  | EmptyString => EmptyString
  | String c s' =>
      if p c then
        if in_run then replace_runs_from true p r s'
        else String r (replace_runs_from true p r s')
      else String c (replace_runs_from false p r s')
  end.

Definition replace_runs := replace_runs_from false.

(** [s.slice(0, n)]. *)
Definition slice0 (n : nat) (s : string) : string := substring 0 n s.

(** [!s] is [is_empty s]: the empty string is the only falsy string. *)
Definition is_empty (s : string) : bool :=
  match s with EmptyString => true | _ => false end.

(** [a || b] on strings. *)
Definition or_else (a b : string) : string := if is_empty a then b else a.

(** The one-character string with the given code unit. *)
Definition chr (n : N) : string := String (ascii_of_N n) EmptyString.

End JsString.

(** ** Numbers: binary64, and the conversions between numbers and strings *)

Module JsNumber.
Import JsString.

(** [Number.isFinite(x)] for a number [x]. *)
Definition isFinite (x : float) : bool := negb (is_nan x || is_infinity x).

(** [ToBoolean] on a number: [NaN], [0] and [-0] are falsy. *)
Definition truthy (x : float) : bool := negb (is_nan x || is_zero x).

(** [a || b] where [a] is a number. *)
Definition or_else (a b : float) : float := if truthy a then a else b.

(** *** From a decimal numeral to the nearest binary64 *)

Definition float_of_Z (m : Z) : float := of_uint63 (Uint63.of_Z m).

(** The binary64 nearest to [p / q] (ties to even), for [0 < p] and
    [0 < q]: the quotient is cut to 53 significant bits, or to a
    multiple of [2^-1074] in the subnormal range, and rounded on the
    remainder. *)
Definition round_ratio (p q : Z) : float :=
  let l0 := Z.log2 p - Z.log2 q in
  let above := if 0 <=? l0 then q * 2 ^ l0 <=? p else q <=? p * 2 ^ (- l0) in
  let l := if above then l0 else l0 - 1 in
  let e := Z.max (l - 52) (-1074) in
  let num := if 0 <=? e then p else p * 2 ^ (- e) in
  let den := if 0 <=? e then q * 2 ^ e else q in
  let m := num / den in
  let r := num mod den in
  let m' :=
    match 2 * r ?= den with
    | Lt => m
    | Gt => m + 1
    | Eq => if Z.even m then m else m + 1
    end in
  Z.ldexp (float_of_Z m') e.

(** The number of decimal digits of a positive integer, within one. *)
Definition decimal_length (m : Z) : Z := Z.log2 m * 30103 / 100000 + 1.

Definition with_sign (neg : bool) (x : float) : float := if neg then (- x)%float else x.

(** The Number value of [m * 10^e], negated when [neg].  Numerals far
    outside the binary64 range are settled without computing the power. *)
Definition of_decimal (neg : bool) (m : Z) (e : Z) : float :=
  with_sign neg
    (if m <=? 0 then 0%float
     else if 400 <? e + decimal_length m then infinity
     else if e + decimal_length m <? -400 then 0%float
     else if 0 <=? e then round_ratio (m * 10 ^ e) 1
     else round_ratio m (10 ^ (- e))).

(** *** [StringToNumber] (ECMAScript StringNumericLiteral) *)

Definition digit_value (c : ascii) : option Z :=
  if is_digit c then Some (Z.of_N (code c) - 48)
  else if between 97 102 c then Some (Z.of_N (code c) - 87)
  else if between 65 70 c then Some (Z.of_N (code c) - 55)
  else None.

(** The value of a string made only of digits of the given base;
    [acc] is the value read so far. *)
Fixpoint digits_value (base : Z) (acc : Z) (s : string) : option Z :=
  match s with
  | EmptyString => Some acc
  | String c s' =>
      match digit_value c with
      | Some d => if d <? base then digits_value base (acc * base + d) s' else None
      | None => None
      end
  end.

(** Splits off the longest prefix of decimal digits. *)
Fixpoint span_digits (s : string) : string * string :=
  match s with
  | String c s' =>
      if is_digit c then let (d, r) := span_digits s' in (String c d, r)
      else (EmptyString, s)
  | EmptyString => (EmptyString, EmptyString)
  end.

Definition decimal_value (s : string) : Z :=
  match digits_value 10 0 s with Some v => v | None => 0 end.

(** ExponentPart: [e] or [E], an optional sign, at least one digit,
    and nothing after it.  The empty string is the absent exponent. *)
Definition exponent_value (s : string) : option Z :=
  match s with
  | EmptyString => Some 0
  | String c s' =>
      if (code c =? 101)%N || (code c =? 69)%N then
        match s' with
        | String "+" d => if is_empty d then None else digits_value 10 0 d
        | String "-" d =>
            if is_empty d then None else option_map Z.opp (digits_value 10 0 d)
        | d => if is_empty d then None else digits_value 10 0 d
        end
      else None
  end.

(** StrUnsignedDecimalLiteral, the sign already read. *)
Definition unsigned_decimal (neg : bool) (s : string) : float :=
  if String.eqb s "Infinity" then with_sign neg infinity
  else
    let (ip, r1) := span_digits s in
    let '(fp, r2, ok) :=
      match r1 with
      | String "." r =>
          let (fp, r2) := span_digits r in
          (fp, r2, negb (is_empty ip && is_empty fp))
      | _ => (EmptyString, r1, negb (is_empty ip))
      end in
    if ok then
      match exponent_value r2 with
      | Some ex =>
          of_decimal neg (decimal_value (ip +:+ fp)) (ex - Z.of_nat (String.length fp))
      | None => nan
      end
    else nan.

(** NonDecimalIntegerLiteral: at least one digit of the base. *)
Definition radix_literal (base : Z) (s : string) : float :=
  if is_empty s then nan
  else match digits_value base 0 s with
       | Some v => of_decimal false v 0
       | None => nan
       end.

Definition StringToNumber (s : string) : float :=
  match trim s with
  | EmptyString => 0%float
  | String "0" (String "x" r) | String "0" (String "X" r) => radix_literal 16 r
  | String "0" (String "o" r) | String "0" (String "O" r) => radix_literal 8 r
  | String "0" (String "b" r) | String "0" (String "B" r) => radix_literal 2 r
  | String "+" r => unsigned_decimal false r
  | String "-" r => unsigned_decimal true r
  | t => unsigned_decimal false t
  end.

(** *** [Number::toString] in radix 10 *)

(** [le_pow10 k p q]: [10^k <= p / q]. *)
Definition le_pow10 (k p q : Z) : bool :=
  if 0 <=? k then q * 10 ^ k <=? p else q <=? p * 10 ^ (- k).

(** The [n] with [10^(n-1) <= p / q < 10^n], looked for around the
    estimate that the binary logarithms give. *)
Definition decimal_exponent (p q : Z) : Z :=
  let est := (Z.log2 p - Z.log2 q) * 30103 / 100000 in
  let fix search (fuel : nat) (n : Z) : Z :=
    match fuel with
    | O => n
    | S fuel' => if le_pow10 n p q then search fuel' (n + 1) else n
    end in
  search 6%nat (est - 2).

(** The decimal digits of a non-negative integer, most significant first. *)
Fixpoint digits_of (fuel : nat) (m : Z) (acc : string) : string :=
  match fuel with
  | O => acc
  | S fuel' =>
      let acc' := String (ascii_of_N (Z.to_N (48 + m mod 10))) acc in
      if m <? 10 then acc' else digits_of fuel' (m / 10) acc'
  end.

Definition decimal_string (m : Z) : string :=
  digits_of (S (Z.to_nat (Z.log2 m))) m EmptyString.

(** The property key of the element at place [i] of an array. *)
Definition index_key (i : nat) : string := decimal_string (Z.of_nat i).

(** Among the integers [s] with [k] digits for which [s * 10^j] is
    read back as [x], the one nearest to [p / q] (the even one on a
    tie); only the two integers around [p / (q * 10^j)] can qualify. *)
Definition shortest_at (x : float) (p q j : Z) : option Z :=
  let tp := if 0 <=? j then p else p * 10 ^ (- j) in
  let tq := if 0 <=? j then q * 10 ^ j else q in
  let lo := tp / tq in
  let hi := lo + 1 in
  let reads c := (0 <? c) && PrimFloat.eqb (of_decimal false c j) x in
  match reads lo, reads hi with
  | true, true =>
      match 2 * tp ?= (2 * lo + 1) * tq with
      | Lt => Some lo
      | Gt => Some hi
      | Eq => Some (if Z.even lo then lo else hi)
      end
  | true, false => Some lo
  | false, true => Some hi
  | false, false => None
  end.

(** The least number of digits [k] that identifies [x], with the
    digits as an integer [s] and the exponent [j]: [x] is the Number
    value of [s * 10^j]. *)
Fixpoint shortest_from (fuel : nat) (x : float) (p q n k : Z) : Z * Z :=
  match fuel with
  | O => (0, 0)
  | S fuel' =>
      match shortest_at x p q (n - k) with
      | Some s => (s, n - k)
      | None => shortest_from fuel' x p q n (k + 1)
      end
  end.

Fixpoint strip_zeros (fuel : nat) (s j : Z) : Z * Z :=
  match fuel with
  | O => (s, j)
  | S fuel' => if s mod 10 =? 0 then strip_zeros fuel' (s / 10) (j + 1) else (s, j)
  end.

Definition zeros (n : Z) : string := string_of_list_ascii (repeat "0"%char (Z.to_nat n)).

(** The layout of the digits [d] (no trailing zero) of a number whose
    value is [0.d * 10^n]. *)
Definition layout (d : string) (n : Z) : string :=
  let k := Z.of_nat (String.length d) in
  if (k <=? n) && (n <=? 21) then d +:+ zeros (n - k)
  else if (0 <? n) && (n <=? 21) then
    substring 0 (Z.to_nat n) d +:+ "." +:+ substring (Z.to_nat n) (Z.to_nat (k - n)) d
  else if (-6 <? n) && (n <=? 0) then "0." +:+ zeros (- n) +:+ d
  else
    let ex := (if 0 <=? n - 1 then "+" else "-") +:+ decimal_string (Z.abs (n - 1)) in
    if k =? 1 then d +:+ "e" +:+ ex
    else substring 0 1 d +:+ "." +:+ substring 1 (Z.to_nat (k - 1)) d +:+ "e" +:+ ex.

Definition NumberToString (x : float) : string :=
  match Prim2SF x with
  | S754_nan => "NaN"
  | S754_zero _ => "0"
  | S754_infinity neg => if neg then "-Infinity" else "Infinity"
  | S754_finite neg m e =>
      let p := if 0 <=? e then Z.pos m * 2 ^ e else Z.pos m in
      let q := if 0 <=? e then 1 else 2 ^ (- e) in
      let n := decimal_exponent p q in
      let (s0, j0) := shortest_from 17 (abs x) p q n 1 in
      let (s, j) := strip_zeros 20 s0 j0 in
      let d := decimal_string s in
      (if neg then "-" else "") +:+ layout d (j + Z.of_nat (String.length d))
  end.

End JsNumber.

(** ** Values: what [JSON.parse] returns and what the state holds *)

Module JsValue.
Import JsString JsNumber.

Inductive jsval : Type :=
  | VUndefined
  | VNull
  | VBool (b : bool)
  | VNum (x : float)
  | VStr (s : string)
  | VArr (items : list jsval)
  | VObj (props : list (string * jsval)).

(** [ToBoolean]. *)
Definition truthy (v : jsval) : bool :=
  match v with
  | VUndefined | VNull => false
  | VBool b => b
  | VNum x => JsNumber.truthy x
  | VStr s => negb (is_empty s)
  | VArr _ | VObj _ => true
  end.

(** [a || b]. *)
Definition or_else (a b : jsval) : jsval := if truthy a then a else b.

(** [typeof v === "object"]. *)
Definition typeof_object (v : jsval) : bool :=
  match v with VNull | VArr _ | VObj _ => true | _ => false end.

(** [Array.isArray(v)]. *)
Definition isArray (v : jsval) : bool :=
  match v with VArr _ => true | _ => false end.

(** Whether [String(v)] and [Number(v)] throw a [TypeError].  Both
    convert an object through [ToPrimitive], which calls the method
    [toString] of the object if it is a function, else its [valueOf],
    and throws when neither gives a primitive value.  No property of a
    value that [JSON.parse] returned is a function, and the [valueOf]
    that an object inherits returns the object: so the conversion
    throws for an object with an own property [toString], which hides
    the inherited method, and for no other object.  An array inherits
    [Array.prototype.toString], which converts the elements in turn
    ([null] and [undefined] apart): it throws when one of them does. *)
Fixpoint raises (v : jsval) : bool :=
  match v with
  | VObj props => existsb (fun p => String.eqb (fst p) "toString") props
  | VArr items => existsb raises items
  | _ => false
  end.

(** The string that [String(v)] returns, when it returns ([raises v]
    is false): an array is the join of its elements with commas,
    [null] and [undefined] elements giving the empty string; an object
    is converted by [Object.prototype.toString]. *)
Fixpoint ToString (v : jsval) : string :=
  match v with
  | VUndefined => "undefined"
  | VNull => "null"
  | VBool b => if b then "true" else "false"
  | VNum x => NumberToString x
  | VStr s => s
  | VArr items =>
      let element v :=
        match v with VUndefined | VNull => EmptyString | _ => ToString v end in
      (fix join (l : list jsval) : string :=
         match l with
         | [] => EmptyString
         | [v] => element v
         | v :: l' => element v +:+ "," +:+ join l'
         end) items
  | VObj _ => "[object Object]"
  end.

(** The number that [Number(v)] returns, when it returns ([raises v]
    is false): an object or an array is converted through its string. *)
Definition ToNumber (v : jsval) : float :=
  match v with
  | VUndefined => nan
  | VNull => 0%float
  | VBool b => if b then 1%float else 0%float
  | VNum x => x
  | VStr s => StringToNumber s
  | VArr _ | VObj _ => StringToNumber (ToString v)
  end.

(** [Number(v) || d], when the conversion returns. *)
Definition number_or (v : jsval) (d : float) : float := JsNumber.or_else (ToNumber v) d.

(** What a call does: it returns a value, or it throws a [TypeError]. *)
Inductive completion (A : Type) : Type :=
  | Returns (a : A)
  | Throws.

Arguments Returns {A} a.
Arguments Throws {A}.

(** The rest [k] of a block runs on the value of a call that returns. *)
Definition and_then {A B : Type} (c : completion A) (k : A -> completion B) : completion B :=
  match c with
  | Returns a => k a
  | Throws => Throws
  end.

#[export] Instance completion_bind : MBind completion :=
  fun A B k c => and_then c k.

(** The calls [String(v)] and [Number(v)]. *)
Definition call_String (v : jsval) : completion string :=
  if raises v then Throws else Returns (ToString v).

Definition call_Number (v : jsval) : completion float :=
  if raises v then Throws else Returns (ToNumber v).

(** [l.map(f)] for a callback that may throw; [f] gets the index too. *)
Fixpoint map_calls {A B : Type} (f : nat -> A -> completion B) (l : list A) :
    completion (list B) :=
  match l with
  | [] => Returns []
  | x :: l' =>
      y ← f 0%nat x;
      ys ← map_calls (fun i => f (S i)) l';
      Returns (y :: ys)
  end.

(** [v.k] for a truthy [v] and a key [k] that no prototype defines
    (the program reads [id], [code], [label], [suggestion] and
    [defaultHourlyCost]): the own property of an object, where the
    last of several bindings of a key is the one [JSON.parse] kept. *)
Definition get (v : jsval) (k : string) : jsval :=
  match v with
  | VObj props =>
      match find (fun p => String.eqb (fst p) k) (rev props) with
      | Some p => snd p
      | None => VUndefined
      end
  | _ => VUndefined
  end.

(** The own enumerable properties copied by a spread [{...v}], in order. *)
Definition own_properties (v : jsval) : list (string * jsval) :=
  match v with
  | VObj props => props
  | VArr items => imap (fun i x => (index_key i, x)) items
  | _ => []
  end.

(** A state object with string keys; [{...o, ...v}] writes the
    properties of [v] over those of [o], later ones winning. *)
Definition spread (o : gmap string jsval) (v : jsval) : gmap string jsval :=
  foldl (fun m p => <[fst p := snd p]> m) o (own_properties v).

(** [o.k] on a state object. *)
Definition field (o : gmap string jsval) (k : string) : jsval :=
  match o !! k with Some v => v | None => VUndefined end.

End JsValue.

(** ** The two currencies and the arithmetic of a conversion *)

Inductive Currency : Type := PEN | USD.

(** [currency === "PEN"]. *)
Definition is_PEN (c : Currency) : bool :=
  match c with PEN => true | USD => false end.

(** [currency === "PEN" ? "USD" : "PEN"]. *)
Definition other (c : Currency) : Currency :=
  if is_PEN c then USD else PEN.

(** The operations on numbers that [convert] uses; the program runs
    them on [binary64]. *)
Class NumberOps : Type := {
  num : Type;
  n_mul : num -> num -> num;
  n_div : num -> num -> num;
  n_zero : num;
  n_isFinite : num -> bool }.

Module Conversion.
Section Generic.
Context {ops : NumberOps}.

(** [convert]: in the basic variant a function of the amount and of
    the currency it is in, with the constant rate; in the admin
    variant a closure over the selected currency and the rate. *)
Definition convert (rate : num) (currency : Currency) (amount : num) : num :=
  if negb (n_isFinite amount) then n_zero
  else if is_PEN currency then n_div amount rate (* PEN -> USD *)
  else n_mul amount rate (* USD -> PEN *).
End Generic.
End Conversion.

#[export] Instance binary64 : NumberOps := {|
  num := float;
  n_mul := PrimFloat.mul;
  n_div := PrimFloat.div;
  n_zero := 0%float;
  n_isFinite := JsNumber.isFinite |}.

(** ** What both variants share: line items, totals, money formatting *)

Module Quote.
Import JsString JsNumber JsValue.

(** A row of the quotation as the state holds it.  [hours] and
    [hourlyCost] hold a number at first and the text of the input
    field once the user has edited it. *)
Record Row : Type := {
  row_id : string;
  serviceType : string;
  detail : string;
  hours : jsval;
  hourlyCost : jsval }.

(** A row as [computed] returns it: [{ ...r, hours, hourlyCost, subtotal }]. *)
Record Item : Type := {
  it_id : string;
  it_serviceType : string;
  it_detail : string;
  it_hours : float;
  it_hourlyCost : float;
  it_subtotal : float }.

(** The value of [computed]. *)
Record Totals : Type := {
  items : list Item;
  subtotal : float;
  igv : float;
  total : float;
  otherCurrency : Currency;
  subtotalOther : float;
  igvOther : float;
  totalOther : float }.

(** The callback of [rows.map] in [computed], the same in both
    variants: the item it returns, when the two conversions return. *)
Definition line_item (r : Row) : Item :=
  let hours := number_or (hours r) 0 in
  let hourlyCost := number_or (hourlyCost r) 0 in
  let subtotal := (hours * hourlyCost)%float in
  {| it_id := row_id r; it_serviceType := serviceType r; it_detail := detail r;
     it_hours := hours; it_hourlyCost := hourlyCost; it_subtotal := subtotal |}.

(** The same callback as a call: it throws when a conversion does. *)
Definition call_line_item (r : Row) : completion Item :=
  h ← call_Number (hours r);
  let hours := JsNumber.or_else h 0 in
  c ← call_Number (hourlyCost r);
  let hourlyCost := JsNumber.or_else c 0 in
  let subtotal := (hours * hourlyCost)%float in
  Returns {| it_id := row_id r; it_serviceType := serviceType r; it_detail := detail r;
             it_hours := hours; it_hourlyCost := hourlyCost; it_subtotal := subtotal |}.

(** [items.reduce((acc, it) => acc + it.subtotal, 0)]. *)
Definition sum_subtotals (l : list Item) : float :=
  fold_left (fun acc it => (acc + it_subtotal it)%float) l 0%float.

(** The string that [Intl.NumberFormat(locale, { style: "currency",
    currency, maximumFractionDigits: 2 }).format(amount)] returns,
    kept as the arguments of the call. *)
Inductive formatted : Type :=
  | IntlCurrency (locale : string) (currency : Currency) (amount : float).

Definition moneyFmt (amount : float) (currency : Currency) : formatted :=
  let locale := if is_PEN currency then "es-PE" else "en-US" in
  IntlCurrency locale currency (if isFinite amount then amount else 0%float).

(** A cell of the table handed to the document exporter. *)
Inductive cell : Type :=
  | Text (s : string)
  | Money (f : formatted).

(** A partial row written over a row by [updateRow]: the input
    handlers pass [{ detail }], [{ hours }] or [{ hourlyCost }]. *)
Record RowPatch : Type := {
  patch_detail : option string;
  patch_hours : option jsval;
  patch_hourlyCost : option jsval }.

Definition patch_row (r : Row) (p : RowPatch) : Row :=
  {| row_id := row_id r; serviceType := serviceType r;
     detail := default (detail r) (patch_detail p);
     hours := default (hours r) (patch_hours p);
     hourlyCost := default (hourlyCost r) (patch_hourlyCost p) |}.

Definition updateRow (id : string) (p : RowPatch) (rows : list Row) : list Row :=
  map (fun r => if String.eqb (row_id r) id then patch_row r p else r) rows.

Definition removeRow (id : string) (rows : list Row) : list Row :=
  List.filter (fun r => negb (String.eqb (row_id r) id)) rows.

(** [r.detail?.trim() ? r.detail : suggestion]. *)
Definition detail_or (r : Row) (suggestion : string) : string :=
  if is_empty (trim (detail r)) then suggestion else detail r.

End Quote.

(** ** The basic variant: [src/src/App.js] *)

Module Basic.
Import JsString JsNumber JsValue Quote.

Definition EXCHANGE_RATE : float := 3.5.
Definition IGV_RATE : float := 0.18.

Record CatalogEntry : Type := {
  value : string;
  label : string;
  suggestion : string }.

Definition SERVICE_CATALOG : list CatalogEntry :=
  [ {| value := "creacion_web";
       label := "Creaci" +:+ chr 243 +:+ "n de p" +:+ chr 225 +:+ "gina web";
       suggestion :=
         "Incluye estructura, secciones, responsive, performance b" +:+ chr 225
         +:+ "sico, formularios y puesta en producci" +:+ chr 243 +:+ "n." |};
    {| value := "mantenimiento_web";
       label := "Mantenimiento de p" +:+ chr 225 +:+ "gina web";
       suggestion :=
         "Actualizaciones, backups, monitoreo, correcciones, seguridad b" +:+ chr 225
         +:+ "sica, soporte mensual." |};
    {| value := "diseno_figma";
       label := "Dise" +:+ chr 241 +:+ "o UI en Figma";
       suggestion :=
         "Wireframes + UI final, componentes, estilos, prototipo navegable y handoff a desarrollo." |} ].

Definition convert (amount : float) (fromCurrency : Currency) : float :=
  Conversion.convert EXCHANGE_RATE fromCurrency amount.

(** [emptyRow], given the identifier that [safeId()] returns. *)
Definition emptyRow (id : string) : Row :=
  {| row_id := id; serviceType := "creacion_web"; detail := "";
     hours := VNum 10; hourlyCost := VNum 60 |}.

Definition find_entry (v : string) : option CatalogEntry :=
  find (fun s => String.eqb (value s) v) SERVICE_CATALOG.

Definition getServiceLabel (v : string) : string :=
  match find_entry v with
  | Some s => JsString.or_else (label s) v
  | None => v
  end.

(** The value of [computed], when the conversions of the rows return. *)
Definition computed (rows : list Row) (currency : Currency) : Totals :=
  let items := map line_item rows in
  let subtotal := sum_subtotals items in
  let igv := (subtotal * IGV_RATE)%float in
  let total := (subtotal + igv)%float in
  {| items := items; subtotal := subtotal; igv := igv; total := total;
     otherCurrency := other currency;
     subtotalOther := convert subtotal currency;
     igvOther := convert igv currency;
     totalOther := convert total currency |}.

(** The callback of [useMemo] that computes it, as a call. *)
Definition call_computed (rows : list Row) (currency : Currency) : completion Totals :=
  items ← map_calls (fun _ => call_line_item) rows;
  let subtotal := sum_subtotals items in
  let igv := (subtotal * IGV_RATE)%float in
  let total := (subtotal + igv)%float in
  Returns {| items := items; subtotal := subtotal; igv := igv; total := total;
             otherCurrency := other currency;
             subtotalOther := convert subtotal currency;
             igvOther := convert igv currency;
             totalOther := convert total currency |}.

Definition addRow (id : string) (rows : list Row) : list Row :=
  rows ++ [emptyRow id].

Definition handleServiceChange (id : string) (serviceType' : string)
    (rows : list Row) : list Row :=
  let suggestion :=
    match find_entry serviceType' with
    | Some s => suggestion s
    | None => ""
    end in
  map (fun r =>
         if String.eqb (row_id r) id then
           {| row_id := row_id r; serviceType := serviceType';
              detail := detail_or r suggestion;
              hours := hours r; hourlyCost := hourlyCost r |}
         else r) rows.

(** The table body that [generatePdf] hands to [autoTable], under the
    head [Servicio, Detalle, Horas, Importe]. *)
Definition body (rows : list Row) (currency : Currency) : list (list cell) :=
  map (fun it =>
         [ Text (getServiceLabel (it_serviceType it));
           Text (JsString.or_else (it_detail it) "");
           Text (NumberToString (it_hours it));
           Money (moneyFmt (it_subtotal it) currency) ])
      (items (computed rows currency)).

End Basic.

(** ** The admin variant: [src/unnamed/part_000] *)

Module Admin.
Import JsString JsNumber JsValue Quote.

Definition APP_OWNER_NAME : string := "Alma Industria Creativa E.I.R.L. | Alma Quinta".

Definition DEFAULT_SETTINGS : gmap string jsval :=
  list_to_map
    [ ("exchangeRate", VNum 3.5);
      ("igvRate", VNum 0.18);
      ("companyName", VStr APP_OWNER_NAME);
      ("companyRuc", VStr "");
      ("companyEmail", VStr "");
      ("companyPhone", VStr "") ].

(** The [id] of a catalog entry.  [safeId()] returns a string; an entry
    read from the storage keeps whatever truthy value it had there: a
    string, a number, [true], or an array or object, which is equal
    only to itself and is named by the place where it was parsed. *)
Inductive ident : Type :=
  | IdStr (s : string)
  | IdNum (x : float)
  | IdTrue
  | IdRef (n : nat).

(** [a === b] on identifiers. *)
Definition same_id (a b : ident) : bool :=
  match a, b with
  | IdStr s, IdStr t => String.eqb s t
  | IdNum x, IdNum y => PrimFloat.eqb x y
  | IdTrue, IdTrue => true
  | IdRef n, IdRef m => Nat.eqb n m
  | _, _ => false
  end.

Record Service : Type := {
  svc_id : ident;
  code : string;
  label : string;
  suggestion : string;
  defaultHourlyCost : float }.

Definition DEFAULT_SERVICES : list Service :=
  [ {| svc_id := IdStr "srv_creacion_web";
       code := "creacion_web";
       label := "Creaci" +:+ chr 243 +:+ "n de p" +:+ chr 225 +:+ "gina web";
       suggestion :=
         "Incluye estructura, secciones, responsive, performance b" +:+ chr 225
         +:+ "sico, formularios y puesta en producci" +:+ chr 243 +:+ "n.";
       defaultHourlyCost := 60 |};
    {| svc_id := IdStr "srv_mantenimiento_web";
       code := "mantenimiento_web";
       label := "Mantenimiento de p" +:+ chr 225 +:+ "gina web";
       suggestion :=
         "Actualizaciones, backups, monitoreo, correcciones, seguridad b" +:+ chr 225
         +:+ "sica, soporte mensual.";
       defaultHourlyCost := 50 |};
    {| svc_id := IdStr "srv_diseno_figma";
       code := "diseno_figma";
       label := "Dise" +:+ chr 241 +:+ "o UI en Figma";
       suggestion :=
         "Wireframes + UI final, componentes, estilos, prototipo navegable y handoff a desarrollo.";
       defaultHourlyCost := 55 |} ].

Definition percentToDecimal (p : jsval) : float :=
  let n := ToNumber p in
  if negb (isFinite n) then 0%float else (n / 100)%float.

Definition slugifyCode (str : string) : string :=
  slice0 40
    (replace_runs (fun c => (JsString.code c =? 95)%N) "_"
       (replace_runs is_space "_"
          (remove_unless (fun c => is_word c || is_space c || (JsString.code c =? 45)%N)
             (trim (toLowerCase (JsString.or_else str "")))))).

(** The scratch state of the form that adds a service. *)
Record NewService : Type := {
  new_label : string;
  new_code : string;
  new_suggestion : string;
  new_defaultHourlyCost : float }.

Definition blank_service : NewService :=
  {| new_label := ""; new_code := ""; new_suggestion := ""; new_defaultHourlyCost := 0 |}.

(** The state of the component that the claims are about. *)
Record State : Type := {
  settings : gmap string jsval;
  services : list Service;
  currency : Currency;
  rows : list Row;
  newService : NewService }.

(** A dialog raised by a handler: [alert(msg)], or
    [window.confirm(msg)] with the answer it got. *)
Inductive dialog : Type :=
  | Alert (msg : string)
  | Confirm (msg : string) (answer : bool).

(** *** Rows *)

Definition getServiceByCode (services : list Service) (c : string) : option Service :=
  find (fun s => String.eqb (code s) c) services.

(** [services[0]?.code || "creacion_web"]. *)
Definition firstServiceCode (services : list Service) : string :=
  match services with
  | s :: _ => JsString.or_else (code s) "creacion_web"
  | [] => "creacion_web"
  end.

(** [emptyRow], given the identifier that [safeId()] returns. *)
Definition emptyRow (services : list Service) (id : string) : Row :=
  let svc :=
    match getServiceByCode services (firstServiceCode services) with
    | Some s => Some s
    | None => head services
    end in
  {| row_id := id;
     serviceType :=
       match svc with
       | Some s => JsString.or_else (code s) (firstServiceCode services)
       | None => firstServiceCode services
       end;
     detail := "";
     hours := VNum 10;
     hourlyCost := VNum match svc with Some s => defaultHourlyCost s | None => 0%float end |}.

Definition addRow (id : string) (st : State) : State :=
  {| settings := settings st; services := services st; currency := currency st;
     rows := rows st ++ [emptyRow (services st) id]; newService := newService st |}.

Definition handleServiceChange (services : list Service) (rowId : string)
      (serviceType' : string) (rows : list Row) : list Row :=
  let svc := getServiceByCode services serviceType' in
  let suggestion := match svc with Some s => suggestion s | None => "" end in
  let defaultHourlyCost :=
    match svc with Some s => defaultHourlyCost s | None => 0%float end in
  map (fun r =>
         if String.eqb (row_id r) rowId then
           {| row_id := row_id r; serviceType := serviceType';
              detail := detail_or r suggestion;
              hours := hours r; hourlyCost := VNum defaultHourlyCost |}
         else r) rows.

(** *** The effect that keeps the rows valid when the services change *)

Definition keepRowsValid (services : list Service) (rows : list Row) : list Row :=
  match services with
  | [] => rows
  | first :: _ =>
      let codes : gset string := list_to_set (map code services) in
      let fallback := code first in
      map (fun r =>
             if bool_decide (serviceType r ∈ codes) then r
             else {| row_id := row_id r; serviceType := fallback; detail := detail r;
                     hours := hours r; hourlyCost := hourlyCost r |}) rows
  end.

(** [setServices(f)]: the catalog becomes [f] of the catalog, and the
    effect that depends on [services] runs before the next event. *)
Definition setServices (f : list Service -> list Service) (st : State) : State :=
  let services' := f (services st) in
  {| settings := settings st; services := services'; currency := currency st;
     rows := keepRowsValid services' (rows st); newService := newService st |}.

Definition setSettings (f : gmap string jsval -> gmap string jsval) (st : State) : State :=
  {| settings := f (settings st); services := services st; currency := currency st;
     rows := rows st; newService := newService st |}.

Definition setNewService (n : NewService) (st : State) : State :=
  {| settings := settings st; services := services st; currency := currency st;
     rows := rows st; newService := n |}.

(** The handlers of the two number inputs of the settings;
    [value] is the text of the input, [e.target.value]. *)
Definition onExchangeRateChange (value : string) (st : State) : State :=
  setSettings (fun s => <["exchangeRate" := VNum (number_or (VStr value) 0)]> s) st.

Definition onIgvRateChange (value : string) (st : State) : State :=
  setSettings (fun s => <["igvRate" := VNum (percentToDecimal (VStr value))]> s) st.

(** *** Loading from the storage *)

(** What [localStorage.getItem(key)] held: nothing (or the empty
    string), a text that [JSON.parse] rejects, or the text of a value. *)
Inductive stored : Type :=
  | NoItem
  | BadJSON
  | Json (v : jsval).

(** [JSON.parse(localStorage.getItem(key) || "null")]; [None] is the
    exception, which the [try] around it swallows. *)
Definition parse_item (item : stored) : option jsval :=
  match item with
  | NoItem => Some VNull
  | BadJSON => None
  | Json v => Some v
  end.

Definition loadSettings (item : stored) (st : State) : State :=
  match parse_item item with
  | Some savedSettings =>
      if truthy savedSettings && typeof_object savedSettings
      then setSettings (fun prev => spread prev savedSettings) st
      else st
  | None => st
  end.

(** The [id] of the entry at place [i] of the cleaned list: [s.id || safeId()]. *)
Definition loaded_id (fresh : nat -> string) (i : nat) (s : jsval) : ident :=
  match get s "id" with
  | VStr t => if is_empty t then IdStr (fresh i) else IdStr t
  | VNum x => if JsNumber.truthy x then IdNum x else IdStr (fresh i)
  | VBool true => IdTrue
  | VArr _ | VObj _ => IdRef i
  | VBool false | VNull | VUndefined => IdStr (fresh i)
  end.

(** The entries of the stored catalog that the load keeps:
    [s && s.code && s.label]. *)
Definition kept (s : jsval) : bool :=
  truthy s && truthy (get s "code") && truthy (get s "label").

(** The minimal validation of the stored catalog, when the conversions
    return; [fresh i] is what [safeId()] returns for the entry at
    place [i]. *)
Definition cleaned (fresh : nat -> string) (savedServices : list jsval) : list Service :=
  imap (fun i s =>
          {| svc_id := loaded_id fresh i s;
             code := ToString (get s "code");
             label := ToString (get s "label");
             suggestion := ToString (JsValue.or_else (get s "suggestion") (VStr ""));
             defaultHourlyCost := ToNumber (JsValue.or_else (get s "defaultHourlyCost") (VNum 0)) |})
       (List.filter (fun s => truthy s && truthy (get s "code") && truthy (get s "label"))
          savedServices).

(** The callback of the [map] of that validation, as a call. *)
Definition call_clean (fresh : nat -> string) (i : nat) (s : jsval) : completion Service :=
  code ← call_String (get s "code");
  label ← call_String (get s "label");
  suggestion ← call_String (JsValue.or_else (get s "suggestion") (VStr ""));
  defaultHourlyCost ←
    call_Number (JsValue.or_else (get s "defaultHourlyCost") (VNum 0));
  Returns {| svc_id := loaded_id fresh i s; code := code; label := label;
             suggestion := suggestion; defaultHourlyCost := defaultHourlyCost |}.

(** The validation as it runs. *)
Definition call_cleaned (fresh : nat -> string) (savedServices : list jsval) :
    completion (list Service) :=
  map_calls (call_clean fresh) (List.filter kept savedServices).

(** The second [try] of the load: an error thrown by [JSON.parse] or
    by a conversion is swallowed by its [catch {}], before
    [setServices] is reached. *)
Definition loadServices (fresh : nat -> string) (item : stored) (st : State) : State :=
  match parse_item item with
  | Some (VArr savedServices) =>
      if (0 <? length savedServices)%nat then
        match call_cleaned fresh savedServices with
        | Returns c => if (0 <? length c)%nat then setServices (fun _ => c) st else st
        | Throws => st
        end
      else st
  | _ => st
  end.

(** The effect that runs once, when the component is mounted. *)
Definition load (fresh : nat -> string) (settingsItem servicesItem : stored)
      (st : State) : State :=
  loadServices fresh servicesItem (loadSettings settingsItem st).

(** The state before the first effect; [id] is the identifier of the first row. *)
Definition initial (id : string) : State :=
  {| settings := DEFAULT_SETTINGS; services := DEFAULT_SERVICES; currency := PEN;
     rows := [emptyRow DEFAULT_SERVICES id]; newService := blank_service |}.

(** *** The totals *)

(** The value of [computed], when the conversions of the rows and of
    the two rates of the settings return. *)
Definition computed (st : State) : Totals :=
  let items := map line_item (rows st) in
  let subtotal := sum_subtotals items in
  let igv := (subtotal * number_or (field (settings st) "igvRate") 0)%float in
  let total := (subtotal + igv)%float in
  let rate := number_or (field (settings st) "exchangeRate") 1 in
  let convert := Conversion.convert rate (currency st) in
  {| items := items; subtotal := subtotal; igv := igv; total := total;
     otherCurrency := other (currency st);
     subtotalOther := convert subtotal;
     igvOther := convert igv;
     totalOther := convert total |}.

(** The callback of [useMemo] that computes it, as a call. *)
Definition call_computed (st : State) : completion Totals :=
  items ← map_calls (fun _ => call_line_item) (rows st);
  let subtotal := sum_subtotals items in
  igvRate ← call_Number (field (settings st) "igvRate");
  let igv := (subtotal * JsNumber.or_else igvRate 0)%float in
  let total := (subtotal + igv)%float in
  exchangeRate ← call_Number (field (settings st) "exchangeRate");
  let rate := JsNumber.or_else exchangeRate 1 in
  let convert := Conversion.convert rate (currency st) in
  Returns {| items := items; subtotal := subtotal; igv := igv; total := total;
             otherCurrency := other (currency st);
             subtotalOther := convert subtotal;
             igvOther := convert igv;
             totalOther := convert total |}.

(** *** The catalog *)

Definition msg_no_label : string := "Escribe el nombre del servicio.".
Definition msg_no_code : string :=
  "El c" +:+ chr 243 +:+ "digo del servicio est" +:+ chr 225 +:+ " vac" +:+ chr 237 +:+ "o.".
Definition msg_code_exists : string :=
  "Ese c" +:+ chr 243 +:+ "digo ya existe. Cambia el c" +:+ chr 243
  +:+ "digo para que sea " +:+ chr 250 +:+ "nico.".
Definition msg_last_service : string := "Debe existir al menos 1 servicio.".
Definition msg_confirm_delete (label : string) : string :=
  chr 191 +:+ "Eliminar el servicio: " +:+ chr 34 +:+ label +:+ chr 34 +:+ "?".

(** [addServiceFromAdmin], given the identifier that [safeId()] returns. *)
Definition addServiceFromAdmin (id : string) (st : State) : State * list dialog :=
  let label := trim (JsString.or_else (new_label (newService st)) "") in
  let code' := trim (JsString.or_else (new_code (newService st)) (slugifyCode label)) in
  if is_empty label then (st, [Alert msg_no_label])
  else if is_empty code' then (st, [Alert msg_no_code])
  else if existsb (fun s => String.eqb (code s) code') (services st)
  then (st, [Alert msg_code_exists])
  else
    let svc :=
      {| svc_id := IdStr id;
         code := code';
         label := label;
         suggestion := JsString.or_else (new_suggestion (newService st)) "";
         defaultHourlyCost := JsNumber.or_else (new_defaultHourlyCost (newService st)) 0 |} in
    (setNewService blank_service (setServices (fun prev => prev ++ [svc]) st), []).

(** The patch that the inputs of the admin panel pass to
    [updateService]: [{ label }], [{ defaultHourlyCost }] or [{ suggestion }]. *)
Record ServicePatch : Type := {
  patch_label : option string;
  patch_suggestion : option string;
  patch_defaultHourlyCost : option float }.

Definition patch_service (s : Service) (p : ServicePatch) : Service :=
  {| svc_id := svc_id s; code := code s;
     label := default (label s) (patch_label p);
     suggestion := default (suggestion s) (patch_suggestion p);
     defaultHourlyCost := default (defaultHourlyCost s) (patch_defaultHourlyCost p) |}.

Definition updateService (id : ident) (p : ServicePatch) (st : State) : State :=
  setServices (map (fun s => if same_id (svc_id s) id then patch_service s p else s)) st.

(** [deleteService]; [answer] is what the user answers if asked to confirm. *)
Definition deleteService (id : ident) (answer : bool) (st : State) : State * list dialog :=
  match find (fun s => same_id (svc_id s) id) (services st) with
  | None => (st, [])
  | Some svc =>
      if (length (services st) <=? 1)%nat then (st, [Alert msg_last_service])
      else
        let asked := Confirm (msg_confirm_delete (label svc)) answer in
        if negb answer then (st, [asked])
        else (setServices (List.filter (fun s => negb (same_id (svc_id s) id))) st, [asked])
  end.

(** *** The document *)

(** The table body that [generatePdfCotizacion] hands to [autoTable],
    under the head [Servicio, Detalle, Importe]. *)
Definition body (st : State) : list (list cell) :=
  map (fun it =>
         let label :=
           match getServiceByCode (services st) (it_serviceType it) with
           | Some s => JsString.or_else (label s) (it_serviceType it)
           | None => it_serviceType it
           end in
         [ Text label;
           Text (JsString.or_else (it_detail it) "");
           Money (moneyFmt (it_subtotal it) (currency st)) ])
      (items (computed st)).

End Admin.

(** ** [Math.round] and [Math.max] *)

Module JsMath.
Import JsNumber.

(** [Math.round(x)]: the integer nearest to [x], the greater one when
    two are as near, with the sign of [x] when it is zero.  A number
    with a non-negative exponent is an integer already; otherwise the
    result is the floor of [x + 1/2], computed on the integers. *)
Definition round (x : float) : float :=
  match Prim2SF x with
  | S754_finite neg m e =>
      if 0 <=? e then x
      else
        let v := if neg then Z.neg m else Z.pos m in
        let n := (2 * v + 2 ^ (- e)) / (2 * 2 ^ (- e)) in
        if n =? 0 then (if neg then (-0)%float else 0%float)
        else with_sign (n <? 0) (float_of_Z (Z.abs n))
  | _ => x
  end.

(** [Math.max(a, b)]: [NaN] when either is, and [+0] above [-0]. *)
Definition max (a b : float) : float :=
  if is_nan a || is_nan b then nan
  else if (a <? b)%float then b
  else if (b <? a)%float then a
  else if is_zero a && get_sign a then b else a.

End JsMath.

(** ** What both variants share: the fields of the quotation, the file name *)

Module Document.
Import JsString JsNumber JsValue Quote.

(** The characters that [sanitizeFilename] removes: the backslash, the
    slash, the colon, the asterisk, the question mark, the double
    quote, the angle brackets and the bar. *)
Definition reserved (c : ascii) : bool :=
  existsb (N.eqb (code c)) [92; 47; 58; 42; 63; 34; 60; 62; 124]%N.

Definition sanitizeFilename (s : string) : string :=
  slice0 80
    (replace_runs is_space "_"
       (remove_unless (fun c => negb (reserved c))
          (trim (JsString.or_else s "documento")))).

(** The state [quote] of the admin variant; the state [meta] of the
    basic variant has the same four fields, beside those of the
    company. *)
Record Meta : Type := {
  clientName : string;
  quoteNumber : string;
  validityDays : float;
  date : string }.

(** The state before the first event; [today] is the date of the day. *)
Definition initial_meta (today : string) : Meta :=
  {| clientName := "Cliente"; quoteNumber := "COT-001"; validityDays := 7; date := today |}.

(** The handler of the input of the validity, the same in both
    variants; [v] is the text of the input. *)
Definition onValidityChange (v : string) (q : Meta) : Meta :=
  {| clientName := clientName q; quoteNumber := quoteNumber q;
     validityDays := JsMath.max 1 (number_or (VStr v) 1); date := date q |}.

(** The name under which the document is saved, before its extension:
    [kind] is [cotizacion] in the admin variant and [boleta] in the
    basic one. *)
Definition fileName (kind : string) (q : Meta) : string :=
  sanitizeFilename (quoteNumber q +:+ "_" +:+ clientName q +:+ "_" +:+ kind).

Definition savedAs (kind : string) (q : Meta) : string := fileName kind q +:+ ".pdf".

(** [currency] in a template literal. *)
Definition currency_code (c : Currency) : string := if is_PEN c then "PEN" else "USD".

(** [Math.round(rate * 100)] in a template literal or in a text node. *)
Definition percent (rate : float) : string := NumberToString (JsMath.round (rate * 100)).

End Document.

(** ** The admin variant: what the screen and the document show

    The screen is rendered after [computed] has returned, and the
    document is made from the rendered screen: the conversions made
    here, of the exchange rate and of the tax rate of the settings,
    are of values that [computed] has converted, and return. *)

Module AdminView.
Import JsString JsNumber JsValue Quote Document.

(** The exchange rate and the tax rate in the header of the screen. *)
Definition fx (st : Admin.State) : string * string :=
  ("1 USD = " +:+ NumberToString (number_or (field (Admin.settings st) "exchangeRate") 3.5)
     +:+ " PEN",
   percent (number_or (field (Admin.settings st) "igvRate") 0.18) +:+ "%").

(** The text that the input of the tax rate shows for [settings.igvRate]. *)
Definition toPercentInput (decimal : jsval) : string :=
  let n := ToNumber decimal in
  if negb (isFinite n) then ""
  else NumberToString (JsMath.round (n * 100 * 100) / 100). (* 2 decimals *)

(** The three figures of the summary on the screen, with their labels. *)
Definition summary (st : Admin.State) : list (string * formatted) :=
  let t := Admin.computed st in
  [ ("Subtotal", moneyFmt (subtotal t) (Admin.currency st));
    ("IGV (" +:+ percent (number_or (field (Admin.settings st) "igvRate") 0.18) +:+ "%)",
     moneyFmt (igv t) (Admin.currency st));
    ("Total", moneyFmt (total t) (Admin.currency st)) ].

(** The converted total shown beside the button. *)
Definition informative (st : Admin.State) : formatted :=
  moneyFmt (totalOther (Admin.computed st)) (otherCurrency (Admin.computed st)).

(** The lines at the right of the header of the document. *)
Definition rightLines (q : Meta) (st : Admin.State) : list string :=
  [ "N" +:+ chr 176 +:+ ": " +:+ quoteNumber q;
    "Fecha: " +:+ date q;
    "Cliente: " +:+ clientName q;
    "Moneda: " +:+ currency_code (Admin.currency st);
    "TC: 1 USD = "
      +:+ NumberToString (number_or (field (Admin.settings st) "exchangeRate") 3.5) +:+ " PEN";
    "IGV: " +:+ percent (number_or (field (Admin.settings st) "igvRate") 0) +:+ "%" ].

(** The three figures under the table of the document, with their labels. *)
Definition totals (st : Admin.State) : list (string * formatted) :=
  let t := Admin.computed st in
  [ ("Subtotal", moneyFmt (subtotal t) (Admin.currency st));
    ("IGV (" +:+ percent (number_or (field (Admin.settings st) "igvRate") 0) +:+ "%)",
     moneyFmt (igv t) (Admin.currency st));
    ("TOTAL", moneyFmt (total t) (Admin.currency st)) ].

End AdminView.

(** ** The basic variant: what the document shows *)

Module BasicView.
Import JsString JsNumber JsValue Quote Document.

(** The lines at the right of the header of the document; the filter
    drops a line that is empty. *)
Definition rightLines (q : Meta) (currency : Currency) : list string :=
  List.filter (fun line => negb (is_empty line))
    [ "N" +:+ chr 176 +:+ ": " +:+ quoteNumber q;
      "Fecha: " +:+ date q;
      "Cliente: " +:+ clientName q;
      "Moneda: " +:+ currency_code currency;
      "TC: 1 USD = " +:+ NumberToString Basic.EXCHANGE_RATE +:+ " PEN" ].

(** The three figures under the table of the document, with their labels. *)
Definition totals (rows : list Row) (currency : Currency) : list (string * formatted) :=
  let t := Basic.computed rows currency in
  [ ("Subtotal", moneyFmt (subtotal t) currency);
    ("IGV (" +:+ percent Basic.IGV_RATE +:+ "%)", moneyFmt (igv t) currency);
    ("TOTAL", moneyFmt (total t) currency) ].

End BasicView.

(** ** The admin variant: the other handlers of the screen *)

Module AdminEvents.
Import JsString JsNumber JsValue Quote Admin.

(** [setRows(f)] and [setCurrency(c)]. *)
Definition setRows (f : list Row -> list Row) (st : State) : State :=
  {| settings := settings st; services := services st; currency := currency st;
     rows := f (rows st); newService := newService st |}.

Definition setCurrency (c : Currency) (st : State) : State :=
  {| settings := settings st; services := services st; currency := c;
     rows := rows st; newService := newService st |}.

(** The handlers of the inputs of the form that adds a service;
    [value] is the text of the input. *)
Definition onLabelChange (value : string) (st : State) : State :=
  let p := newService st in
  setNewService
    {| new_label := value;
       new_code := JsString.or_else (new_code p) (slugifyCode value);
       new_suggestion := new_suggestion p;
       new_defaultHourlyCost := new_defaultHourlyCost p |} st.

Definition onCodeChange (value : string) (st : State) : State :=
  let p := newService st in
  setNewService
    {| new_label := new_label p;
       new_code := slugifyCode value;
       new_suggestion := new_suggestion p;
       new_defaultHourlyCost := new_defaultHourlyCost p |} st.

Definition onCostChange (value : string) (st : State) : State :=
  let p := newService st in
  setNewService
    {| new_label := new_label p;
       new_code := new_code p;
       new_suggestion := new_suggestion p;
       new_defaultHourlyCost := number_or (VStr value) 0 |} st.

Definition onSuggestionChange (value : string) (st : State) : State :=
  let p := newService st in
  setNewService
    {| new_label := new_label p;
       new_code := new_code p;
       new_suggestion := value;
       new_defaultHourlyCost := new_defaultHourlyCost p |} st.

(** The handlers of the text inputs of the company: [key] is
    [companyRuc], [companyEmail] or [companyPhone]. *)
Definition onCompanyChange (key value : string) (st : State) : State :=
  setSettings (fun s => <[key := VStr value]> s) st.

End AdminEvents.

(** ** The admin variant: the catalog written to the storage *)

Module Storage.
Import JsString JsNumber JsValue Admin.

(** What [JSON.parse] reads back from what [JSON.stringify] writes for
    a number: its decimal text read again, or [null] for a number that
    is not finite. *)
Definition json_number (x : float) : jsval :=
  if isFinite x then VNum (StringToNumber (NumberToString x)) else VNull.

(** The same for an identifier.  Of an array or an object the model
    keeps only that it is one: an object stands for it. *)
Definition json_id (i : ident) : jsval :=
  match i with
  | IdStr s => VStr s
  | IdNum x => json_number x
  | IdTrue => VBool true
  | IdRef _ => VObj []
  end.

(** The same for an entry of the catalog; a string is read back as it is. *)
Definition json_service (s : Service) : jsval :=
  VObj [ ("id", json_id (svc_id s));
         ("code", VStr (code s));
         ("label", VStr (label s));
         ("suggestion", VStr (suggestion s));
         ("defaultHourlyCost", json_number (defaultHourlyCost s)) ].

(** The effect that persists the catalog: what the storage holds
    under [STORAGE_KEYS.SERVICES] once it has run. *)
Definition persistServices (st : State) : stored :=
  Json (VArr (map json_service (services st))).

End Storage.

(** ** Vocabulary of the properties *)

Module Spec.
Import JsString JsNumber JsValue Quote.

(** *** Totals *)

(** What [Number(v) || 0] is: [NaN] and the zeros give [0], every other
    number, the infinities included, is kept. *)
Definition zero_if_nan (v : jsval) : float :=
  let n := ToNumber v in
  if is_nan n || is_zero n then 0%float else n.

(** A conversion of the row throws: of its hours or of its hourly cost. *)
Definition row_raises (r : Row) : bool :=
  raises (hours r) || raises (hourlyCost r).

(** A conversion of the settings throws: of the tax rate or of the
    exchange rate. *)
Definition rates_raise (st : Admin.State) : bool :=
  raises (field (Admin.settings st) "igvRate") ||
  raises (field (Admin.settings st) "exchangeRate").

(** What the program writes in the hours and the hourly cost of a
    row: a number when the row is made or its service changed, the
    text of the input when the user edits it. *)
Definition is_number_or_text (v : jsval) : Prop :=
  match v with
  | VNum _ | VStr _ => True
  | _ => False
  end.

Definition typed_in (r : Row) : Prop :=
  is_number_or_text (hours r) /\ is_number_or_text (hourlyCost r).

(** The coercion in which every non-finite number becomes [0]. *)
Definition zero_unless_finite (v : jsval) : float :=
  let n := ToNumber v in
  if isFinite n then n else 0%float.

(** The items are the rows priced one by one, in order: the hours and
    the hourly cost coerced by [coerce], the subtotal their product. *)
Definition priced_by (coerce : jsval -> float) (rows : list Row) (l : list Item) : Prop :=
  Forall2
    (fun r it =>
       it_id it = row_id r /\ it_serviceType it = serviceType r /\ it_detail it = detail r /\
       it_hours it = coerce (hours r) /\
       it_hourlyCost it = coerce (hourlyCost r) /\
       it_subtotal it = (it_hours it * it_hourlyCost it)%float)
    rows l.

(** The subtotal is the sum of the subtotals of the items, the tax is
    the subtotal times the rate, the total is their sum. *)
Definition summed_at (taxRate : float) (t : Totals) : Prop :=
  subtotal t = fold_left PrimFloat.add (map it_subtotal (items t)) 0%float /\
  igv t = (subtotal t * taxRate)%float /\
  total t = (subtotal t + igv t)%float.

(** *** The exported table *)

(** A row of the exported table made of a label, a detail and an amount only. *)
Definition label_detail_amount (row : list cell) : Prop :=
  exists l d f, row = [Text l; Text d; Money f].

(** The label of a service in the admin variant: the label of the
    first entry of the catalog with the code, and the code itself when
    no entry has it or when that label is empty. *)
Definition admin_label (services : list Admin.Service) (c : string) : string :=
  match Admin.getServiceByCode services c with
  | Some s => JsString.or_else (Admin.label s) c
  | None => c
  end.

(** The derived subtotal of a row. *)
Definition derived_subtotal (r : Row) : float :=
  (zero_if_nan (hours r) * zero_if_nan (hourlyCost r))%float.

(** The row of the table for a line in the admin variant: the label of
    its service, its detail, its subtotal formatted as money. *)
Definition admin_exported (services : list Admin.Service) (c : Currency) (r : Row) :
    list cell :=
  [ Text (admin_label services (serviceType r));
    Text (detail r);
    Money (moneyFmt (derived_subtotal r) c) ].

(** The same in the basic variant, where the hours come third. *)
Definition basic_exported (c : Currency) (r : Row) : list cell :=
  [ Text (Basic.getServiceLabel (serviceType r));
    Text (detail r);
    Text (NumberToString (zero_if_nan (hours r)));
    Money (moneyFmt (derived_subtotal r) c) ].

(** What the exported table may depend on: the service, the detail and
    the derived subtotal of every line. *)
Definition exported_view (t : Totals) : list (string * string * float) :=
  map (fun it => (it_serviceType it, it_detail it, it_subtotal it)) (items t).

(** The same, with the hours. *)
Definition exported_view_with_hours (t : Totals) : list (string * string * float * float) :=
  map (fun it => (it_serviceType it, it_detail it, it_hours it, it_subtotal it)) (items t).

(** *** The conversion *)





(** The number 1 in binary64: the mantissa [2^52] with the exponent [-52]. *)
Definition one_SF : spec_float := S754_finite false 4503599627370496 (-52).

(** The exchange rate of the settings as a number, and whether
    [Number(rate) || 1] replaces it: it is NaN or a zero. *)
Definition stored_rate (st : Admin.State) : float :=
  ToNumber (field (Admin.settings st) "exchangeRate").

Definition unusable (r : float) : bool := is_nan r || is_zero r.

Definition finite_or_zero (x : float) : float := if isFinite x then x else 0%float.


(** *** The catalog and the rows *)

(** No two entries of the catalog have the same code. *)
Definition unique_codes (services : list Admin.Service) : Prop :=
  NoDup (map Admin.code services).

(** No two entries of the catalog have the same identifier. *)
Definition distinct_ids (services : list Admin.Service) : Prop :=
  forall i j s t,
    services !! i = Some s -> services !! j = Some t ->
    Admin.same_id (Admin.svc_id s) (Admin.svc_id t) = true -> i = j.

(** A conversion of the stored entry throws: of its code, its label,
    its suggestion or its default hourly cost. *)
Definition entry_raises (s : jsval) : bool :=
  raises (get s "code") || raises (get s "label") ||
  raises (JsValue.or_else (get s "suggestion") (VStr "")) ||
  raises (JsValue.or_else (get s "defaultHourlyCost") (VNum 0)).

(** The codes, as strings, of the stored entries that have a code and
    a label. *)
Definition stored_codes (saved : list jsval) : list string :=
  map (fun s => ToString (get s "code")) (List.filter Admin.kept saved).

(** The entry [s] is the first one of the catalog with the code [c]. *)
Definition first_with_code (services : list Admin.Service) (c : string)
    (s : Admin.Service) : Prop :=
  exists before after,
    services = before ++ s :: after /\ Admin.code s = c /\
    Forall (fun x => Admin.code x <> c) before.

(** The code of a row is the code of an entry of the catalog. *)
Definition resolves (services : list Admin.Service) (r : Row) : Prop :=
  exists s, In s services /\ Admin.code s = serviceType r.

(** A row with its service replaced. *)
Definition reassigned (c : string) (r : Row) : Row :=
  {| row_id := row_id r; serviceType := c; detail := detail r;
     hours := hours r; hourlyCost := hourlyCost r |}.

(** Row by row: a row that resolves in the catalog is kept as it is,
    any other row is reassigned to the code [c]. *)
Definition reconciled (services : list Admin.Service) (c : string)
    (rows rows' : list Row) : Prop :=
  Forall2
    (fun r r' =>
       (resolves services r -> r' = r) /\
       (~ resolves services r -> r' = reassigned c r))
    rows rows'.

(** The ways in which the catalog is written: the three handlers of
    the admin panel, the load from the storage, and a replacement of
    the whole catalog from outside. *)
Inductive catalog_change : Type :=
  | Added (id : string)
  | Updated (id : Admin.ident) (p : Admin.ServicePatch)
  | Deleted (id : Admin.ident) (answer : bool)
  | Loaded (fresh : nat -> string) (item : Admin.stored)
  | Replaced (l : list Admin.Service).

Definition change (c : catalog_change) (st : Admin.State) : Admin.State :=
  match c with
  | Added id => fst (Admin.addServiceFromAdmin id st)
  | Updated id p => Admin.updateService id p st
  | Deleted id answer => fst (Admin.deleteService id answer st)
  | Loaded fresh item => Admin.loadServices fresh item st
  | Replaced l => Admin.setServices (fun _ => l) st
  end.

(** Row by row: the rows with the identifier [rowId] take the service
    [c] and the hourly cost [cost], every other row is unchanged. *)
Definition service_changed (rowId c : string) (cost : float) (rows rows' : list Row) : Prop :=
  Forall2
    (fun r r' =>
       (row_id r = rowId ->
        row_id r' = rowId /\ serviceType r' = c /\ hours r' = hours r /\
        hourlyCost r' = VNum cost) /\
       (row_id r <> rowId -> r' = r))
    rows rows'.

(** Row by row: the rows with the identifier [rowId] take the service
    [c] and keep their hours and their hourly cost, every other row is
    unchanged. *)
Definition service_renamed (rowId c : string) (rows rows' : list Row) : Prop :=
  Forall2
    (fun r r' =>
       (row_id r = rowId ->
        row_id r' = rowId /\ serviceType r' = c /\ hours r' = hours r /\
        hourlyCost r' = hourlyCost r) /\
       (row_id r <> rowId -> r' = r))
    rows rows'.

(** *** The form that adds a service *)

(** The label and the code that [addServiceFromAdmin] resolves from the form. *)
Definition form_label (st : Admin.State) : string :=
  trim (JsString.or_else (Admin.new_label (Admin.newService st)) "").

Definition form_code (st : Admin.State) : string :=
  trim (JsString.or_else (Admin.new_code (Admin.newService st))
          (Admin.slugifyCode (form_label st))).

(** The entry that [addServiceFromAdmin] makes from the form. *)
Definition form_entry (id : string) (st : Admin.State) : Admin.Service :=
  {| Admin.svc_id := Admin.IdStr id;
     Admin.code := form_code st;
     Admin.label := form_label st;
     Admin.suggestion := JsString.or_else (Admin.new_suggestion (Admin.newService st)) "";
     Admin.defaultHourlyCost :=
       JsNumber.or_else (Admin.new_defaultHourlyCost (Admin.newService st)) 0 |}.

(** The form is rejected: no label, no code, or a code of the catalog. *)
Definition rejected (st : Admin.State) : Prop :=
  form_label st = "" \/ form_code st = "" \/
  In (form_code st) (map Admin.code (Admin.services st)).

(** [addServiceFromAdmin] called once for each identifier of a list. *)
Definition add_repeatedly (ids : list string) (st : Admin.State) : Admin.State :=
  fold_left (fun s id => fst (Admin.addServiceFromAdmin id s)) ids st.

(** *** The settings *)

(** The fields of the settings. *)
Definition setting_names : list string :=
  [ "exchangeRate"; "igvRate"; "companyName"; "companyRuc"; "companyEmail"; "companyPhone" ].

(** The value that the properties [props] of a parsed object give to
    the key [k]: the last one, if any. *)
Definition last_binding (props : list (string * jsval)) (k : string) : option jsval :=
  snd <$> find (fun p => String.eqb (fst p) k) (rev props).

(** What the storage holds is not the text of an object. *)
Definition not_an_object (item : Admin.stored) : Prop :=
  match item with
  | Admin.Json (VObj _) => False
  | _ => True
  end.

Definition starts_with_digit (s : string) : bool :=
  match s with
  | String c _ => is_digit c
  | EmptyString => false
  end.

End Spec.

(** ** Vocabulary of the further properties *)

Module More.
Import JsString JsNumber JsValue Quote Spec.

(** *** Strings *)

(** Every character of the string is of the class. *)
Fixpoint every (p : ascii -> bool) (s : string) : bool :=
  match s with
  | EmptyString => true
  | String c s' => p c && every p s'
  end.

(** Some character of the string is of the class. *)
Fixpoint some (p : ascii -> bool) (s : string) : bool :=
  match s with
  | EmptyString => false
  | String c s' => p c || some p s'
  end.

Definition starts_outside (p : ascii -> bool) (s : string) : bool :=
  match s with
  | EmptyString => true
  | String c _ => negb (p c)
  end.

(** No two adjacent characters of the string are both of the class. *)
Fixpoint no_two (p : ascii -> bool) (s : string) : bool :=
  match s with
  | EmptyString => true
  | String c s' => (negb (p c) || starts_outside p s') && no_two p s'
  end.

Definition is_underscore (c : ascii) : bool := (code c =? 95)%N.

(** A small letter of the English alphabet, a digit, an underscore or a hyphen. *)
Definition slug_char (c : ascii) : bool :=
  between 97 122 c || is_digit c || is_underscore c || (code c =? 45)%N.

(** At most 40 such characters, no two underscores in a row. *)
Definition is_slug (s : string) : bool :=
  (String.length s <=? 40)%nat && every slug_char s && no_two is_underscore s.

(** Neither white space nor a character reserved in file names. *)
Definition safe_char (c : ascii) : bool :=
  negb (Document.reserved c) && negb (is_space c).

(** The first string of the list that is not empty, if any. *)
Definition first_nonempty (l : list string) : string :=
  default "" (head (List.filter (fun s => negb (is_empty s)) l)).

(** *** Rows and totals *)

(** A row without text in its detail. *)
Definition blank_detail (r : Row) : Prop := trim (detail r) = "".

(** Two lists of items that differ at most in the service of an item. *)
Definition same_amounts (l l' : list Item) : Prop :=
  Forall2
    (fun it it' =>
       it_id it' = it_id it /\ it_detail it' = it_detail it /\
       it_hours it' = it_hours it /\ it_hourlyCost it' = it_hourlyCost it /\
       it_subtotal it' = it_subtotal it)
    l l'.

(** Some line of the quotation has a subtotal that is not finite. *)
Definition some_line_not_finite (rows : list Row) : Prop :=
  Exists (fun r => isFinite (it_subtotal (line_item r)) = false) rows.

(** The six figures are shown as zero: the three of the selected
    currency are formatted as [0], the three converted ones are [0]. *)
Definition shown_as_zero (c : Currency) (t : Totals) : Prop :=
  moneyFmt (subtotal t) c = moneyFmt 0 c /\
  moneyFmt (igv t) c = moneyFmt 0 c /\
  moneyFmt (total t) c = moneyFmt 0 c /\
  subtotalOther t = 0%float /\ igvOther t = 0%float /\ totalOther t = 0%float.

(** An amount formatted in the locale of the currency [c], from a
    number that is finite. *)
Definition finite_money (c : Currency) (f : formatted) : Prop :=
  match f with
  | IntlCurrency locale c' amount =>
      locale = (if is_PEN c then "es-PE" else "en-US") /\ c' = c /\ isFinite amount = true
  end.

(** The last cell of a row of a table is such an amount. *)
Definition ends_with_finite_money (c : Currency) (row : list cell) : Prop :=
  exists cells f, row = cells ++ [Money f] /\ finite_money c f.

(** A row of the table of the basic variant without its column of hours. *)
Definition without_hours (row : list cell) : list cell :=
  match row with
  | [l; d; _; a] => [l; d; a]
  | _ => row
  end.

(** *** The catalog *)

(** No entry of the catalog has the identifier. *)
Definition fresh_id (id : Admin.ident) (services : list Admin.Service) : Prop :=
  Forall (fun s => Admin.same_id (Admin.svc_id s) id = false) services.

(** What the handlers maintain: a catalog with at least one entry,
    with distinct identifiers and distinct codes, each code a slug that
    is not empty; rows whose services are all in the catalog; a form
    whose code is a slug. *)
Record sound (st : Admin.State) : Prop := {
  sound_nonempty : Admin.services st <> [];
  sound_ids : distinct_ids (Admin.services st);
  sound_codes : unique_codes (Admin.services st);
  sound_slugs :
    Forall (fun s => is_slug (Admin.code s) = true /\ Admin.code s <> "") (Admin.services st);
  sound_rows : Forall (resolves (Admin.services st)) (Admin.rows st);
  sound_form : is_slug (Admin.new_code (Admin.newService st)) = true }.

(** One event of the screen of the admin variant, the load from the
    storage apart.  The list of a row offers the codes of the catalog,
    and [safeId()] gives a new service an identifier that no entry has. *)
Inductive handled : Admin.State -> Admin.State -> Prop :=
  | handled_addRow id st :
      handled st (Admin.addRow id st)
  | handled_removeRow id st :
      handled st (AdminEvents.setRows (removeRow id) st)
  | handled_updateRow id p st :
      handled st (AdminEvents.setRows (updateRow id p) st)
  | handled_serviceChange id c st :
      In c (map Admin.code (Admin.services st)) ->
      handled st
        (AdminEvents.setRows (Admin.handleServiceChange (Admin.services st) id c) st)
  | handled_currency c st :
      handled st (AdminEvents.setCurrency c st)
  | handled_exchangeRate v st :
      handled st (Admin.onExchangeRateChange v st)
  | handled_igvRate v st :
      handled st (Admin.onIgvRateChange v st)
  | handled_company k v st :
      handled st (AdminEvents.onCompanyChange k v st)
  | handled_label v st :
      handled st (AdminEvents.onLabelChange v st)
  | handled_code v st :
      handled st (AdminEvents.onCodeChange v st)
  | handled_cost v st :
      handled st (AdminEvents.onCostChange v st)
  | handled_suggestion v st :
      handled st (AdminEvents.onSuggestionChange v st)
  | handled_add id st :
      fresh_id (Admin.IdStr id) (Admin.services st) ->
      handled st (fst (Admin.addServiceFromAdmin id st))
  | handled_update id p st :
      handled st (Admin.updateService id p st)
  | handled_delete id answer st :
      handled st (fst (Admin.deleteService id answer st)).

(** The states that a session reaches from its first state. *)
Definition reachable (id : string) (st : Admin.State) : Prop :=
  rtc handled (Admin.initial id) st.

(** The suggestion of the service with the code [c], if any. *)
Definition suggested (services : list Admin.Service) (c : string) : string :=
  match Admin.getServiceByCode services c with
  | Some s => Admin.suggestion s
  | None => ""
  end.

Definition basic_suggested (c : string) : string :=
  match Basic.find_entry c with
  | Some s => Basic.suggestion s
  | None => ""
  end.

(** The label of the new service typed in: the handler of the input
    runs once for each text that the input holds in turn. *)
Definition type_label (texts : list string) (st : Admin.State) : Admin.State :=
  fold_left (fun s t => AdminEvents.onLabelChange t s) texts st.

(** *** The storage *)

(** An entry that the load keeps: its code and its label are not empty. *)
Definition usable (s : Admin.Service) : bool :=
  negb (is_empty (Admin.code s)) && negb (is_empty (Admin.label s)).

(** The default cost of an entry after it was written and loaded. *)
Definition reread (x : float) : float :=
  ToNumber (JsValue.or_else (Storage.json_number x) (VNum 0)).

Definition reloaded (s : Admin.Service) : Admin.Service :=
  {| Admin.svc_id := Admin.svc_id s; Admin.code := Admin.code s;
     Admin.label := Admin.label s; Admin.suggestion := Admin.suggestion s;
     Admin.defaultHourlyCost := reread (Admin.defaultHourlyCost s) |}.

(** The identifier is a string that is not empty, as [safeId()] gives. *)
Definition string_id (s : Admin.Service) : Prop :=
  exists t, Admin.svc_id s = Admin.IdStr t /\ t <> "".

End More.

(** ** Inputs used in the examples *)

Module Sample.
Import JsString JsNumber JsValue Quote.

Definition row (id service : string) (h c : jsval) : Row :=
  {| row_id := id; serviceType := service; detail := ""; hours := h; hourlyCost := c |}.

(** The admin variant when it is mounted, and the identifiers that
    [safeId()] returns while loading. *)
Definition start : Admin.State := Admin.initial "r1".

Definition fresh (i : nat) : string := "fresh" +:+ index_key i.

Definition with_rows (rows : list Row) (st : Admin.State) : Admin.State :=
  {| Admin.settings := Admin.settings st; Admin.services := Admin.services st;
     Admin.currency := Admin.currency st; Admin.rows := rows;
     Admin.newService := Admin.newService st |}.

Definition with_form (n : Admin.NewService) (st : Admin.State) : Admin.State :=
  {| Admin.settings := Admin.settings st; Admin.services := Admin.services st;
     Admin.currency := Admin.currency st; Admin.rows := Admin.rows st;
     Admin.newService := n |}.

(** The three rows the basic variant starts with. *)
Definition three_rows : list Row :=
  [ row "r1" "creacion_web" (VNum 20) (VNum 60);
    row "r2" "mantenimiento_web" (VNum 8) (VNum 50);
    row "r3" "diseno_figma" (VNum 12) (VNum 55) ].

(** A stored catalog whose only entry has an infinite default cost:
    what [JSON.parse] returns for a text in which the default cost of
    the entry is written 1e999. *)
Definition costly_catalog : jsval :=
  VArr [ VObj [("code", VStr "obra"); ("label", VStr "Obra");
               ("defaultHourlyCost", VNum infinity)] ].

(** The state after loading that catalog and adding a row. *)
Definition quoted_at_infinite_cost : Admin.State :=
  Admin.addRow "r2" (Admin.load fresh Admin.NoItem (Admin.Json costly_catalog) start).

(** Two rows with the same subtotal, split differently into hours and cost. *)
Definition two_by_three : Row := row "r1" "creacion_web" (VNum 2) (VNum 3).
Definition three_by_two : Row := row "r1" "creacion_web" (VNum 3) (VNum 2).

(** The initial state with one row for each of two services. *)
Definition two_services_quoted : Admin.State :=
  with_rows [ row "r1" "mantenimiento_web" (VNum 8) (VNum 50);
              row "r2" "creacion_web" (VNum 20) (VNum 60) ] start.

(** The second entry of the default catalog. *)
Definition maintenance : Admin.Service :=
  nth 1 Admin.DEFAULT_SERVICES
    {| Admin.svc_id := Admin.IdStr ""; Admin.code := ""; Admin.label := "";
       Admin.suggestion := ""; Admin.defaultHourlyCost := 0 |}.

(** The form filled with a new service. *)
Definition hosting_form : Admin.NewService :=
  {| Admin.new_label := "  Hosting anual "; Admin.new_code := "";
     Admin.new_suggestion := "Dominio y servidor."; Admin.new_defaultHourlyCost := 75 |}.

(** The form filled with a code that the default catalog has. *)
Definition duplicate_form : Admin.NewService :=
  {| Admin.new_label := "Otra web"; Admin.new_code := "creacion_web";
     Admin.new_suggestion := ""; Admin.new_defaultHourlyCost := 40 |}.

(** A stored catalog, as [JSON.parse] returns it, in which two entries
    have the code [a] and the identifier [x]. *)
Definition twins : jsval :=
  VArr [ VObj [("id", VStr "x"); ("code", VStr "a"); ("label", VStr "A")];
         VObj [("id", VStr "x"); ("code", VStr "a"); ("label", VStr "B")] ].

(** A catalog with a service whose default hourly cost is 75. *)
Definition hosting : Admin.Service :=
  {| Admin.svc_id := Admin.IdStr "srv_hosting"; Admin.code := "hosting";
     Admin.label := "Hosting"; Admin.suggestion := "Dominio y servidor.";
     Admin.defaultHourlyCost := 75 |}.

Definition with_hosting : list Admin.Service := Admin.DEFAULT_SERVICES ++ [hosting].

(** Stored settings, as [JSON.parse] returns them, whose tax rate is
    an object with the property [toString], of value 1. *)
Definition settings_with_object_rate : jsval :=
  VObj [("igvRate", VObj [("toString", VNum 1)])].

(** A stored catalog whose second entry has for label an object with
    the property [toString]. *)
Definition unconvertible : jsval :=
  VArr [ VObj [("id", VStr "x"); ("code", VStr "a"); ("label", VStr "A")];
         VObj [("id", VStr "y"); ("code", VStr "b");
               ("label", VObj [("toString", VNum 1)])] ].

(** A stored catalog in which an entry has the code 1, a number, and
    another one the code 1, a text. *)
Definition number_and_text : jsval :=
  VArr [ VObj [("id", VStr "x"); ("code", VNum 1); ("label", VStr "A")];
         VObj [("id", VStr "y"); ("code", VStr "1"); ("label", VStr "B")] ].

(** A stored catalog in which two entries have the code [a], with the
    default hourly costs 10 and 75, and the second of these entries. *)
Definition two_prices : jsval :=
  VArr [ VObj [("id", VStr "x"); ("code", VStr "a"); ("label", VStr "A");
               ("defaultHourlyCost", VNum 10)];
         VObj [("id", VStr "y"); ("code", VStr "a"); ("label", VStr "B");
               ("defaultHourlyCost", VNum 75)] ].

Definition dearer : Admin.Service :=
  {| Admin.svc_id := Admin.IdStr "y"; Admin.code := "a"; Admin.label := "B";
     Admin.suggestion := ""; Admin.defaultHourlyCost := 75 |}.

(** A row whose fields were typed in: their product overflows. *)
Definition overflowing : Row := row "r1" "creacion_web" (VStr "1e200") (VStr "1e200").


End Sample.

(** * Properties *)

Import JsString JsNumber JsValue Quote Spec.

(** ** The conversions on sample inputs *)

Example StringToNumber_samples :
  map StringToNumber
    [ "12.5"; " 42 "; ""; ".5"; "5."; "1e3"; "-0.18"; "0x1F"; "Infinity";
      "1e999"; "4.9e-324" ]
  = [ 12.5; 42; 0; 0.5; 5; 1000; -0.18; 31; infinity; infinity; 5e-324 ]%float /\
  forallb (fun s => is_nan (StringToNumber s))
    [ "abc"; "1,5"; "1e"; "."; "--1"; "0x"; "-0x10"; "12px"; "infinity" ] = true.
Proof. vm_compute. split; reflexivity. Qed.

Example NumberToString_samples :
  map NumberToString
    [ 20; 0.5; -12.5; 406.8; 0.1 + 0.2; 1e21; 123456789012345680000; 1e-7;
      0.000001; 5e-324; 1.7976931348623157e308; -0; nan; neg_infinity ]%float
  = [ "20"; "0.5"; "-12.5"; "406.8"; "0.30000000000000004"; "1e+21";
      "123456789012345680000"; "1e-7"; "0.000001"; "5e-324";
      "1.7976931348623157e+308"; "0"; "NaN"; "-Infinity" ].
Proof. vm_compute. reflexivity. Qed.

Example ToNumber_samples :
  map ToNumber
    [ VNull; VBool true; VStr " 3.5 "; VArr []; VArr [VNum 5]; VArr [VStr "0x10"] ]
  = [ 0; 1; 3.5; 0; 5; 16 ]%float /\
  forallb (fun v => is_nan (ToNumber v))
    [ VUndefined; VStr "x"; VArr [VNum 1; VNum 2]; VObj [] ] = true.
Proof. vm_compute. split; reflexivity. Qed.

Example slugifyCode_samples :
  map Admin.slugifyCode
    [ "Hosting anual"; "  Dise" +:+ chr 241 +:+ "o   UI - en_Figma__x  "; "a _ b"; "!!!";
      "Mantenimiento Avanzado de Servidores y Bases de Datos" ]
  = [ "hosting_anual"; "diseo_ui_-_en_figma_x"; "a_b"; "";
      "mantenimiento_avanzado_de_servidores_y_b" ].
Proof. vm_compute. reflexivity. Qed.

(** ** Facts about binary64 *)


Lemma SFcompare_same (s : spec_float) :
  SFcompare s s = match s with S754_nan => None | _ => Some Eq end.
Proof.
  destruct s as [[]|[]| |[] m e]; try reflexivity; cbn;
    rewrite Z.compare_refl; change (Pos.compare_cont Eq m m) with (Pos.compare m m);
    now rewrite Pos.compare_refl.
Qed.

Lemma is_nan_SF (x : float) :
  is_nan x = match Prim2SF x with S754_nan => true | _ => false end.
Proof.
  unfold is_nan. rewrite FloatAxioms.eqb_spec. unfold SFeqb. rewrite SFcompare_same.
  now destruct (Prim2SF x).
Qed.

Lemma is_infinity_SF (x : float) :
  is_infinity x = match Prim2SF x with S754_infinity _ => true | _ => false end.
Proof.
  unfold is_infinity. rewrite FloatAxioms.eqb_spec, abs_spec.
  change (Prim2SF infinity) with (S754_infinity false).
  now destruct (Prim2SF x) as [[]|[]| |[] m e].
Qed.

Lemma isFinite_SF (x : float) :
  isFinite x = match Prim2SF x with S754_nan | S754_infinity _ => false | _ => true end.
Proof.
  unfold isFinite. rewrite is_nan_SF, is_infinity_SF. now destruct (Prim2SF x).
Qed.

Lemma SFmul_one_r (x : spec_float) :
  valid_binary x = true -> SF64mul x one_SF = x.
Proof.
  destruct x as [s|s| |s m e]; intros Hv;
    [now destruct s | now destruct s | reflexivity | ].
  cbn in Hv. cbn -[binary_round_aux].
  unfold bounded, canonical_mantissa in Hv.
  apply andb_prop in Hv as [Hc Hb]. apply Z.eqb_eq in Hc.
  unfold binary_round_aux, shr_fexp.
  rewrite Pos.mul_comm. cbv [Pos.mul].
  cbn [Zdigits2 digits2_pos].
  rewrite !Pos2Z.inj_succ.
  replace (fexp prec emax _ - (e + -52)) with 52.
  2:{ match goal with
      | |- _ = fexp _ _ ?a - _ => replace a with (Z.pos (digits2_pos m) + e) by lia
      end. lia. }
  cbn -[fexp Z.add Z.sub Z.leb prec emax].
  replace (e + -52 + 52) with e by lia.
  rewrite Hc, Z.sub_diag. cbn -[Z.leb prec emax Z.sub].
  rewrite Hb. now destruct s.
Qed.

Lemma SFdiv_one_r (x : spec_float) :
  valid_binary x = true -> SF64div x one_SF = x.
Proof.
  destruct x as [s|s| |s m e]; intros Hv;
    [now destruct s | now destruct s | reflexivity | ].
  cbn in Hv. unfold bounded, canonical_mantissa in Hv.
  apply andb_prop in Hv as [Hc Hb]. apply Z.eqb_eq in Hc.
  unfold SF64div, SFdiv, one_SF, SFdiv_core_binary.
  cbn [Zdigits2 digits2_pos].
  set (d := Z.pos (digits2_pos m)) in *.
  assert (Hd : 0 < d) by (unfold d; lia).
  change (Z.pos (Pos.succ _)) with 53.
  unfold fexp, SpecFloat.emin in Hc. change prec with 53 in *. change emax with 1024 in *.
  unfold fexp, SpecFloat.emin.
  destruct (Z.eq_dec e (-1074)) as [He|He].
  - subst e.
    replace (Z.min _ _) with (-1074) by lia.
    change (-1074 - -52 - -1074) with 52.
    cbv beta iota. rewrite Z.shiftl_mul_pow2 by lia.
    change (2 ^ 52) with 4503599627370496.
    pose proof (Z.mod_mul (Z.pos m) 4503599627370496 ltac:(lia)) as Hr.
    pose proof (Z.div_mul (Z.pos m) 4503599627370496 ltac:(lia)) as Hdv.
    unfold Z.modulo, Z.div in Hr, Hdv.
    destruct (Z.div_eucl _ _) as [q r]. subst q r.
    cbn -[Z.leb Z.sub Z.add Z.max].
    unfold binary_round_aux, shr_fexp, fexp, SpecFloat.emin.
    cbn [Zdigits2 shr_record_of_loc]. fold d.
    rewrite Hc, Z.sub_diag. cbn -[Z.leb Z.sub Z.add Z.max].
    fold d. rewrite Hc, Z.sub_diag. cbn -[Z.leb Z.sub Z.add Z.max].
    rewrite Hb. now destruct s.
  - assert (d = 53 /\ -1074 < e) as [Hd53 He'] by lia.
    rewrite Hd53.
    replace (Z.min _ _) with (e - 1) by lia.
    replace (e - -52 - (e - 1)) with 53 by lia.
    cbv beta iota. rewrite Z.shiftl_mul_pow2 by lia.
    change (2 ^ 53) with (2 * 4503599627370496).
    rewrite Z.mul_assoc.
    pose proof (Z.mod_mul (Z.pos m * 2) 4503599627370496 ltac:(lia)) as Hr.
    pose proof (Z.div_mul (Z.pos m * 2) 4503599627370496 ltac:(lia)) as Hdv.
    unfold Z.modulo, Z.div in Hr, Hdv.
    destruct (Z.div_eucl _ _) as [q r]. subst q r.
    rewrite Z.mul_comm. change (2 * Z.pos m) with (Z.pos m~0).
    cbn -[Z.leb Z.sub Z.add Z.max].
    unfold binary_round_aux, shr_fexp, fexp, SpecFloat.emin.
    cbn [Zdigits2 shr_record_of_loc digits2_pos].
    rewrite Pos2Z.inj_succ. fold d. rewrite Hd53.
    replace (Z.max _ _ - (e - 1)) with 1 by lia.
    cbn -[Z.leb Z.sub Z.add Z.max].
    replace (e - 1 + 1) with e by lia.
    fold d. rewrite Hd53.
    replace (Z.max _ _ - e) with 0 by lia.
    cbn -[Z.leb Z.sub Z.add Z.max].
    rewrite Hb. now destruct s.
Qed.

(** Multiplying and dividing by one are exact. *)
Lemma float_mul_one (x : float) : (x * 1)%float = x.
Proof.
  apply Prim2SF_inj. rewrite mul_spec.
  change (Prim2SF 1) with one_SF. apply SFmul_one_r, Prim2SF_valid.
Qed.

Lemma float_div_one (x : float) : (x / 1)%float = x.
Proof.
  apply Prim2SF_inj. rewrite div_spec.
  change (Prim2SF 1) with one_SF. apply SFdiv_one_r, Prim2SF_valid.
Qed.

(** ** The totals (C1) *)

(** A [map] whose callback throws for the elements [bad], and returns
    what [g] gives for the other ones. *)
Lemma map_calls_cases {A B : Type} (f : nat -> A -> completion B) (g : nat -> A -> B)
    (bad : A -> bool) (l : list A) :
  (forall i x, f i x = if bad x then Throws else Returns (g i x)) ->
  map_calls f l = if existsb bad l then Throws else Returns (imap g l).
Proof.
  revert f g. induction l as [|x l IH]; intros f g H; [reflexivity|].
  cbn [map_calls existsb imap]. rewrite (H 0%nat x).
  destruct (bad x); [reflexivity|]. cbn.
  rewrite (IH (fun i => f (S i)) (fun i => g (S i))) by (intros i y; apply H).
  now destruct (existsb bad l).
Qed.

Lemma call_line_item_cases (r : Row) :
  call_line_item r = if row_raises r then Throws else Returns (line_item r).
Proof.
  unfold call_line_item, call_Number, row_raises, line_item, number_or.
  now destruct (raises (hours r)), (raises (hourlyCost r)).
Qed.

Lemma call_line_items (rows : list Row) :
  map_calls (fun _ => call_line_item) rows
  = if existsb row_raises rows then Throws else Returns (map line_item rows).
Proof.
  rewrite (map_calls_cases _ (fun _ => line_item) row_raises)
    by (intros _ r; apply call_line_item_cases).
  destruct (existsb row_raises rows); [reflexivity|]. f_equal.
  induction rows as [|r rows IH]; [reflexivity|]. cbn [imap map]. now rewrite <- IH.
Qed.

Lemma basic_call_computed (rows : list Row) (currency : Currency) :
  Basic.call_computed rows currency
  = if existsb row_raises rows then Throws else Returns (Basic.computed rows currency).
Proof.
  unfold Basic.call_computed. rewrite call_line_items.
  now destruct (existsb row_raises rows).
Qed.

Lemma admin_call_computed (st : Admin.State) :
  Admin.call_computed st
  = if existsb row_raises (Admin.rows st) || rates_raise st then Throws
    else Returns (Admin.computed st).
Proof.
  unfold Admin.call_computed, rates_raise, call_Number. rewrite call_line_items.
  destruct (existsb row_raises (Admin.rows st)); [reflexivity|]. cbn.
  destruct (raises (field (Admin.settings st) "igvRate")); [reflexivity|]. cbn.
  now destruct (raises (field (Admin.settings st) "exchangeRate")).
Qed.

(** The rows that the inputs of the screen write hold numbers and
    texts: no conversion of such a row throws. *)
Lemma typed_rows_do_not_raise (rows : list Row) :
  Forall typed_in rows -> existsb row_raises rows = false.
Proof.
  induction 1 as [|r rows [Hh Hc] _ IH]; [reflexivity|].
  cbn [existsb]. unfold row_raises.
  destruct (hours r); try contradiction; destruct (hourlyCost r); try contradiction;
    exact IH.
Qed.

(** The settings are read from the storage as they are: a stored tax
    rate that is an object with a property [toString] is kept, and
    [computed] throws when it converts it. *)
Example computed_throws_on_stored_rate :
  field
    (Admin.settings
       (Admin.load Sample.fresh (Admin.Json Sample.settings_with_object_rate) Admin.NoItem
          Sample.start))
    "igvRate"
  = VObj [("toString", VNum 1)] /\
  Admin.call_computed
    (Admin.load Sample.fresh (Admin.Json Sample.settings_with_object_rate) Admin.NoItem
       Sample.start)
  = Throws.
Proof. split; vm_compute; reflexivity. Qed.

Lemma number_or_zero (v : jsval) : number_or v 0 = zero_if_nan v.
Proof.
  unfold number_or, JsNumber.or_else, JsNumber.truthy, zero_if_nan.
  now destruct (is_nan (ToNumber v) || is_zero (ToNumber v)).
Qed.

Lemma sum_subtotals_fold (l : list Item) (a : float) :
  fold_left (fun acc it => (acc + it_subtotal it)%float) l a
  = fold_left PrimFloat.add (map it_subtotal l) a.
Proof.
  revert a; induction l as [|it l IH]; intros a; [reflexivity|].
  cbn [fold_left map]. apply IH.
Qed.

Lemma line_items_priced (rows : list Row) :
  priced_by zero_if_nan rows (map line_item rows).
Proof.
  induction rows as [|r rows IH]; constructor; [|exact IH].
  unfold line_item; cbn. rewrite !number_or_zero. repeat split.
Qed.

(** A text that is no numeral counts as zero, an infinite number is kept. *)
Lemma zero_if_nan_cases (v : jsval) :
  (is_nan (ToNumber v) = true -> zero_if_nan v = 0%float) /\
  (is_infinity (ToNumber v) = true -> zero_if_nan v = ToNumber v).
Proof.
  unfold zero_if_nan. split; intros H.
  - now rewrite H.
  - replace (is_nan (ToNumber v) || is_zero (ToNumber v)) with false; [reflexivity|].
    assert (Prim2SF_inf : exists s, Prim2SF (ToNumber v) = S754_infinity s).
    { unfold is_infinity in H. rewrite FloatAxioms.eqb_spec, abs_spec in H.
      change (Prim2SF infinity) with (S754_infinity false) in H.
      destruct (Prim2SF (ToNumber v)) as [s|s| |s m e]; try discriminate; eauto. }
    destruct Prim2SF_inf as [s Hs].
    unfold is_nan, is_zero. rewrite !FloatAxioms.eqb_spec, Hs.
    change (Prim2SF 0) with (S754_zero false). now destruct s.
Qed.

(** The figures of the specification: three lines of 1200, 400 and 660
    at 18 % give a tax of 406.8 and a total of 2666.8. *)
Example computed_three_rows :
  let t := Basic.computed Sample.three_rows PEN in
  map it_subtotal (items t) = [1200; 400; 660]%float /\
  subtotal t = 2260%float /\ igv t = 406.8%float /\ total t = 2666.8%float.
Proof. vm_compute. repeat split. Qed.

(** C1, as stated, fails: an infinite hourly cost is not turned into 0.
    After loading a catalog whose entry has an infinite default cost,
    the row that is added has 10 hours at an infinite cost: its
    subtotal is infinite, where the claim gives 10 x 0. *)
Lemma infinite_cost_is_kept :
  Admin.rows Sample.quoted_at_infinite_cost
  = [ Sample.row "r1" "obra" (VNum 10) (VNum 60);
      Sample.row "r2" "obra" (VNum 10) (VNum infinity) ] /\
  map it_subtotal (items (Admin.computed Sample.quoted_at_infinite_cost))
  = [600; infinity]%float /\
  map (fun r => (zero_unless_finite (hours r) * zero_unless_finite (hourlyCost r))%float)
    (Admin.rows Sample.quoted_at_infinite_cost)
  = [600; 0]%float /\
  map it_subtotal (items (Admin.computed Sample.quoted_at_infinite_cost))
  <> map (fun r => (zero_unless_finite (hours r) * zero_unless_finite (hourlyCost r))%float)
       (Admin.rows Sample.quoted_at_infinite_cost) /\
  subtotal (Admin.computed Sample.quoted_at_infinite_cost) = infinity.
Proof.
  repeat split; try reflexivity. intros H.
  apply (f_equal (fun l => isFinite (nth 1 l 0%float))) in H.
  vm_compute in H. discriminate H.
Qed.

(** C1, amended: in both variants [computed] throws a [TypeError]
    when a value it converts is one for which [Number] throws (the
    hours or the hourly cost of a row and, in the admin variant, the
    tax rate or the exchange rate of the settings, which are read from
    the storage as they are), and returns otherwise; no row whose
    hours and hourly cost are numbers or texts, as the program writes
    them, makes it throw.  What it returns
    prices every row by [Number(hours) || 0] times
    [Number(hourlyCost) || 0], where a value that is no number (NaN)
    counts as 0 and an infinite one is kept; the subtotal is the sum
    of the items' subtotals from 0, the tax is the subtotal times the
    rate ([IGV_RATE], or [Number(igvRate) || 0] from the settings), and
    the total is subtotal plus tax. *)
Theorem computed_totals (rows : list Row) (currency : Currency) (st : Admin.State) :
  (Basic.call_computed rows currency
   = if existsb row_raises rows then Throws
     else Returns (Basic.computed rows currency)) /\
  (Forall typed_in rows -> existsb row_raises rows = false) /\
  (priced_by zero_if_nan rows (items (Basic.computed rows currency)) /\
   summed_at Basic.IGV_RATE (Basic.computed rows currency)) /\
  (Admin.call_computed st
   = if existsb row_raises (Admin.rows st) || rates_raise st then Throws
     else Returns (Admin.computed st)) /\
  (priced_by zero_if_nan (Admin.rows st) (items (Admin.computed st)) /\
   summed_at (zero_if_nan (field (Admin.settings st) "igvRate")) (Admin.computed st)).
Proof.
  split; [apply basic_call_computed|]. split; [apply typed_rows_do_not_raise|]. split.
  { repeat split; try apply line_items_priced; cbn; apply sum_subtotals_fold. }
  split; [apply admin_call_computed|].
  repeat split; try apply line_items_priced; cbn; try apply sum_subtotals_fold.
  now rewrite number_or_zero.
Qed.

(** The three rows the basic variant starts with hold numbers. *)
Lemma computed_totals_witness :
  existsb row_raises Sample.three_rows = false /\
  Basic.call_computed Sample.three_rows PEN
  = Returns (Basic.computed Sample.three_rows PEN).
Proof.
  destruct (computed_totals Sample.three_rows PEN Sample.start) as (Hcall & Htyped & _).
  assert (H : existsb row_raises Sample.three_rows = false).
  { apply Htyped. repeat constructor. }
  split; [exact H|]. rewrite Hcall, H. reflexivity.
Defined.

(** ** The rows handed to the document exporter (C2) *)

Lemma admin_body_view (st : Admin.State) :
  Admin.body st
  = map (fun v : string * string * float =>
           let '(service, detail, amount) := v in
           [ Text match Admin.getServiceByCode (Admin.services st) service with
                  | Some s => JsString.or_else (Admin.label s) service
                  | None => service
                  end;
             Text (JsString.or_else detail "");
             Money (moneyFmt amount (Admin.currency st)) ])
        (exported_view (Admin.computed st)).
Proof.
  unfold Admin.body, exported_view. rewrite map_map. reflexivity.
Qed.

Lemma basic_body_view (rows : list Row) (currency : Currency) :
  Basic.body rows currency
  = map (fun v : string * string * float * float =>
           let '(service, detail, h, amount) := v in
           [ Text (Basic.getServiceLabel service);
             Text (JsString.or_else detail "");
             Text (NumberToString h);
             Money (moneyFmt amount currency) ])
        (exported_view_with_hours (Basic.computed rows currency)).
Proof.
  unfold Basic.body, exported_view_with_hours. rewrite map_map. reflexivity.
Qed.

(** C2, as stated, fails in the basic variant: the table of
    [generatePdf] has a column for the hours.  The row of 20 hours at
    60 is exported with the text 20, and two rows with the same
    service, detail and subtotal but other hours are exported differently. *)
Lemma basic_table_shows_hours :
  Basic.body [Sample.row "r1" "creacion_web" (VNum 20) (VNum 60)] PEN
  = [[ Text (Basic.getServiceLabel "creacion_web"); Text ""; Text "20";
       Money (IntlCurrency "es-PE" PEN 1200) ]] /\
  ~ Forall label_detail_amount
      (Basic.body [Sample.row "r1" "creacion_web" (VNum 20) (VNum 60)] PEN) /\
  exported_view (Basic.computed [Sample.two_by_three] PEN)
  = exported_view (Basic.computed [Sample.three_by_two] PEN) /\
  Basic.body [Sample.two_by_three] PEN <> Basic.body [Sample.three_by_two] PEN.
Proof.
  split; [reflexivity|]. split; [|split; [reflexivity|]].
  - intros H. apply Forall_inv in H. destruct H as (l & d & f & H). discriminate H.
  - intros H. vm_compute in H. discriminate H.
Qed.

Lemma or_else_empty (s : string) : JsString.or_else s "" = s.
Proof. unfold JsString.or_else. now destruct s. Qed.

(** C2, amended: hourly cost is never exported, and in the admin
    variant hours are not either.  The table that
    [generatePdfCotizacion] hands to the exporter has one row for each
    line, in order, made of three cells: the label of the service of
    the line, its detail, and its derived subtotal formatted as money
    in the selected currency; so the table is the same for any two
    states with the same catalog, currency, and services, details and
    subtotals of the lines.  The table that [generatePdf] of the basic
    variant hands over has one row for each line made of four cells:
    the label, the detail, the hours as a text, and the formatted
    subtotal; it is the same for any two lists of rows with the same
    services, details, hours and subtotals. *)
Theorem exported_rows (st st' : Admin.State) (rows rows' : list Row) (currency : Currency) :
  Admin.body st
  = map (admin_exported (Admin.services st) (Admin.currency st)) (Admin.rows st) /\
  (Admin.services st = Admin.services st' ->
   Admin.currency st = Admin.currency st' ->
   exported_view (Admin.computed st) = exported_view (Admin.computed st') ->
   Admin.body st = Admin.body st') /\
  Basic.body rows currency = map (basic_exported currency) rows /\
  (exported_view_with_hours (Basic.computed rows currency)
   = exported_view_with_hours (Basic.computed rows' currency) ->
   Basic.body rows currency = Basic.body rows' currency).
Proof.
  split; [|split; [|split]].
  - unfold Admin.body, Admin.computed. cbn [items]. rewrite map_map.
    apply map_ext. intros r. unfold admin_exported, admin_label, derived_subtotal.
    cbn [line_item it_serviceType it_detail it_subtotal].
    now rewrite or_else_empty, !number_or_zero.
  - intros Hs Hc Hv. rewrite !admin_body_view, Hs, Hc, Hv. reflexivity.
  - unfold Basic.body, Basic.computed. cbn [items]. rewrite map_map.
    apply map_ext. intros r. unfold basic_exported, derived_subtotal.
    cbn [line_item it_serviceType it_detail it_subtotal it_hours].
    now rewrite or_else_empty, !number_or_zero.
  - intros Hv. rewrite !basic_body_view, Hv. reflexivity.
Qed.

(** In the admin variant the two splits of one subtotal are exported alike. *)
Lemma exported_rows_witness :
  Admin.body (Sample.with_rows [Sample.two_by_three] Sample.start)
  = Admin.body (Sample.with_rows [Sample.three_by_two] Sample.start).
Proof.
  apply (exported_rows _ _ [] [] PEN); reflexivity.
Defined.

(** ** The round trip of a conversion (C3) *)

(** *** Rounding in binary64

    The product and the quotient of binary64 are the exact ones
    rounded to the nearest number, ties to even ([SF64mul], [SF64div]):
    a result that is a normal number is within [2^-53] of the exact
    one, relatively to itself, and the result is a normal number when
    the exact one is of a size between [2^-1021] and [2^1022]. *)

Section Rounding.

(** **** The mantissa: its shifts, its rounding, its number of bits *)






















Local Open Scope Q_scope.

(** **** Powers of two and values *)















(** **** The error of a rounding *)





(** **** The results that are normal numbers *)





(** **** The round trip *)







End Rounding.


(** The amount that comes back is near the amount, not the amount: 29
    PEN at the rate 3.5 come back as 29.000000000000004.  The least
    positive amount is lost: converted to USD it is 0. *)
Example round_trip_is_not_exact :
  Basic.convert (Basic.convert 29 PEN) USD = 29.000000000000004%float /\
  Basic.convert 5e-324 PEN = 0%float /\
  Basic.convert (Basic.convert 5e-324 PEN) USD = 0%float.
Proof. repeat split. Qed.



(** ** Rows follow the catalog (C4) *)

Lemma Forall2_map_r {A B : Type} (P : A -> B -> Prop) (f : A -> B) (l : list A) :
  (forall x, In x l -> P x (f x)) -> Forall2 P l (map f l).
Proof.
  induction l as [|x l IH]; intros H; constructor.
  - apply H. now left.
  - apply IH. intros y Hy. apply H. now right.
Qed.

Lemma in_codes (services : list Admin.Service) (r : Row) :
  bool_decide (serviceType r ∈ (list_to_set (map Admin.code services) : gset string)) = true
  <-> resolves services r.
Proof.
  rewrite bool_decide_eq_true, elem_of_list_to_set, list_elem_of_In, in_map_iff.
  unfold resolves. split; intros (s & H1 & H2); eauto.
Qed.

Lemma keepRowsValid_reconciles (first : Admin.Service) (rest : list Admin.Service)
    (rows : list Row) :
  reconciled (first :: rest) (Admin.code first) rows
    (Admin.keepRowsValid (first :: rest) rows).
Proof.
  unfold Admin.keepRowsValid. apply Forall2_map_r. intros r _.
  destruct (bool_decide _) eqn:E.
  - apply in_codes in E. split; [reflexivity | contradiction].
  - split; [|reflexivity]. intros H. apply in_codes in H. congruence.
Qed.

Lemma call_cleaned_cases (fresh : nat -> string) (saved : list jsval) :
  Admin.call_cleaned fresh saved
  = if existsb entry_raises (List.filter Admin.kept saved) then Throws
    else Returns (Admin.cleaned fresh saved).
Proof.
  unfold Admin.call_cleaned, Admin.cleaned. apply map_calls_cases. intros i s.
  unfold Admin.call_clean, call_String, call_Number, entry_raises.
  destruct (raises (get s "code")); [reflexivity|].
  destruct (raises (get s "label")); [reflexivity|].
  destruct (raises (JsValue.or_else (get s "suggestion") (VStr ""))); [reflexivity|].
  now destruct (raises (JsValue.or_else (get s "defaultHourlyCost") (VNum 0))).
Qed.

(** The load of the catalog leaves the state as it is, or sets the
    catalog to the cleaned list: when the storage holds an array, no
    conversion of an entry it keeps throws, and the cleaned list is
    not empty. *)
Lemma loadServices_cases (fresh : nat -> string) (item : Admin.stored) (st : Admin.State) :
  Admin.loadServices fresh item st = st \/
  exists saved,
    Admin.parse_item item = Some (VArr saved) /\
    existsb entry_raises (List.filter Admin.kept saved) = false /\
    Admin.cleaned fresh saved <> [] /\
    Admin.loadServices fresh item st
    = Admin.setServices (fun _ => Admin.cleaned fresh saved) st.
Proof.
  unfold Admin.loadServices.
  destruct (Admin.parse_item item) as [[| | | | |saved|]|]; try now left.
  destruct (0 <? length saved)%nat; [|now left].
  rewrite call_cleaned_cases.
  destruct (existsb entry_raises _) eqn:Hr; [now left|].
  destruct (Admin.cleaned fresh saved) as [|s l] eqn:Hc; [now left|].
  right. exists saved. rewrite Hc.
  split; [reflexivity|]. split; [exact Hr|]. split; [discriminate | reflexivity].
Qed.

(** A stored entry whose label is an object with a property [toString]
    passes the filter, the conversion of its label throws, and the
    load changes nothing: the first entry is not loaded either. *)
Example load_swallows_the_error :
  Admin.call_cleaned Sample.fresh
    match Sample.unconvertible with VArr l => l | _ => [] end
  = Throws /\
  Admin.load Sample.fresh Admin.NoItem (Admin.Json Sample.unconvertible) Sample.start
  = Sample.start.
Proof. split; reflexivity. Qed.

(** A change of the catalog goes through [setServices]. *)
Lemma change_runs_effect (c : catalog_change) (st : Admin.State) :
  Admin.services (change c st) <> Admin.services st ->
  Admin.rows (change c st)
  = Admin.keepRowsValid (Admin.services (change c st)) (Admin.rows st).
Proof.
  destruct c as [id|id p|id answer|fresh item|l]; cbn [change]; intros Hne.
  - unfold Admin.addServiceFromAdmin in *.
    repeat (destruct (is_empty _); [now contradiction Hne|]).
    destruct (existsb _ _); [now contradiction Hne|]. reflexivity.
  - reflexivity.
  - unfold Admin.deleteService in *.
    destruct (find _ _); [|now contradiction Hne].
    destruct (_ <=? _)%nat; [now contradiction Hne|].
    destruct answer; [reflexivity | now contradiction Hne].
  - destruct (loadServices_cases fresh item st) as [E|(saved & _ & _ & _ & E)];
      rewrite E in *; [now contradiction Hne | reflexivity].
  - reflexivity.
Qed.

(** C4, as stated, fails when the changed catalog is empty: there is
    no first entry, the effect returns early, and the rows keep a
    service that matches no entry.  After the load of a stored catalog
    whose two entries have the same identifier, the row has the
    service [a]; a confirmed deletion of that identifier removes both
    entries, and the row is left with the service [a].  A replacement
    by the empty catalog leaves the rows as they were too. *)
Lemma emptied_catalog_strands_rows :
  Admin.rows (Admin.load Sample.fresh Admin.NoItem (Admin.Json Sample.twins) Sample.start)
  = [Sample.row "r1" "a" (VNum 10) (VNum 60)] /\
  Admin.services
    (change (Deleted (Admin.IdStr "x") true)
       (Admin.load Sample.fresh Admin.NoItem (Admin.Json Sample.twins) Sample.start))
  = [] /\
  Admin.rows
    (change (Deleted (Admin.IdStr "x") true)
       (Admin.load Sample.fresh Admin.NoItem (Admin.Json Sample.twins) Sample.start))
  = [Sample.row "r1" "a" (VNum 10) (VNum 60)] /\
  ~ resolves [] (Sample.row "r1" "a" (VNum 10) (VNum 60)) /\
  Admin.services (change (Replaced []) Sample.start) = [] /\
  Admin.rows (change (Replaced []) Sample.start) = Admin.rows Sample.start.
Proof.
  repeat split; try reflexivity. intros (s & Hin & _). contradiction.
Qed.

(** C4, amended: whenever the catalog changes, by a deletion, an
    addition, an edit, a load from the storage or a replacement from
    outside, to a catalog that is not empty, every row whose service
    matches no entry of the new catalog is reassigned to the code of
    its first entry (its other fields kept), and every row whose
    service still resolves is unchanged; when it changes to the empty
    catalog, every row is left as it was. *)
Theorem rows_follow_catalog (c : catalog_change) (st : Admin.State) :
  Admin.services (change c st) <> Admin.services st ->
  match Admin.services (change c st) with
  | [] => Admin.rows (change c st) = Admin.rows st
  | first :: rest =>
      reconciled (first :: rest) (Admin.code first)
        (Admin.rows st) (Admin.rows (change c st))
  end.
Proof.
  intros Hne. rewrite (change_runs_effect c st Hne).
  destruct (Admin.services (change c st)) as [|first rest]; [reflexivity|].
  apply keepRowsValid_reconciles.
Qed.

(** With distinct codes, a row that used a deleted service no longer
    resolves: after a confirmed deletion that leaves a first entry, it
    is reassigned to the code of that entry. *)
Lemma deleted_service_rows_reassigned (id : Admin.ident) (st : Admin.State)
    (svc first : Admin.Service) (rest : list Admin.Service) :
  unique_codes (Admin.services st) ->
  find (fun s => Admin.same_id (Admin.svc_id s) id) (Admin.services st) = Some svc ->
  (1 < length (Admin.services st))%nat ->
  Admin.services (fst (Admin.deleteService id true st)) = first :: rest ->
  Forall2 (fun r r' => serviceType r = Admin.code svc ->
                       r' = reassigned (Admin.code first) r)
    (Admin.rows st) (Admin.rows (fst (Admin.deleteService id true st))).
Proof.
  intros Hu Hfind Hlen Hs.
  assert (Hrec : reconciled (first :: rest) (Admin.code first) (Admin.rows st)
                   (Admin.rows (fst (Admin.deleteService id true st)))).
  { revert Hs. unfold Admin.deleteService. rewrite Hfind.
    apply Nat.leb_gt in Hlen. rewrite Hlen. cbn. intros ->.
    apply keepRowsValid_reconciles. }
  assert (Hgone : forall s, In s (first :: rest) -> Admin.code s <> Admin.code svc).
  { intros s Hin Hcode. revert Hin. rewrite <- Hs. unfold Admin.deleteService.
    rewrite Hfind. apply Nat.leb_gt in Hlen. rewrite Hlen. cbn.
    intros [Hin Hid]%filter_In. apply negb_true_iff in Hid.
    apply find_some in Hfind as [Hsvc Hsame].
    assert (s = svc); [|congruence].
    clear -Hu Hin Hsvc Hcode. unfold unique_codes in Hu.
    induction (Admin.services st) as [|x l IH]; [contradiction|].
    cbn [map] in Hu. apply NoDup_cons in Hu as [Hx Hl].
    destruct Hin as [->|Hin], Hsvc as [->|Hsvc]; try reflexivity.
    - exfalso. apply Hx. rewrite Hcode. now apply list_elem_of_In, in_map.
    - exfalso. apply Hx. rewrite <- Hcode. now apply list_elem_of_In, in_map.
    - now apply IH. }
  eapply Forall2_impl; [exact Hrec|]. cbn beta. intros r r' [_ H] Hr. apply H.
  intros (s & Hin & Hcode). apply (Hgone s Hin). congruence.
Qed.

(** Deleting the maintenance service from the default catalog moves the
    row that used it to the first service and keeps the other row. *)
Lemma rows_follow_catalog_witness :
  Admin.rows (change (Deleted (Admin.IdStr "srv_mantenimiento_web") true)
                Sample.two_services_quoted)
  = [ Sample.row "r1" "creacion_web" (VNum 8) (VNum 50);
      Sample.row "r2" "creacion_web" (VNum 20) (VNum 60) ] /\
  reconciled
    (Admin.services (change (Deleted (Admin.IdStr "srv_mantenimiento_web") true)
                       Sample.two_services_quoted))
    "creacion_web"
    (Admin.rows Sample.two_services_quoted)
    (Admin.rows (change (Deleted (Admin.IdStr "srv_mantenimiento_web") true)
                   Sample.two_services_quoted)).
Proof.
  split; [reflexivity|].
  apply (rows_follow_catalog
           (Deleted (Admin.IdStr "srv_mantenimiento_web") true)
           Sample.two_services_quoted).
  intros H. vm_compute in H. discriminate H.
Defined.

(** ** Deleting a service (C5) *)

Lemma filter_one {A : Type} (q : A -> bool) (l : list A) (x : A) :
  find q l = Some x ->
  (forall i j a b, l !! i = Some a -> l !! j = Some b ->
                   q a = true -> q b = true -> i = j) ->
  exists l1 l2, l = l1 ++ x :: l2 /\ List.filter (fun y => negb (q y)) l = l1 ++ l2.
Proof.
  induction l as [|y l IH]; [discriminate|]. cbn [find List.filter].
  intros Hf Hu. destruct (q y) eqn:Hy; cbn [negb].
  - injection Hf as <-. exists [], l. split; [reflexivity|]. cbn [app].
    clear IH. assert (Hall : forall b, In b l -> q b = false).
    { intros b Hb. destruct (q b) eqn:E; [|reflexivity].
      apply list_elem_of_In, list_elem_of_lookup in Hb as [j Hj].
      assert (0%nat = S j) by (eapply Hu; eauto). lia. }
    clear Hu. induction l as [|z l IHl]; [reflexivity|]. cbn [List.filter].
    rewrite (Hall z) by now left. cbn [negb]. f_equal. apply IHl.
    intros b Hb. apply Hall. now right.
  - destruct IH as (l1 & l2 & -> & ->); [exact Hf| |].
    + intros i j a b Hi Hj Ha Hb.
      assert (S i = S j) by (eapply Hu; eauto). lia.
    + exists (y :: l1), l2. split; reflexivity.
Qed.

Lemma SFeqb_trans (x y z : spec_float) :
  SFeqb x z = true -> SFeqb y z = true -> SFeqb x y = true.
Proof.
  unfold SFeqb, SFcompare.
  destruct x as [[]|[]| |[] mx ex], z as [[]|[]| |[] mz ez]; try discriminate;
    destruct y as [[]|[]| |[] my ey]; try discriminate; try reflexivity.
  all: destruct (Z.compare_spec ex ez); try discriminate.
  all: destruct (Z.compare_spec ey ez); try discriminate.
  all: subst; rewrite Z.compare_refl.
  all: change (Pos.compare_cont Eq) with Pos.compare.
  all: destruct (Pos.compare_spec mx mz); try discriminate.
  all: destruct (Pos.compare_spec my mz); try discriminate.
  all: subst; rewrite Pos.compare_refl; reflexivity.
Qed.

(** Two identifiers equal to a third one are equal. *)
Lemma same_id_trans (a b id : Admin.ident) :
  Admin.same_id a id = true -> Admin.same_id b id = true -> Admin.same_id a b = true.
Proof.
  destruct a, b, id; cbn; try discriminate; try reflexivity.
  - intros Ha Hb. apply String.eqb_eq in Ha, Hb. subst. apply String.eqb_refl.
  - rewrite !FloatAxioms.eqb_spec. apply SFeqb_trans.
  - intros Ha Hb. apply Nat.eqb_eq in Ha, Hb. subst. apply Nat.eqb_refl.
Qed.

(** With distinct identifiers, filtering an identifier out removes the
    entry found and nothing else. *)
Lemma remove_found (id : Admin.ident) (l : list Admin.Service) (svc : Admin.Service) :
  find (fun s => Admin.same_id (Admin.svc_id s) id) l = Some svc ->
  distinct_ids l ->
  exists before after,
    l = before ++ svc :: after /\
    List.filter (fun s => negb (Admin.same_id (Admin.svc_id s) id)) l = before ++ after.
Proof.
  intros Hfind Hd.
  apply (filter_one (fun s => Admin.same_id (Admin.svc_id s) id)); [exact Hfind|].
  intros i j a b Hi Hj Ha Hb. apply (Hd i j a b Hi Hj).
  revert Ha Hb. apply same_id_trans.
Qed.

(** C5, as stated, fails: for an identifier that no entry has,
    [deleteService] returns at once, without any dialog. *)
Lemma unknown_id_is_silent :
  find (fun s => Admin.same_id (Admin.svc_id s) (Admin.IdStr "srv_unknown"))
    (Admin.services Sample.start) = None /\
  Admin.deleteService (Admin.IdStr "srv_unknown") true Sample.start = (Sample.start, []).
Proof. split; reflexivity. Qed.

(** C5, amended: [deleteService] does nothing, and reports nothing,
    when no entry has the identifier; it alerts and leaves the state
    unchanged when an entry has it and the catalog has at most one
    entry; otherwise it asks for a confirmation, leaves the state
    unchanged when it is refused, and when it is accepted removes the
    entries with that identifier and no other: exactly the entry found,
    when the identifiers of the catalog are distinct. *)
Theorem deleteService_cases (id : Admin.ident) (answer : bool) (st : Admin.State) :
  match find (fun s => Admin.same_id (Admin.svc_id s) id) (Admin.services st) with
  | None => Admin.deleteService id answer st = (st, [])
  | Some svc =>
      if (length (Admin.services st) <=? 1)%nat
      then Admin.deleteService id answer st = (st, [Admin.Alert Admin.msg_last_service])
      else
        snd (Admin.deleteService id answer st)
        = [Admin.Confirm (Admin.msg_confirm_delete (Admin.label svc)) answer] /\
        (answer = false -> fst (Admin.deleteService id answer st) = st) /\
        (answer = true ->
         Admin.services (fst (Admin.deleteService id answer st))
         = List.filter (fun s => negb (Admin.same_id (Admin.svc_id s) id)) (Admin.services st) /\
         (distinct_ids (Admin.services st) ->
          exists before after,
            Admin.services st = before ++ svc :: after /\
            Admin.services (fst (Admin.deleteService id answer st)) = before ++ after))
  end.
Proof.
  unfold Admin.deleteService.
  destruct (find _ (Admin.services st)) as [svc|] eqn:Hfind; [|reflexivity].
  destruct (_ <=? _)%nat; [reflexivity|].
  destruct answer; cbn [negb fst snd]; (split; [reflexivity|]);
    (split; [intros H; try reflexivity; discriminate H|]); intros H;
    [clear H | discriminate H].
  split; [reflexivity|]. intros Hd. cbn [Admin.setServices Admin.services].
  now apply remove_found.
Qed.

Lemma default_ids_distinct : distinct_ids Admin.DEFAULT_SERVICES.
Proof.
  intros [|[|[|i]]] [|[|[|j]]] s t Hi Hj H; try discriminate; try reflexivity;
    injection Hi as <-; injection Hj as <-; discriminate H.
Qed.

(** Deleting the second of the three default services, confirmed. *)
Lemma deleteService_cases_witness :
  snd (Admin.deleteService (Admin.IdStr "srv_mantenimiento_web") true Sample.start)
  = [Admin.Confirm (Admin.msg_confirm_delete (Admin.label Sample.maintenance)) true] /\
  exists before after,
    Admin.services Sample.start = before ++ Sample.maintenance :: after /\
    Admin.services
      (fst (Admin.deleteService (Admin.IdStr "srv_mantenimiento_web") true Sample.start))
    = before ++ after.
Proof.
  pose proof (deleteService_cases (Admin.IdStr "srv_mantenimiento_web") true Sample.start)
    as H.
  destruct H as (Hd & _ & H). split; [exact Hd|].
  destruct (H eq_refl) as [_ Hex]. exact (Hex default_ids_distinct).
Defined.

(** ** Adding a service (C6) *)

Lemma is_empty_true (s : string) : is_empty s = true <-> s = "".
Proof. destruct s; split; intros H; try reflexivity; discriminate H. Qed.

Lemma code_exists (services : list Admin.Service) (c : string) :
  existsb (fun s => String.eqb (Admin.code s) c) services = true
  <-> In c (map Admin.code services).
Proof.
  rewrite existsb_exists, in_map_iff.
  split; intros (s & H1 & H2); exists s.
  - apply String.eqb_eq in H2. now split.
  - split; [exact H2 | now apply String.eqb_eq].
Qed.

Lemma addService_rejected (id : string) (st : Admin.State) :
  rejected st -> exists msg, Admin.addServiceFromAdmin id st = (st, [Admin.Alert msg]).
Proof.
  unfold rejected, Admin.addServiceFromAdmin. fold (form_label st). fold (form_code st).
  intros H.
  destruct (is_empty (form_label st)) eqn:El; [eauto|].
  destruct (is_empty (form_code st)) eqn:Ec; [eauto|].
  destruct (existsb _ _) eqn:Ex; [eauto|].
  exfalso. destruct H as [H|[H|H]].
  - apply is_empty_true in H. congruence.
  - apply is_empty_true in H. congruence.
  - apply code_exists in H. congruence.
Qed.

Lemma addService_accepted (id : string) (st : Admin.State) :
  ~ rejected st ->
  Admin.addServiceFromAdmin id st
  = (Admin.setNewService Admin.blank_service
       (Admin.setServices (fun prev => prev ++ [form_entry id st]) st), []).
Proof.
  unfold rejected, Admin.addServiceFromAdmin. fold (form_label st). fold (form_code st).
  intros H.
  destruct (is_empty (form_label st)) eqn:El.
  { contradiction H. left. now apply is_empty_true. }
  destruct (is_empty (form_code st)) eqn:Ec.
  { contradiction H. right. left. now apply is_empty_true. }
  destruct (existsb _ _) eqn:Ex.
  { contradiction H. right. right. now apply code_exists. }
  reflexivity.
Qed.

(** C6: when the trimmed label is empty, the resolved code (the code
    given, or else the slug of the label, trimmed) is empty, or the
    resolved code is the code of an entry of the catalog,
    [addServiceFromAdmin] raises one alert and changes nothing, however
    many times it is called; otherwise it raises no dialog, appends the
    new entry to the catalog and resets the form. *)
Theorem addService_cases (id : string) (st : Admin.State) :
  (rejected st ->
   (exists msg, Admin.addServiceFromAdmin id st = (st, [Admin.Alert msg])) /\
   (forall ids, add_repeatedly ids st = st)) /\
  (~ rejected st ->
   snd (Admin.addServiceFromAdmin id st) = [] /\
   Admin.services (fst (Admin.addServiceFromAdmin id st))
   = Admin.services st ++ [form_entry id st] /\
   Admin.newService (fst (Admin.addServiceFromAdmin id st)) = Admin.blank_service /\
   Admin.settings (fst (Admin.addServiceFromAdmin id st)) = Admin.settings st).
Proof.
  split; intros H.
  - split; [now apply addService_rejected|].
    intros ids. unfold add_repeatedly.
    induction ids as [|i ids IH]; [reflexivity|]. cbn [fold_left].
    destruct (addService_rejected i st H) as [msg ->]. exact IH.
  - rewrite (addService_accepted id st H). repeat split.
Qed.

(** A code of the default catalog is refused, three times in a row;
    a new service is appended, with the slug of its label as its code. *)
Lemma addService_cases_witness :
  (Admin.addServiceFromAdmin "id1" (Sample.with_form Sample.duplicate_form Sample.start)
   = (Sample.with_form Sample.duplicate_form Sample.start,
      [Admin.Alert Admin.msg_code_exists]) /\
   add_repeatedly ["id1"; "id2"; "id3"] (Sample.with_form Sample.duplicate_form Sample.start)
   = Sample.with_form Sample.duplicate_form Sample.start) /\
  (map Admin.code
     (Admin.services
        (fst (Admin.addServiceFromAdmin "id1"
                (Sample.with_form Sample.hosting_form Sample.start))))
   = ["creacion_web"; "mantenimiento_web"; "diseno_figma"; "hosting_anual"] /\
   Admin.newService
     (fst (Admin.addServiceFromAdmin "id1"
             (Sample.with_form Sample.hosting_form Sample.start)))
   = Admin.blank_service).
Proof.
  split.
  - destruct (addService_cases "id1" (Sample.with_form Sample.duplicate_form Sample.start))
      as [H _].
    destruct H as [_ Hrep].
    + right. right. vm_compute. tauto.
    + split; [reflexivity | apply Hrep].
  - destruct (addService_cases "id1" (Sample.with_form Sample.hosting_form Sample.start))
      as [_ H].
    destruct H as (_ & Hs & Hn & _).
    + intros [H|[H|H]]; vm_compute in H; try discriminate H.
      repeat (destruct H as [H|H]; [discriminate H|]). exact H.
    + split; [rewrite Hs; reflexivity | exact Hn].
Defined.

(** ** The invariants of the catalog (C7) *)

Lemma NoDup_map_filter {A B : Type} (f : A -> B) (p : A -> bool) (l : list A) :
  NoDup (map f l) -> NoDup (map f (List.filter p l)).
Proof.
  induction l as [|x l IH]; [trivial|]. cbn [map List.filter].
  intros H. apply NoDup_cons in H as [Hx Hl].
  destruct (p x); [|now apply IH].
  cbn [map]. apply NoDup_cons. split; [|now apply IH].
  intros Hin. apply Hx. apply list_elem_of_In, in_map_iff in Hin as (y & Hy & Hyl).
  apply list_elem_of_In, in_map_iff. exists y. split; [exact Hy|].
  now apply filter_In in Hyl.
Qed.

Lemma patch_keeps_codes (id : Admin.ident) (p : Admin.ServicePatch)
    (l : list Admin.Service) :
  map Admin.code
    (map (fun s => if Admin.same_id (Admin.svc_id s) id then Admin.patch_service s p else s) l)
  = map Admin.code l.
Proof.
  rewrite map_map. apply map_ext. intros s.
  now destruct (Admin.same_id (Admin.svc_id s) id).
Qed.

Lemma classic_rejected (st : Admin.State) : rejected st \/ ~ rejected st.
Proof.
  unfold rejected.
  destruct (string_dec (form_label st) "") as [H|H]; [tauto|].
  destruct (string_dec (form_code st) "") as [H'|H']; [tauto|].
  destruct (in_dec string_dec (form_code st) (map Admin.code (Admin.services st)));
    tauto.
Qed.

Lemma add_preserves (id : string) (st : Admin.State) :
  unique_codes (Admin.services st) -> Admin.services st <> [] ->
  unique_codes (Admin.services (fst (Admin.addServiceFromAdmin id st))) /\
  Admin.services (fst (Admin.addServiceFromAdmin id st)) <> [].
Proof.
  intros Hu Hn.
  destruct (classic_rejected st) as [Hr|Hr].
  - destruct (addService_rejected id st Hr) as [msg ->]. now split.
  - rewrite (addService_accepted id st Hr). cbn. unfold unique_codes. split.
    + rewrite map_app. apply NoDup_app. split; [exact Hu|]. split.
      * intros c Hc Hc'. apply list_elem_of_In in Hc'. cbn in Hc'.
        destruct Hc' as [<-|[]]. apply Hr. right. right.
        now apply list_elem_of_In.
      * cbn. apply NoDup_singleton.
    + intros H. now apply app_eq_nil in H as [_ H].
Qed.

Lemma update_preserves (id : Admin.ident) (p : Admin.ServicePatch) (st : Admin.State) :
  unique_codes (Admin.services st) -> Admin.services st <> [] ->
  unique_codes (Admin.services (Admin.updateService id p st)) /\
  Admin.services (Admin.updateService id p st) <> [].
Proof.
  intros Hu Hn. cbn. unfold unique_codes. rewrite patch_keeps_codes.
  split; [exact Hu|]. destruct (Admin.services st); [contradiction | discriminate].
Qed.

Lemma delete_preserves (id : Admin.ident) (answer : bool) (st : Admin.State) :
  unique_codes (Admin.services st) -> Admin.services st <> [] ->
  unique_codes (Admin.services (fst (Admin.deleteService id answer st))) /\
  (distinct_ids (Admin.services st) ->
   Admin.services (fst (Admin.deleteService id answer st)) <> []).
Proof.
  intros Hu Hn. unfold Admin.deleteService.
  destruct (find _ _) as [svc|] eqn:Hfind; [|now split].
  destruct (length (Admin.services st) <=? 1)%nat eqn:Hlen; [now split|].
  destruct answer; [|now split]. cbn. split.
  - now apply NoDup_map_filter.
  - intros Hd. destruct (remove_found id _ svc Hfind Hd) as (before & after & Hs & ->).
    apply Nat.leb_gt in Hlen. rewrite Hs, length_app in Hlen. cbn in Hlen.
    intros H. apply app_eq_nil in H as [-> ->]. cbn in Hlen. lia.
Qed.

Lemma cleaned_codes (fresh : nat -> string) (saved : list jsval) :
  map Admin.code (Admin.cleaned fresh saved) = stored_codes saved.
Proof.
  unfold Admin.cleaned, stored_codes.
  change (fun s => truthy s && truthy (get s "code") && truthy (get s "label"))
    with Admin.kept.
  generalize (Admin.loaded_id fresh). induction (List.filter Admin.kept saved) as [|s l IH];
    intros id; [reflexivity|].
  cbn [imap map Admin.code]. f_equal. apply (IH (fun i => id (S i))).
Qed.

Lemma load_preserves (fresh : nat -> string) (settingsItem servicesItem : Admin.stored)
    (st : Admin.State) :
  unique_codes (Admin.services st) -> Admin.services st <> [] ->
  Admin.services (Admin.load fresh settingsItem servicesItem st) <> [] /\
  ((forall saved, Admin.parse_item servicesItem = Some (VArr saved) ->
                  NoDup (stored_codes saved)) ->
   unique_codes (Admin.services (Admin.load fresh settingsItem servicesItem st))).
Proof.
  intros Hu Hn. unfold Admin.load.
  set (st1 := Admin.loadSettings settingsItem st).
  assert (Hs : Admin.services st1 = Admin.services st).
  { unfold st1, Admin.loadSettings.
    destruct (Admin.parse_item settingsItem) as [v|]; [|reflexivity].
    now destruct (truthy v && typeof_object v). }
  destruct (loadServices_cases fresh servicesItem st1) as [E|(saved & Hp & _ & Hc & E)];
    rewrite E.
  - rewrite Hs. now split.
  - cbn [Admin.setServices Admin.services]. split; [exact Hc|].
    intros H. unfold unique_codes. rewrite cleaned_codes. now apply H.
Qed.

(** A stored catalog with a repeated identifier can be emptied: both
    twins go with one confirmed deletion. *)
Example delete_can_empty_catalog :
  Admin.services
    (fst (Admin.deleteService (Admin.IdStr "x") true
            (Admin.load Sample.fresh Admin.NoItem (Admin.Json Sample.twins) Sample.start)))
  = [].
Proof. reflexivity. Qed.

(** Stored codes that differ as values can be the same as strings: the
    number 1 and the text 1 are both loaded as the code 1. *)
Example stored_codes_collide_as_strings :
  map Admin.code
    (Admin.services
       (Admin.load Sample.fresh Admin.NoItem (Admin.Json Sample.number_and_text)
          Sample.start))
  = ["1"; "1"].
Proof. reflexivity. Qed.

(** C7, as stated, fails: loading keeps two stored entries with the
    same code, so a catalog with distinct codes becomes one without. *)
Lemma load_keeps_repeated_codes :
  unique_codes (Admin.services Sample.start) /\
  map Admin.code
    (Admin.services
       (Admin.load Sample.fresh Admin.NoItem (Admin.Json Sample.twins) Sample.start))
  = ["a"; "a"] /\
  ~ unique_codes
      (Admin.services
         (Admin.load Sample.fresh Admin.NoItem (Admin.Json Sample.twins) Sample.start)).
Proof.
  split; [|split; [reflexivity|]].
  - apply (bool_decide_unpack _). vm_compute. exact I.
  - intros H. apply (bool_decide_pack _) in H. vm_compute in H. exact H.
Qed.

(** C7, amended: from a catalog with distinct codes and at least one
    entry, [addServiceFromAdmin] and [updateService] give a catalog with
    distinct codes and at least one entry; [deleteService] gives a
    catalog with distinct codes, and with at least one entry when the
    identifiers of the catalog are distinct; the load from the storage
    gives a catalog with at least one entry, and with distinct codes
    when the stored entries that have a code and a label have codes
    that are distinct once converted to strings. *)
Theorem catalog_invariants (st : Admin.State) :
  unique_codes (Admin.services st) -> Admin.services st <> [] ->
  (forall id,
     unique_codes (Admin.services (fst (Admin.addServiceFromAdmin id st))) /\
     Admin.services (fst (Admin.addServiceFromAdmin id st)) <> []) /\
  (forall id p,
     unique_codes (Admin.services (Admin.updateService id p st)) /\
     Admin.services (Admin.updateService id p st) <> []) /\
  (forall id answer,
     unique_codes (Admin.services (fst (Admin.deleteService id answer st))) /\
     (distinct_ids (Admin.services st) ->
      Admin.services (fst (Admin.deleteService id answer st)) <> [])) /\
  (forall fresh settingsItem servicesItem,
     Admin.services (Admin.load fresh settingsItem servicesItem st) <> [] /\
     ((forall saved, Admin.parse_item servicesItem = Some (VArr saved) ->
                     NoDup (stored_codes saved)) ->
      unique_codes (Admin.services (Admin.load fresh settingsItem servicesItem st)))).
Proof.
  intros Hu Hn. repeat split.
  - now apply add_preserves.
  - now apply add_preserves.
  - now apply update_preserves.
  - now apply update_preserves.
  - now apply delete_preserves.
  - now apply delete_preserves.
  - now apply load_preserves.
  - now apply load_preserves.
Qed.

Lemma default_codes_unique : unique_codes Admin.DEFAULT_SERVICES.
Proof. apply (bool_decide_unpack _). vm_compute. exact I. Qed.

(** The default catalog after a confirmed deletion. *)
Lemma catalog_invariants_witness :
  unique_codes
    (Admin.services
       (fst (Admin.deleteService (Admin.IdStr "srv_diseno_figma") true Sample.start))) /\
  Admin.services
    (fst (Admin.deleteService (Admin.IdStr "srv_diseno_figma") true Sample.start)) <> [].
Proof.
  destruct (catalog_invariants Sample.start default_codes_unique) as (_ & _ & H & _).
  - intros H. vm_compute in H. discriminate H.
  - destruct (H (Admin.IdStr "srv_diseno_figma") true) as [H1 H2].
    split; [exact H1 | exact (H2 default_ids_distinct)].
Defined.

(** ** Loading the settings (C8) *)

Lemma spread_object_lookup (o : gmap string jsval) (props : list (string * jsval))
    (k : string) :
  spread o (VObj props) !! k
  = match last_binding props k with Some v => Some v | None => o !! k end.
Proof.
  unfold spread, last_binding. cbn [own_properties].
  induction props as [|p props IH] using rev_ind; [reflexivity|].
  rewrite foldl_app, rev_app_distr. cbn [foldl rev app find].
  rewrite lookup_insert. destruct (String.eqb_spec (fst p) k) as [->|Hne].
  - now rewrite decide_True.
  - rewrite decide_False by exact Hne. exact IH.
Qed.

Lemma spread_lookup_other (o : gmap string jsval) (props : list (string * jsval))
    (k : string) :
  (forall p, In p props -> fst p <> k) ->
  foldl (fun m p => <[fst p := snd p]> m) o props !! k = o !! k.
Proof.
  induction props as [|p props IH] using rev_ind; [reflexivity|]. intros H.
  rewrite foldl_app. cbn [foldl]. rewrite lookup_insert_ne.
  - apply IH. intros q Hq. apply H, in_or_app. now left.
  - apply H, in_or_app. right. now left.
Qed.

Lemma digits_of_head (fuel : nat) (m : Z) (acc : string) :
  (fuel = 0%nat -> starts_with_digit acc = true) ->
  starts_with_digit (digits_of fuel m acc) = true.
Proof.
  revert m acc. induction fuel as [|fuel IH]; intros m acc H; [now apply H|].
  cbn [digits_of].
  assert (Hd : starts_with_digit
                 (String (ascii_of_N (Z.to_N (48 + m mod 10))) acc) = true).
  { cbn. unfold is_digit, between, code.
    pose proof (Z.mod_pos_bound m 10 ltac:(lia)) as Hm.
    rewrite N_ascii_embedding by lia.
    apply andb_true_intro. split; apply N.leb_le; lia. }
  destruct (m <? 10); [exact Hd|]. apply IH. intros _. exact Hd.
Qed.

Lemma index_key_digit (i : nat) : starts_with_digit (index_key i) = true.
Proof. unfold index_key, decimal_string. apply digits_of_head. discriminate. Qed.

(** The elements of an array are spread under keys that are numerals. *)
Lemma spread_array_lookup (o : gmap string jsval) (l : list jsval) (k : string) :
  starts_with_digit k = false -> spread o (VArr l) !! k = o !! k.
Proof.
  intros Hk. unfold spread. apply spread_lookup_other. cbn [own_properties].
  intros p Hp Hfst. apply list_elem_of_In, elem_of_lookup_imap in Hp as (i & x & -> & _).
  cbn [fst] in Hfst. subst k. rewrite index_key_digit in Hk. discriminate Hk.
Qed.

(** C8: the load writes the fields of the stored object over the
    settings, which are the defaults when the component is mounted:
    every key takes the value the stored object gives it, or else keeps
    its value; so a stored object with one field sets that field and
    leaves every other field as it was.  When the storage holds
    nothing, a text that does not parse, or a value that is not an
    object (null, a boolean, a number, a string, an array), every field
    of the settings keeps its value. *)
Theorem settings_load (st : Admin.State) :
  (forall props k,
     Admin.settings (Admin.loadSettings (Admin.Json (VObj props)) st) !! k
     = match last_binding props k with
       | Some v => Some v
       | None => Admin.settings st !! k
       end) /\
  (forall name v,
     field (Admin.settings (Admin.loadSettings (Admin.Json (VObj [(name, v)])) st)) name = v /\
     forall k, k <> name ->
       Admin.settings (Admin.loadSettings (Admin.Json (VObj [(name, v)])) st) !! k
       = Admin.settings st !! k) /\
  (forall item k,
     not_an_object item -> In k setting_names ->
     Admin.settings (Admin.loadSettings item st) !! k = Admin.settings st !! k).
Proof.
  assert (Hobj : forall props k,
             Admin.settings (Admin.loadSettings (Admin.Json (VObj props)) st) !! k
             = match last_binding props k with
               | Some v => Some v
               | None => Admin.settings st !! k
               end).
  { intros props k. cbn. apply spread_object_lookup. }
  split; [exact Hobj|]. split.
  - intros name v. split.
    + unfold field. rewrite Hobj. unfold last_binding. cbn.
      now rewrite String.eqb_refl.
    + intros k Hk. rewrite Hobj. unfold last_binding. cbn.
      destruct (String.eqb_spec name k) as [->|_]; [contradiction | reflexivity].
  - intros item k Hitem Hk.
    destruct item as [| |v]; try reflexivity.
    destruct v as [| |b|x|t|l|props]; try reflexivity.
    + now destruct b.
    + cbn. now destruct (JsNumber.truthy x).
    + cbn. now destruct (is_empty t).
    + cbn. apply spread_array_lookup.
      repeat (destruct Hk as [<-|Hk]; [reflexivity|]). contradiction.
    + contradiction.
Qed.

(** A stored object with the tax rate only: the tax rate is 0.2 and
    every other field has its default. *)
Lemma settings_load_witness :
  map (field (Admin.settings
                (Admin.loadSettings (Admin.Json (VObj [("igvRate", VNum 0.2)])) Sample.start)))
      setting_names
  = [ VNum 3.5; VNum 0.2; VStr Admin.APP_OWNER_NAME; VStr ""; VStr ""; VStr "" ] /\
  map (field (Admin.settings (Admin.loadSettings (Admin.Json (VArr [VNum 7])) Sample.start)))
      setting_names
  = map (field Admin.DEFAULT_SETTINGS) setting_names.
Proof.
  destruct (settings_load Sample.start) as (_ & Hone & Hnot).
  destruct (Hone "igvRate" (VNum 0.2)) as [Hrate Hothers]. split.
  - unfold setting_names. cbn [map]. rewrite Hrate. unfold field.
    rewrite !Hothers by discriminate. reflexivity.
  - unfold setting_names. cbn [map]. unfold field.
    rewrite !(Hnot (Admin.Json (VArr [VNum 7]))); try exact I; try reflexivity;
      cbn; tauto.
Defined.

(** ** Changing the service of a row (C9) *)

(** With distinct codes, an entry of the catalog is the one found by its code. *)
Lemma found_by_code (services : list Admin.Service) (svc : Admin.Service) :
  unique_codes services -> In svc services ->
  Admin.getServiceByCode services (Admin.code svc) = Some svc.
Proof.
  unfold unique_codes, Admin.getServiceByCode.
  induction services as [|s services IH]; intros Hu Hin; [contradiction|].
  cbn [map find] in *. apply NoDup_cons in Hu as [Hs Hu].
  destruct (String.eqb_spec (Admin.code s) (Admin.code svc)) as [E|E].
  - destruct Hin as [->|Hin]; [reflexivity|]. exfalso. apply Hs.
    rewrite E. apply list_elem_of_In, in_map. exact Hin.
  - destruct Hin as [->|Hin]; [contradiction|]. now apply IH.
Qed.

(** The basic variant has no default costs: changing the service of a
    row leaves the hours and the hourly cost of every row as they were. *)
Lemma basic_service_change_keeps_costs (id c : string) (rows : list Row) :
  Forall2 (fun r r' => row_id r' = row_id r /\ hours r' = hours r /\
                       hourlyCost r' = hourlyCost r)
    rows (Basic.handleServiceChange id c rows).
Proof.
  unfold Basic.handleServiceChange. apply Forall2_map_r. intros r _.
  now destruct (String.eqb (row_id r) id).
Qed.

Lemma find_first {A : Type} (q : A -> bool) (l : list A) (x : A) :
  find q l = Some x ->
  exists before after,
    l = before ++ x :: after /\ q x = true /\ Forall (fun y => q y = false) before.
Proof.
  induction l as [|y l IH]; [discriminate|]. cbn [find].
  destruct (q y) eqn:E.
  - intros [= ->]. exists [], l. repeat split; [exact E | constructor].
  - intros H. destruct (IH H) as (before & after & -> & Hx & Hb).
    exists (y :: before), after. repeat split; [exact Hx | now constructor].
Qed.

(** An entry of the catalog has its code: the search by that code
    finds the first entry with it. *)
Lemma first_found_by_code (services : list Admin.Service) (svc : Admin.Service) :
  In svc services ->
  exists found,
    Admin.getServiceByCode services (Admin.code svc) = Some found /\
    first_with_code services (Admin.code svc) found.
Proof.
  intros Hin. unfold Admin.getServiceByCode.
  destruct (find _ services) as [found|] eqn:Hf.
  - exists found. split; [reflexivity|].
    destruct (find_first _ _ _ Hf) as (before & after & Hs & Hc & Hb).
    exists before, after. split; [exact Hs|]. split; [now apply String.eqb_eq|].
    eapply List.Forall_impl; [|exact Hb]. cbn beta. intros s Hs' E.
    apply String.eqb_eq in E. congruence.
  - exfalso. apply (find_none _ _ Hf) in Hin. now rewrite String.eqb_refl in Hin.
Qed.

Lemma admin_service_change (services : list Admin.Service) (rows : list Row)
    (rowId c : string) (found : Admin.Service) :
  Admin.getServiceByCode services c = Some found ->
  service_changed rowId c (Admin.defaultHourlyCost found) rows
    (Admin.handleServiceChange services rowId c rows).
Proof.
  intros Hsvc. unfold Admin.handleServiceChange. rewrite Hsvc.
  apply Forall2_map_r. intros r _.
  destruct (String.eqb_spec (row_id r) rowId) as [E|E].
  - split; [|contradiction]. intros _. cbn. repeat split. exact E.
  - split; [contradiction | reflexivity].
Qed.

Lemma basic_service_change (rowId c : string) (rows : list Row) :
  service_renamed rowId c rows (Basic.handleServiceChange rowId c rows).
Proof.
  unfold Basic.handleServiceChange. apply Forall2_map_r. intros r _.
  destruct (String.eqb_spec (row_id r) rowId) as [E|E].
  - split; [|contradiction]. intros _. cbn. repeat split. exact E.
  - split; [contradiction | reflexivity].
Qed.

(** C9, as stated, fails twice.  The handler of the basic variant,
    whose catalog has no default costs, sets no hourly cost: the row
    moved to another service keeps its cost of 60.  In the admin
    variant the cost is that of the first entry with the code of the
    target service: after the load of a stored catalog in which two
    entries have the code [a], with the default costs 10 and 75, a row
    moved to the entry that costs 75 gets the cost 10. *)
Lemma repeated_code_gives_first_cost :
  map hourlyCost
    (Basic.handleServiceChange "r1" "mantenimiento_web"
       [Sample.row "r1" "creacion_web" (VNum 10) (VNum 60)])
  = [VNum 60] /\
  In Sample.dearer
    (Admin.services
       (Admin.load Sample.fresh Admin.NoItem (Admin.Json Sample.two_prices) Sample.start)) /\
  Admin.defaultHourlyCost Sample.dearer = 75%float /\
  map hourlyCost
    (Admin.handleServiceChange
       (Admin.services
          (Admin.load Sample.fresh Admin.NoItem (Admin.Json Sample.two_prices) Sample.start))
       "r1" (Admin.code Sample.dearer)
       (Admin.rows
          (Admin.load Sample.fresh Admin.NoItem (Admin.Json Sample.two_prices) Sample.start)))
  = [VNum 10] /\
  VNum 10 <> VNum 75.
Proof.
  split; [reflexivity|]. split; [right; left; reflexivity|]. split; [reflexivity|].
  split; [reflexivity|]. intros H.
  apply (f_equal (fun v => match v with VNum x => PrimFloat.eqb x 10 | _ => false end)) in H.
  vm_compute in H. discriminate H.
Qed.

(** C9, amended: in the admin variant, changing the service of the row
    [rowId] to the code of an entry of the catalog sets the hourly
    cost of that row to the default hourly cost of the first entry
    with that code, which is the entry itself when the codes of the
    catalog are distinct, and leaves every other row, so its hourly
    cost, unchanged.  In the basic variant the handler sets the
    service of that row and keeps its hours and its hourly cost, and
    leaves every other row unchanged. *)
Theorem service_change_sets_cost (services : list Admin.Service) (rows : list Row)
    (rowId : string) (svc : Admin.Service) :
  In svc services ->
  (exists found,
     first_with_code services (Admin.code svc) found /\
     service_changed rowId (Admin.code svc) (Admin.defaultHourlyCost found) rows
       (Admin.handleServiceChange services rowId (Admin.code svc) rows) /\
     (unique_codes services -> found = svc)) /\
  (forall c, service_renamed rowId c rows (Basic.handleServiceChange rowId c rows)).
Proof.
  intros Hin. split; [|intros c; apply basic_service_change].
  destruct (first_found_by_code services svc Hin) as (found & Hf & Hfirst).
  exists found. split; [exact Hfirst|]. split; [now apply admin_service_change|].
  intros Hu. rewrite (found_by_code services svc Hu Hin) in Hf. congruence.
Qed.

Lemma with_hosting_codes_unique : unique_codes Sample.with_hosting.
Proof. apply (bool_decide_unpack _). vm_compute. exact I. Qed.

(** A row moved to the service whose default hourly cost is 75. *)
Lemma service_change_sets_cost_witness :
  Admin.handleServiceChange Sample.with_hosting "r2" "hosting"
    (Admin.rows Sample.two_services_quoted)
  = [ Sample.row "r1" "mantenimiento_web" (VNum 8) (VNum 50);
      {| row_id := "r2"; serviceType := "hosting"; detail := "Dominio y servidor.";
         hours := VNum 20; hourlyCost := VNum 75 |} ] /\
  service_changed "r2" "hosting" 75
    (Admin.rows Sample.two_services_quoted)
    (Admin.handleServiceChange Sample.with_hosting "r2" "hosting"
       (Admin.rows Sample.two_services_quoted)).
Proof.
  split; [reflexivity|].
  destruct (service_change_sets_cost Sample.with_hosting
              (Admin.rows Sample.two_services_quoted) "r2" Sample.hosting)
    as [(found & _ & H & Hu) _].
  - right. right. right. left. reflexivity.
  - rewrite (Hu with_hosting_codes_unique) in H. exact H.
Defined.

(** ** An exchange rate that is zero or no number (C10) *)

Lemma convert_by_one (c : Currency) (x : float) :
  Conversion.convert (ops := binary64) 1%float c x = finite_or_zero x.
Proof.
  unfold Conversion.convert, finite_or_zero. cbn [n_isFinite n_zero n_div n_mul binary64].
  destruct (isFinite x); cbn [negb]; [|reflexivity].
  destruct c; cbn [is_PEN]; [apply float_div_one | apply float_mul_one].
Qed.

Lemma number_or_cases (v : jsval) (d : float) :
  number_or v d = if unusable (ToNumber v) then d else ToNumber v.
Proof.
  unfold number_or, JsNumber.or_else, JsNumber.truthy, unusable.
  now destruct (is_nan (ToNumber v) || is_zero (ToNumber v)).
Qed.




(** * Further properties *)

Import More.

(** ** Strings *)

Lemma every_impl (p q : ascii -> bool) (s : string) :
  (forall c, p c = true -> q c = true) -> every p s = true -> every q s = true.
Proof.
  intros H. induction s as [|c s IH]; [reflexivity|]. cbn.
  rewrite !andb_true_iff. intros [Hc Hs]. split; [now apply H | now apply IH].
Qed.

Lemma every_toLowerCase (p : ascii -> bool) (s : string) :
  (forall c, p (lower c) = true) -> every p (toLowerCase s) = true.
Proof.
  intros H. induction s as [|c s IH]; [reflexivity|]. cbn. now rewrite H, IH.
Qed.

Lemma every_trimStart (p : ascii -> bool) (s : string) :
  every p s = true -> every p (trimStart s) = true.
Proof.
  induction s as [|c s IH]; [reflexivity|]. cbn [trimStart].
  destruct (is_space c); [|trivial]. cbn. rewrite andb_true_iff. intros [_ H]. now apply IH.
Qed.

Lemma every_trimEnd (p : ascii -> bool) (s : string) :
  every p s = true -> every p (trimEnd s) = true.
Proof.
  induction s as [|c s IH]; [reflexivity|]. cbn [trimEnd every].
  rewrite andb_true_iff. intros [Hc Hs]. specialize (IH Hs).
  destruct (trimEnd s) as [|d t].
  - destruct (is_space c); [reflexivity|]. cbn. now rewrite Hc.
  - change (p c && every p (String d t) = true). now rewrite Hc, IH.
Qed.

Lemma every_trim (p : ascii -> bool) (s : string) :
  every p s = true -> every p (trim s) = true.
Proof. intros H. now apply every_trimEnd, every_trimStart. Qed.

Lemma every_remove_unless (keep p : ascii -> bool) (s : string) :
  every p s = true -> every (fun c => keep c && p c) (remove_unless keep s) = true.
Proof.
  induction s as [|c s IH]; [reflexivity|]. cbn [every remove_unless].
  rewrite andb_true_iff. intros [Hc Hs]. destruct (keep c) eqn:Hk; [|now apply IH].
  cbn [every]. now rewrite Hk, Hc, IH.
Qed.

(** After [replace(/C+/g, r)] every character is [r] or a character of
    the string that is not of the class. *)
Lemma every_replace_runs (b : bool) (p q : ascii -> bool) (r : ascii) (s : string) :
  q r = true -> every (fun c => p c || q c) s = true ->
  every (fun c => Ascii.eqb c r || (negb (p c) && q c)) (replace_runs_from b p r s) = true.
Proof.
  intros Hr. revert b. induction s as [|c s IH]; intros b; [reflexivity|].
  cbn [every replace_runs_from]. rewrite andb_true_iff. intros [Hc Hs].
  destruct (p c) eqn:Hp.
  - destruct b; [now apply IH|]. cbn [every]. rewrite Ascii.eqb_refl. now apply IH.
  - cbn [every]. rewrite Hp. cbn in Hc |- *. rewrite Hc, orb_true_r. now apply IH.
Qed.

Lemma every_substring (p : ascii -> bool) (n : nat) (s : string) :
  every p s = true -> every p (substring 0 n s) = true.
Proof.
  revert n. induction s as [|c s IH]; intros [|n]; try reflexivity.
  cbn [every substring]. rewrite !andb_true_iff. intros [Hc Hs]. split; [exact Hc | now apply IH].
Qed.

Lemma length_substring (n : nat) (s : string) : (String.length (substring 0 n s) <= n)%nat.
Proof.
  revert n. induction s as [|c s IH]; intros [|n]; cbn; try lia.
  specialize (IH n). lia.
Qed.

Lemma substring_all (n : nat) (s : string) :
  (String.length s <= n)%nat -> substring 0 n s = s.
Proof.
  revert n. induction s as [|c s IH]; intros [|n]; cbn; try reflexivity; try lia.
  intros H. f_equal. apply IH. lia.
Qed.

Lemma no_two_replace_runs (b : bool) (p : ascii -> bool) (r : ascii) (s : string) :
  (b = true -> starts_outside p (replace_runs_from b p r s) = true) /\
  no_two p (replace_runs_from b p r s) = true.
Proof.
  revert b. induction s as [|c s IH]; intros b; [now split|].
  cbn [replace_runs_from]. destruct (p c) eqn:Hp.
  - destruct b; [apply IH|]. split; [discriminate|].
    cbn [no_two]. destruct (IH true) as [H1 H2]. now rewrite H1, H2, orb_true_r.
  - split; [intros _; cbn; now rewrite Hp|].
    cbn [no_two]. rewrite Hp. cbn. apply IH.
Qed.

Lemma no_two_substring (p : ascii -> bool) (n : nat) (s : string) :
  no_two p s = true -> no_two p (substring 0 n s) = true.
Proof.
  revert n. induction s as [|c s IH]; intros [|n]; try reflexivity.
  cbn [no_two substring]. rewrite !andb_true_iff. intros [Hc Hs]. split; [|now apply IH].
  apply orb_true_iff in Hc as [Hc|Hc]; [now rewrite Hc|].
  apply orb_true_iff. right. destruct s as [|d s]; [now destruct n|].
  destruct n; [reflexivity | exact Hc].
Qed.

(** *** Strings that an operation leaves as they are *)

Lemma toLowerCase_same (s : string) :
  every (fun c => Ascii.eqb (lower c) c) s = true -> toLowerCase s = s.
Proof.
  induction s as [|c s IH]; [reflexivity|]. cbn. rewrite andb_true_iff.
  intros [Hc Hs]. apply Ascii.eqb_eq in Hc. now rewrite Hc, IH.
Qed.

Lemma trimEnd_same (s : string) :
  every (fun c => negb (is_space c)) s = true -> trimEnd s = s.
Proof.
  induction s as [|c s IH]; [reflexivity|]. cbn [every trimEnd]. rewrite andb_true_iff.
  intros [Hc Hs]. rewrite (IH Hs). apply negb_true_iff in Hc. rewrite Hc. now destruct s.
Qed.

Lemma trim_same (s : string) :
  every (fun c => negb (is_space c)) s = true -> trim s = s.
Proof.
  intros H. unfold trim.
  assert (trimStart s = s) as ->; [|now apply trimEnd_same].
  destruct s as [|c s]; [reflexivity|]. cbn in H |- *.
  apply andb_true_iff in H as [Hc _]. apply negb_true_iff in Hc. now rewrite Hc.
Qed.

Lemma remove_unless_same (keep : ascii -> bool) (s : string) :
  every keep s = true -> remove_unless keep s = s.
Proof.
  induction s as [|c s IH]; [reflexivity|]. cbn. rewrite andb_true_iff.
  intros [Hc Hs]. now rewrite Hc, IH.
Qed.

Lemma replace_runs_none (b : bool) (p : ascii -> bool) (r : ascii) (s : string) :
  every (fun c => negb (p c)) s = true -> replace_runs_from b p r s = s.
Proof.
  revert b. induction s as [|c s IH]; intros b; [reflexivity|]. cbn. rewrite andb_true_iff.
  intros [Hc Hs]. apply negb_true_iff in Hc. now rewrite Hc, IH.
Qed.

(** Replacing the runs of one character by that character changes
    nothing where no two of them are adjacent. *)
Lemma replace_runs_single (b : bool) (p : ascii -> bool) (r : ascii) (s : string) :
  (forall c, p c = true -> c = r) ->
  (b = true -> starts_outside p s = true) -> no_two p s = true ->
  replace_runs_from b p r s = s.
Proof.
  intros Hp. revert b. induction s as [|c s IH]; intros b Hb H; [reflexivity|].
  cbn [replace_runs_from no_two] in *. apply andb_true_iff in H as [Hc Hs].
  destruct (p c) eqn:E.
  - destruct b; [specialize (Hb eq_refl); cbn in Hb; now rewrite E in Hb|].
    rewrite (IH true (fun _ => Hc) Hs). f_equal. symmetry. now apply Hp.
  - f_equal. apply IH; [discriminate | exact Hs].
Qed.

Lemma some_app (p : ascii -> bool) (s t : string) :
  some p (s +:+ t) = some p s || some p t.
Proof. induction s as [|c s IH]; [reflexivity|]. simpl. now rewrite IH, orb_assoc. Qed.

Lemma some_trimStart (q : ascii -> bool) (s : string) :
  (forall c, q c = true -> is_space c = false) -> some q s = true -> some q (trimStart s) = true.
Proof.
  intros Hq. induction s as [|c s IH]; [trivial|]. cbn [trimStart].
  destruct (is_space c) eqn:E; [|trivial]. cbn [some].
  destruct (q c) eqn:Hc; [rewrite (Hq c Hc) in E; discriminate E|]. exact IH.
Qed.

Lemma some_trimEnd (q : ascii -> bool) (s : string) :
  (forall c, q c = true -> is_space c = false) -> some q s = true -> some q (trimEnd s) = true.
Proof.
  intros Hq. induction s as [|c s IH]; [trivial|]. cbn [trimEnd some].
  intros H. destruct (q c) eqn:Hc.
  - destruct (trimEnd s); [rewrite (Hq c Hc)|]; cbn; now rewrite Hc.
  - cbn in H. specialize (IH H). destruct (trimEnd s) as [|d t]; [discriminate IH|].
    cbn [some] in *. now rewrite IH, orb_true_r.
Qed.

Lemma some_remove_unless (keep q : ascii -> bool) (s : string) :
  (forall c, q c = true -> keep c = true) -> some q s = true ->
  some q (remove_unless keep s) = true.
Proof.
  intros Hq. induction s as [|c s IH]; [trivial|]. cbn [some remove_unless].
  destruct (q c) eqn:Hc.
  - intros _. rewrite (Hq c Hc). cbn. now rewrite Hc.
  - cbn. intros H. destruct (keep c); [cbn; rewrite Hc|]; now apply IH.
Qed.

Lemma some_replace_runs (b : bool) (p q : ascii -> bool) (r : ascii) (s : string) :
  (forall c, q c = true -> p c = false) -> some q s = true ->
  some q (replace_runs_from b p r s) = true.
Proof.
  intros Hq. revert b. induction s as [|c s IH]; intros b; [trivial|].
  cbn [some replace_runs_from]. destruct (q c) eqn:Hc.
  - intros _. rewrite (Hq c Hc). cbn. now rewrite Hc.
  - cbn. intros H. destruct (p c).
    + destruct b; [now apply IH|]. cbn. rewrite (IH true H). apply orb_true_r.
    + cbn. rewrite Hc. now apply IH.
Qed.

Lemma some_nonempty (q : ascii -> bool) (s : string) : some q s = true -> s <> "".
Proof. destruct s; [discriminate | discriminate]. Qed.

(** *** [slugifyCode] *)

Lemma lower_not_capital (c : ascii) : between 65 90 (lower c) = false.
Proof. destruct c as [[] [] [] [] [] [] [] []]; reflexivity. Qed.

Lemma slug_char_lower (c : ascii) : slug_char c = true -> lower c = c.
Proof. destruct c as [[] [] [] [] [] [] [] []]; intros H; try reflexivity; discriminate H. Qed.

Lemma slug_char_not_space (c : ascii) : slug_char c = true -> is_space c = false.
Proof. destruct c as [[] [] [] [] [] [] [] []]; intros H; try reflexivity; discriminate H. Qed.

Lemma kept_lower_case (c : ascii) :
  (is_word c || is_space c || (code c =? 45)%N) && negb (between 65 90 c) = true ->
  is_space c || slug_char c = true.
Proof. destruct c as [[] [] [] [] [] [] [] []]; intros H; try reflexivity; discriminate H. Qed.

Lemma underscore_only (c : ascii) : is_underscore c = true -> c = "_"%char.
Proof. destruct c as [[] [] [] [] [] [] [] []]; intros H; try reflexivity; discriminate H. Qed.

Lemma slugifyCode_is_slug (s : string) : is_slug (Admin.slugifyCode s) = true.
Proof.
  unfold is_slug, Admin.slugifyCode, slice0, replace_runs.
  rewrite !andb_true_iff. repeat split.
  - apply Nat.leb_le, length_substring.
  - apply every_substring.
    eapply every_impl; [|apply (every_replace_runs false _ slug_char); [reflexivity|]].
    { intros c H. apply orb_true_iff in H as [H|H].
      - apply Ascii.eqb_eq in H. now subst.
      - now apply andb_true_iff in H. }
    eapply every_impl; [|apply (every_replace_runs false _ slug_char); [reflexivity|]].
    { intros c H. apply orb_true_iff. right. apply orb_true_iff in H as [H|H].
      - apply Ascii.eqb_eq in H. now subst.
      - now apply andb_true_iff in H. }
    eapply every_impl; [|apply every_remove_unless, every_trim, every_toLowerCase].
    { exact kept_lower_case. }
    intros c. cbn beta. now rewrite lower_not_capital.
  - apply no_two_substring, no_two_replace_runs.
Qed.

Lemma slug_unchanged (s : string) : is_slug s = true -> Admin.slugifyCode s = s.
Proof.
  unfold is_slug. rewrite !andb_true_iff, Nat.leb_le. intros [[Hl Hc] Hu].
  assert (Hns : every (fun c => negb (is_space c)) s = true).
  { eapply every_impl; [|exact Hc]. intros c H. now rewrite (slug_char_not_space c H). }
  unfold Admin.slugifyCode, slice0, replace_runs.
  assert (JsString.or_else s "" = s) as -> by now destruct s.
  rewrite toLowerCase_same.
  2:{ eapply every_impl; [|exact Hc]. intros c H. rewrite (slug_char_lower c H).
      apply Ascii.eqb_refl. }
  rewrite trim_same by exact Hns.
  rewrite remove_unless_same.
  2:{ eapply every_impl; [|exact Hc]. clear. intros c.
      destruct c as [[] [] [] [] [] [] [] []]; intros H; try reflexivity; discriminate H. }
  rewrite (replace_runs_none false is_space "_" s Hns).
  rewrite replace_runs_single; [|exact underscore_only|discriminate|exact Hu].
  now apply substring_all.
Qed.

(** X1: whatever the text, [slugifyCode] returns at most 40
    characters, each of them a small letter a-z, a digit, an underscore
    or a hyphen, and never two underscores in a row. *)
Theorem slugifyCode_shape (s : string) :
  (String.length (Admin.slugifyCode s) <= 40)%nat /\
  every slug_char (Admin.slugifyCode s) = true /\
  no_two is_underscore (Admin.slugifyCode s) = true.
Proof.
  pose proof (slugifyCode_is_slug s) as H. unfold is_slug in H.
  rewrite !andb_true_iff, Nat.leb_le in H. tauto.
Qed.

(** X2: [slugifyCode] applied twice is [slugifyCode] applied once, and
    the texts it leaves as they are are exactly the slugs: at most 40
    characters among a-z, 0-9, underscore and hyphen, with no two
    underscores in a row. *)
Theorem slugifyCode_fixed_points (s : string) :
  Admin.slugifyCode (Admin.slugifyCode s) = Admin.slugifyCode s /\
  (Admin.slugifyCode s = s <-> is_slug s = true).
Proof.
  split; [apply slug_unchanged, slugifyCode_is_slug|]. split.
  - intros <-. apply slugifyCode_is_slug.
  - apply slug_unchanged.
Qed.

(** *** [sanitizeFilename] *)

Lemma safe_after_replace (c : ascii) :
  Ascii.eqb c "_" || (negb (is_space c) && negb (Document.reserved c)) = true ->
  safe_char c = true.
Proof. destruct c as [[] [] [] [] [] [] [] []]; intros H; try reflexivity; discriminate H. Qed.

Lemma sanitizeFilename_safe (s : string) :
  every safe_char (Document.sanitizeFilename s) = true.
Proof.
  unfold Document.sanitizeFilename, slice0, replace_runs.
  apply every_substring.
  eapply every_impl;
    [exact safe_after_replace
    |apply (every_replace_runs false is_space (fun c => negb (Document.reserved c)));
     [reflexivity|]].
  eapply every_impl; [|apply (every_remove_unless _ (fun _ => true))].
  - intros c H. apply andb_true_iff in H as [H _]. cbn beta. rewrite H. apply orb_true_r.
  - clear. induction (trim _) as [|c t IH]; [reflexivity | exact IH].
Qed.

Lemma safe_char_facts (c : ascii) :
  safe_char c = true -> is_space c = false /\ negb (Document.reserved c) = true.
Proof.
  unfold safe_char. rewrite andb_true_iff, !negb_true_iff. tauto.
Qed.

(** A text with a character that is neither white space nor reserved
    keeps it. *)
Lemma sanitizeFilename_nonempty (s : string) :
  some safe_char s = true -> Document.sanitizeFilename s <> "".
Proof.
  intros H. unfold Document.sanitizeFilename, slice0, replace_runs.
  assert (JsString.or_else s "documento" = s) as ->.
  { destruct s; [discriminate H | reflexivity]. }
  assert (Ht : some safe_char
                 (replace_runs_from false is_space "_"
                    (remove_unless (fun c => negb (Document.reserved c)) (trim s))) = true).
  { apply some_replace_runs; [intros c Hc; now apply safe_char_facts in Hc|].
    apply some_remove_unless; [intros c Hc; now apply safe_char_facts in Hc|].
    apply some_trimEnd; [intros c Hc; now apply safe_char_facts in Hc|].
    apply some_trimStart; [intros c Hc; now apply safe_char_facts in Hc|]. exact H. }
  destruct (replace_runs_from _ _ _ _); [discriminate Ht | discriminate].
Qed.

(** X3: whatever the text, [sanitizeFilename] returns at most 80
    characters, none of them white space and none of them one of the
    nine characters it removes. *)
Theorem sanitizeFilename_shape (s : string) :
  (String.length (Document.sanitizeFilename s) <= 80)%nat /\
  every safe_char (Document.sanitizeFilename s) = true.
Proof.
  split; [apply length_substring | apply sanitizeFilename_safe].
Qed.

(** X4: in both variants the document is saved under a name that is
    not empty before its extension, whatever the number of the
    quotation and the name of the client: the underscores that join
    them are kept.  The name has at most 80 characters before the
    extension, and neither white space nor a reserved character. *)
Theorem saved_file_has_a_name (kind : string) (q : Document.Meta) :
  Document.fileName kind q <> "" /\
  (String.length (Document.fileName kind q) <= 80)%nat /\
  every safe_char (Document.fileName kind q) = true /\
  Document.savedAs kind q = Document.fileName kind q +:+ ".pdf".
Proof.
  split; [|split; [apply length_substring | split; [apply sanitizeFilename_safe | reflexivity]]].
  apply sanitizeFilename_nonempty.
  rewrite !some_app. cbn. now rewrite orb_true_r.
Qed.

(** ** More facts about binary64 *)

Lemma add_not_finite (x y : float) :
  isFinite x = false \/ isFinite y = false -> isFinite (x + y) = false.
Proof.
  rewrite !isFinite_SF, add_spec. unfold SF64add, SFadd.
  destruct (Prim2SF x) as [sx|sx| |sx mx ex], (Prim2SF y) as [sy|sy| |sy my ey];
    intros [H|H]; try discriminate H; try reflexivity; now destruct sx, sy.
Qed.

Lemma mul_not_finite (x y : float) :
  isFinite x = false \/ isFinite y = false -> isFinite (x * y) = false.
Proof.
  rewrite !isFinite_SF, mul_spec. unfold SF64mul, SFmul.
  destruct (Prim2SF x) as [sx|sx| |sx mx ex], (Prim2SF y) as [sy|sy| |sy my ey];
    intros [H|H]; try discriminate H; reflexivity.
Qed.

Lemma ltb_leb (x y : float) : (x <? y)%float = true -> (x <=? y)%float = true.
Proof.
  rewrite ltb_spec, leb_spec. unfold SFltb, SFleb.
  now destruct (SFcompare _ _) as [[]|].
Qed.

Lemma number_or_not_nan (v : jsval) (d : float) :
  is_nan d = false -> is_nan (number_or v d) = false.
Proof.
  intros Hd. unfold number_or, JsNumber.or_else, JsNumber.truthy.
  destruct (is_nan (ToNumber v)) eqn:E; [exact Hd|].
  now destruct (is_zero (ToNumber v)).
Qed.

(** ** The validity of the quotation *)

(** X5: whatever is typed in the input of the validity, in either
    variant, the validity stored is a number that is at least 1 (so it
    is never NaN, zero or negative), and the other fields of the
    quotation are kept: a text that is no numeral, an empty text, zero
    and the negative numbers all give 1. *)
Theorem validity_is_at_least_one (v : string) (q : Document.Meta) :
  (1 <=? Document.validityDays (Document.onValidityChange v q))%float = true /\
  Document.clientName (Document.onValidityChange v q) = Document.clientName q /\
  Document.quoteNumber (Document.onValidityChange v q) = Document.quoteNumber q /\
  Document.date (Document.onValidityChange v q) = Document.date q.
Proof.
  split; [|repeat split]. cbn [Document.onValidityChange Document.validityDays].
  unfold JsMath.max.
  rewrite (number_or_not_nan (VStr v) 1 eq_refl).
  change (is_nan 1) with false. cbn [orb].
  destruct (1 <? number_or (VStr v) 1)%float eqn:E; [now apply ltb_leb|].
  now destruct (number_or (VStr v) 1 <? 1)%float.
Qed.

(** ** A line that is not finite *)

Lemma sum_not_finite (l : list Item) (a : float) :
  isFinite a = false \/ Exists (fun it => isFinite (it_subtotal it) = false) l ->
  isFinite (fold_left (fun acc it => (acc + it_subtotal it)%float) l a) = false.
Proof.
  revert a. induction l as [|it l IH]; intros a H; cbn [fold_left].
  - destruct H as [H|H]; [exact H | inversion H].
  - apply IH. destruct H as [H|H].
    + left. apply add_not_finite. now left.
    + inversion H as [? ? Hit|? ? Hl]; subst.
      * left. apply add_not_finite. now right.
      * now right.
Qed.

Lemma subtotal_not_finite (rows : list Row) :
  some_line_not_finite rows -> isFinite (sum_subtotals (map line_item rows)) = false.
Proof.
  intros H. apply sum_not_finite. right. unfold some_line_not_finite in H.
  induction H as [r l H|r l H IH]; cbn [map]; [now left | now right].
Qed.

Lemma convert_not_finite (rate : float) (c : Currency) (x : float) :
  isFinite x = false -> Conversion.convert (ops := binary64) rate c x = 0%float.
Proof.
  intros H. unfold Conversion.convert. cbn [n_isFinite n_zero binary64]. now rewrite H.
Qed.

Lemma shown_as_zero_when_not_finite (c : Currency) (t : Totals) (rate taxRate : float)
    (c' : Currency) :
  isFinite (subtotal t) = false ->
  igv t = (subtotal t * taxRate)%float ->
  total t = (subtotal t + igv t)%float ->
  subtotalOther t = Conversion.convert (ops := binary64) rate c' (subtotal t) ->
  igvOther t = Conversion.convert (ops := binary64) rate c' (igv t) ->
  totalOther t = Conversion.convert (ops := binary64) rate c' (total t) ->
  shown_as_zero c t.
Proof.
  intros Hs Hi Ht H1 H2 H3.
  assert (Hi' : isFinite (igv t) = false) by (rewrite Hi; apply mul_not_finite; now left).
  assert (Ht' : isFinite (total t) = false) by (rewrite Ht; apply add_not_finite; now left).
  unfold shown_as_zero, moneyFmt. rewrite Hs, Hi', Ht', H1, H2, H3.
  rewrite !convert_not_finite by assumption. repeat split.
Qed.

(** X6: in both variants, as soon as one line of the quotation has a
    subtotal that is not finite (an overflow of hours times cost, or an
    infinite cost), the subtotal, the tax and the total are formatted
    as 0 in the selected currency, and the three converted figures are
    0: the figures of the other lines are not shown either. *)
Theorem one_line_not_finite_zeroes_the_figures (st : Admin.State) (c : Currency) :
  some_line_not_finite (Admin.rows st) ->
  shown_as_zero (Admin.currency st) (Admin.computed st) /\
  shown_as_zero c (Basic.computed (Admin.rows st) c).
Proof.
  intros H. apply subtotal_not_finite in H. split.
  - eapply shown_as_zero_when_not_finite; try reflexivity. exact H.
  - eapply shown_as_zero_when_not_finite; try reflexivity. exact H.
Qed.

(** Two lines, the second one of 1e200 hours at 1e200. *)
Lemma one_line_not_finite_zeroes_the_figures_witness :
  shown_as_zero PEN
    (Admin.computed
       (Sample.with_rows [Sample.two_by_three; Sample.overflowing] Sample.start)) /\
  shown_as_zero USD (Basic.computed [Sample.two_by_three; Sample.overflowing] USD).
Proof.
  apply (one_line_not_finite_zeroes_the_figures
           (Sample.with_rows [Sample.two_by_three; Sample.overflowing] Sample.start) USD).
  right. left. vm_compute. reflexivity.
Defined.

(** ** The rates that are shown and the rates that are applied *)

Example round_samples :
  map JsMath.round
    [ 2.5; -2.5; 0.49999999999999994; 0.5; 1.5; -1.5; 18.000000000000004;
      4503599627370495.5; 1e300; infinity ]%float
  = [ 3; -2; 0; 1; 2; -1; 18; 4503599627370496; 1e300; infinity ]%float /\
  map (fun x => get_sign (JsMath.round x)) [ -0.5; -0.2; 0.2; -0 ]%float
  = [ true; true; false; true ] /\
  is_nan (JsMath.round nan) = true.
Proof. vm_compute. repeat split; reflexivity. Qed.

Example max_samples :
  map (fun p => JsMath.max (fst p) (snd p))
    [ (1, 2); (1, -5); (1, infinity); (1, 0.5); (-0, 0); (0, -0) ]%float
  = [ 2; 1; infinity; 1; 0; 0 ]%float /\
  is_nan (JsMath.max 1 nan) = true.
Proof. vm_compute. split; reflexivity. Qed.

(** X7: the tax rate that is applied and the tax rate that is shown
    are not the same function of the settings.  When the stored rate
    coerces to 0 or NaN (the admin typed 0 in the input, or cleared
    it), the tax is the subtotal times 0, the document says 0%, and
    the screen says 18%, in its header and in its summary.  For any
    other stored rate the screen and the document show the same
    percentage, that of the rate applied. *)
Theorem unusable_tax_rate_is_shown_as_18 (st : Admin.State) (q : Document.Meta) :
  let rate := ToNumber (field (Admin.settings st) "igvRate") in
  (unusable rate = true ->
   igv (Admin.computed st) = (subtotal (Admin.computed st) * 0)%float /\
   snd (AdminView.fx st) = "18%" /\
   map fst (AdminView.summary st) = ["Subtotal"; "IGV (18%)"; "Total"] /\
   map fst (AdminView.totals st) = ["Subtotal"; "IGV (0%)"; "TOTAL"] /\
   nth 5 (AdminView.rightLines q st) "" = "IGV: 0%") /\
  (unusable rate = false ->
   igv (Admin.computed st) = (subtotal (Admin.computed st) * rate)%float /\
   snd (AdminView.fx st) = Document.percent rate +:+ "%" /\
   map fst (AdminView.summary st)
   = ["Subtotal"; "IGV (" +:+ Document.percent rate +:+ "%)"; "Total"] /\
   map fst (AdminView.totals st)
   = ["Subtotal"; "IGV (" +:+ Document.percent rate +:+ "%)"; "TOTAL"] /\
   nth 5 (AdminView.rightLines q st) "" = "IGV: " +:+ Document.percent rate +:+ "%").
Proof.
  cbv zeta.
  unfold AdminView.fx, AdminView.summary, AdminView.totals, AdminView.rightLines,
    Admin.computed.
  cbn [igv subtotal map fst snd nth].
  rewrite !(number_or_cases (field (Admin.settings st) "igvRate")).
  split; intros ->; repeat split.
Qed.

(** The admin types 0 in the input of the tax rate. *)
Example tax_set_to_zero :
  let st := Admin.onIgvRateChange "0" Sample.start in
  igv (Admin.computed st) = 0%float /\
  total (Admin.computed st) = 600%float /\
  map fst (AdminView.summary st) = ["Subtotal"; "IGV (18%)"; "Total"] /\
  map fst (AdminView.totals st) = ["Subtotal"; "IGV (0%)"; "TOTAL"].
Proof. vm_compute. repeat split; reflexivity. Qed.

(** X8: the exchange rate that is applied and the one that is shown
    differ in the same way.  When the stored rate coerces to 0 or NaN,
    the amounts are converted at the rate 1 (a finite figure is
    converted to itself) while the header of the screen and the
    document both say that 1 USD is 3.5 PEN.  For any other stored
    rate they show the rate applied. *)
Theorem unusable_exchange_rate_is_shown_as_3_5 (st : Admin.State) (q : Document.Meta) :
  (unusable (stored_rate st) = true ->
   totalOther (Admin.computed st) = finite_or_zero (total (Admin.computed st)) /\
   fst (AdminView.fx st) = "1 USD = 3.5 PEN" /\
   nth 4 (AdminView.rightLines q st) "" = "TC: 1 USD = 3.5 PEN") /\
  (unusable (stored_rate st) = false ->
   totalOther (Admin.computed st)
   = Conversion.convert (ops := binary64) (stored_rate st) (Admin.currency st)
       (total (Admin.computed st)) /\
   fst (AdminView.fx st) = "1 USD = " +:+ NumberToString (stored_rate st) +:+ " PEN" /\
   nth 4 (AdminView.rightLines q st) ""
   = "TC: 1 USD = " +:+ NumberToString (stored_rate st) +:+ " PEN").
Proof.
  unfold stored_rate, AdminView.fx, AdminView.rightLines, Admin.computed.
  cbn [totalOther total fst nth].
  rewrite !(number_or_cases (field (Admin.settings st) "exchangeRate")).
  split; intros ->; (split; [|split; reflexivity]).
  - apply convert_by_one.
  - reflexivity.
Qed.

(** ** The two variants *)

Lemma default_labels (c : string) :
  match Admin.getServiceByCode Admin.DEFAULT_SERVICES c with
  | Some s => JsString.or_else (Admin.label s) c
  | None => c
  end = Basic.getServiceLabel c.
Proof.
  unfold Admin.getServiceByCode, Basic.getServiceLabel, Basic.find_entry,
    Admin.DEFAULT_SERVICES, Basic.SERVICE_CATALOG.
  cbn [find Admin.code Basic.value].
  repeat (destruct (String.eqb _ c); [reflexivity|]). reflexivity.
Qed.

(** X9: the admin variant with the settings and the catalog of the
    basic variant is the basic variant.  When the tax rate and the
    exchange rate of the settings coerce to 0.18 and 3.5, [computed]
    returns the same value in both, the figures under the table of
    the document have the same labels and amounts, and the header of
    the admin document is that of the basic one followed by the line
    of the tax rate; when moreover the catalog is the default one, the
    table of the document of the admin variant is that of the basic
    variant without its column of hours. *)
Theorem admin_with_defaults_is_basic (st : Admin.State) (q : Document.Meta) :
  number_or (field (Admin.settings st) "igvRate") 0 = Basic.IGV_RATE ->
  number_or (field (Admin.settings st) "exchangeRate") 1 = Basic.EXCHANGE_RATE ->
  Admin.computed st = Basic.computed (Admin.rows st) (Admin.currency st) /\
  AdminView.totals st = BasicView.totals (Admin.rows st) (Admin.currency st) /\
  AdminView.rightLines q st = BasicView.rightLines q (Admin.currency st) ++ ["IGV: 18%"] /\
  (Admin.services st = Admin.DEFAULT_SERVICES ->
   Admin.body st = map without_hours (Basic.body (Admin.rows st) (Admin.currency st))).
Proof.
  intros Hi Hr.
  assert (Hc : Admin.computed st = Basic.computed (Admin.rows st) (Admin.currency st)).
  { unfold Admin.computed, Basic.computed, Basic.convert. now rewrite Hi, Hr. }
  assert (Hr' : number_or (field (Admin.settings st) "exchangeRate") 3.5 = Basic.EXCHANGE_RATE).
  { revert Hr. rewrite !number_or_cases.
    destruct (unusable _); [reflexivity | trivial]. }
  split; [exact Hc|]. split; [|split].
  - unfold AdminView.totals, BasicView.totals. now rewrite Hc, Hi.
  - unfold AdminView.rightLines, BasicView.rightLines. now rewrite Hi, Hr'.
  - intros Hs.
    unfold Admin.body, Basic.body. rewrite Hc, Hs, map_map. apply map_ext.
    intros it. cbn [without_hours]. now rewrite default_labels.
Qed.

(** The state in which the admin variant starts, with three rows. *)
Lemma admin_with_defaults_is_basic_witness :
  Admin.computed (Sample.with_rows Sample.three_rows Sample.start)
  = Basic.computed Sample.three_rows PEN /\
  Admin.body (Sample.with_rows Sample.three_rows Sample.start)
  = map without_hours (Basic.body Sample.three_rows PEN).
Proof.
  destruct (admin_with_defaults_is_basic (Sample.with_rows Sample.three_rows Sample.start)
              (Document.initial_meta "2025-01-01"))
    as (H1 & _ & _ & H2); [reflexivity | reflexivity |].
  split; [exact H1 | apply H2; reflexivity].
Defined.

(** ** The rows and the catalog *)

Lemma resolves_by_service (services : list Admin.Service) (r r' : Row) :
  serviceType r' = serviceType r -> resolves services r -> resolves services r'.
Proof.
  unfold resolves. intros E (s & H1 & H2). exists s. split; congruence.
Qed.

Lemma keepRowsValid_resolves (services : list Admin.Service) (rows : list Row) :
  services <> [] -> Forall (resolves services) (Admin.keepRowsValid services rows).
Proof.
  destruct services as [|first rest]; [contradiction|]. intros _.
  unfold Admin.keepRowsValid. apply List.Forall_forall.
  intros r' [r [<- Hr]]%in_map_iff.
  destruct (bool_decide _) eqn:E; [now apply in_codes in E|].
  exists first. split; [now left | reflexivity].
Qed.

Lemma keepRowsValid_same (services : list Admin.Service) (rows : list Row) :
  Forall (resolves services) rows -> Admin.keepRowsValid services rows = rows.
Proof.
  destruct services as [|first rest]; [reflexivity|].
  unfold Admin.keepRowsValid. intros H.
  induction H as [|r rows Hr H IH]; [reflexivity|].
  rewrite (map_cons _ r rows), IH. apply in_codes in Hr. now rewrite Hr.
Qed.

Lemma keepRowsValid_fields (services : list Admin.Service) (rows : list Row) :
  Forall2
    (fun r r' => row_id r' = row_id r /\ detail r' = detail r /\
                 hours r' = hours r /\ hourlyCost r' = hourlyCost r)
    rows (Admin.keepRowsValid services rows).
Proof.
  destruct services as [|first rest].
  - cbn. induction rows; constructor; [repeat split | assumption].
  - unfold Admin.keepRowsValid. apply Forall2_map_r. intros r _.
    now destruct (bool_decide _).
Qed.

Lemma priced_alike (rows rows' : list Row) :
  Forall2
    (fun r r' => row_id r' = row_id r /\ detail r' = detail r /\
                 hours r' = hours r /\ hourlyCost r' = hourlyCost r)
    rows rows' ->
  same_amounts (map line_item rows) (map line_item rows') /\
  sum_subtotals (map line_item rows') = sum_subtotals (map line_item rows).
Proof.
  intros H.
  assert (Hs : same_amounts (map line_item rows) (map line_item rows')).
  { induction H as [|r r' l l' (H1 & H2 & H3 & H4) H IH]; cbn [map]; constructor;
      [|exact IH].
    unfold line_item. cbn. now rewrite H1, H2, H3, H4. }
  split; [exact Hs|].
  unfold sum_subtotals. rewrite !sum_subtotals_fold. f_equal.
  induction Hs as [|it it' l l' (_ & _ & _ & _ & H5) Hs IH]; cbn [map]; [reflexivity|].
  now rewrite H5, IH.
Qed.

Lemma change_frame (c : catalog_change) (st : Admin.State) :
  Admin.settings (change c st) = Admin.settings st /\
  Admin.currency (change c st) = Admin.currency st /\
  (Admin.rows (change c st) = Admin.rows st \/
   exists l, Admin.rows (change c st) = Admin.keepRowsValid l (Admin.rows st)).
Proof.
  destruct c as [id|id p|id answer|fresh item|l]; cbn [change].
  - unfold Admin.addServiceFromAdmin.
    repeat (destruct (is_empty _); [now auto|]).
    destruct (existsb _ _); [now auto|]. cbn. eauto.
  - cbn. eauto.
  - unfold Admin.deleteService.
    destruct (find _ _); [|now auto].
    destruct (_ <=? _)%nat; [now auto|].
    destruct answer; cbn; eauto.
  - destruct (loadServices_cases fresh item st) as [E|(saved & _ & _ & _ & E)];
      rewrite E; cbn; eauto.
  - cbn. eauto.
Qed.

(** X10: no change of the catalog changes an amount of the quotation.
    After a service is added, edited or deleted, after the catalog is
    loaded or replaced, every line has the hours, the hourly cost, the
    detail and the subtotal it had (only its service may have been
    reassigned), and the six figures of [computed] are the same: in
    particular, editing the default hourly cost of a service does not
    reprice the lines that use it. *)
Theorem catalog_changes_keep_the_amounts (c : catalog_change) (st : Admin.State) :
  same_amounts (items (Admin.computed st)) (items (Admin.computed (change c st))) /\
  subtotal (Admin.computed (change c st)) = subtotal (Admin.computed st) /\
  igv (Admin.computed (change c st)) = igv (Admin.computed st) /\
  total (Admin.computed (change c st)) = total (Admin.computed st) /\
  subtotalOther (Admin.computed (change c st)) = subtotalOther (Admin.computed st) /\
  igvOther (Admin.computed (change c st)) = igvOther (Admin.computed st) /\
  totalOther (Admin.computed (change c st)) = totalOther (Admin.computed st).
Proof.
  destruct (change_frame c st) as (Hs & Hc & Hr).
  assert (H : Forall2
                (fun r r' => row_id r' = row_id r /\ detail r' = detail r /\
                             hours r' = hours r /\ hourlyCost r' = hourlyCost r)
                (Admin.rows st) (Admin.rows (change c st))).
  { destruct Hr as [->|[l ->]]; [|apply keepRowsValid_fields].
    induction (Admin.rows st); constructor; [repeat split | assumption]. }
  apply priced_alike in H as [H1 H2].
  unfold Admin.computed.
  cbn [items subtotal igv total subtotalOther igvOther totalOther].
  rewrite Hs, Hc, H2. repeat split. exact H1.
Qed.

(** X11: the effect that keeps the rows valid leaves every row with a
    service of the catalog when the catalog has an entry, changes
    nothing when every row has one already, and so changes nothing
    when it runs a second time. *)
Theorem keepRowsValid_settles (services : list Admin.Service) (rows : list Row) :
  (services <> [] -> Forall (resolves services) (Admin.keepRowsValid services rows)) /\
  (Forall (resolves services) rows -> Admin.keepRowsValid services rows = rows) /\
  Admin.keepRowsValid services (Admin.keepRowsValid services rows)
  = Admin.keepRowsValid services rows.
Proof.
  split; [apply keepRowsValid_resolves|]. split; [apply keepRowsValid_same|].
  destruct services as [|first rest] eqn:E; [reflexivity|]. rewrite <- E.
  apply keepRowsValid_same, keepRowsValid_resolves. now rewrite E.
Qed.

(** ** What the handlers maintain *)

Lemma or_else_nonempty (a b : string) : a <> "" -> JsString.or_else a b = a.
Proof. destruct a; [contradiction | reflexivity]. Qed.

Lemma resolves_codes (services : list Admin.Service) (r : Row) :
  resolves services r <-> In (serviceType r) (map Admin.code services).
Proof.
  unfold resolves. rewrite in_map_iff. split; intros (s & H1 & H2); exists s; tauto.
Qed.

Lemma Forall_filter_list {A : Type} (P : A -> Prop) (p : A -> bool) (l : list A) :
  Forall P l -> Forall P (List.filter p l).
Proof.
  rewrite !List.Forall_forall. intros H x [Hx _]%filter_In. now apply H.
Qed.

Lemma filter_all {A : Type} (p : A -> bool) (l : list A) :
  Forall (fun x => p x = true) l -> List.filter p l = l.
Proof.
  induction 1 as [|x l Hx H IH]; [reflexivity|]. cbn. now rewrite Hx, IH.
Qed.

Lemma distinct_ids_cons (x : Admin.Service) (l : list Admin.Service) :
  distinct_ids (x :: l) <->
  Forall (fun t => Admin.same_id (Admin.svc_id x) (Admin.svc_id t) = false /\
                   Admin.same_id (Admin.svc_id t) (Admin.svc_id x) = false) l /\
  distinct_ids l.
Proof.
  unfold distinct_ids. split.
  - intros H. split.
    + apply List.Forall_forall. intros t Ht.
      apply list_elem_of_In, list_elem_of_lookup in Ht as [k Hk]. split.
      * destruct (Admin.same_id (Admin.svc_id x) (Admin.svc_id t)) eqn:E; [|reflexivity].
        assert (0%nat = S k) as E' by (apply (H 0%nat (S k) x t); auto).
        discriminate E'.
      * destruct (Admin.same_id (Admin.svc_id t) (Admin.svc_id x)) eqn:E; [|reflexivity].
        assert (S k = 0%nat) as E' by (apply (H (S k) 0%nat t x); auto).
        discriminate E'.
    + intros i j s t Hi Hj E.
      assert (S i = S j) as E' by (apply (H (S i) (S j) s t); auto).
      now injection E'.
  - intros [Hx Hl] [|i] [|j] s t Hi Hj E; cbn in Hi, Hj.
    + reflexivity.
    + injection Hi as <-. rewrite List.Forall_forall in Hx.
      destruct (Hx t) as [H1 _]; [|congruence].
      apply list_elem_of_In, list_elem_of_lookup. eauto.
    + injection Hj as <-. rewrite List.Forall_forall in Hx.
      destruct (Hx s) as [_ H2]; [|congruence].
      apply list_elem_of_In, list_elem_of_lookup. eauto.
    + f_equal. now apply (Hl i j s t).
Qed.

Lemma distinct_ids_nil : distinct_ids [].
Proof. intros i j s t Hi. destruct i; discriminate Hi. Qed.

Lemma distinct_ids_filter (p : Admin.Service -> bool) (l : list Admin.Service) :
  distinct_ids l -> distinct_ids (List.filter p l).
Proof.
  induction l as [|x l IH]; [trivial|]. intros [Hx Hl]%distinct_ids_cons.
  cbn [List.filter]. destruct (p x); [|now apply IH].
  apply distinct_ids_cons. split; [now apply Forall_filter_list | now apply IH].
Qed.

Lemma distinct_ids_map (f : Admin.Service -> Admin.Service) (l : list Admin.Service) :
  (forall s, Admin.svc_id (f s) = Admin.svc_id s) ->
  distinct_ids l -> distinct_ids (map f l).
Proof.
  intros Hf. induction l as [|x l IH]; [trivial|]. intros [Hx Hl]%distinct_ids_cons.
  cbn [map]. apply distinct_ids_cons. split; [|now apply IH].
  apply List.Forall_forall. intros t [s [<- Hs]]%in_map_iff. rewrite !Hf.
  rewrite List.Forall_forall in Hx. now apply Hx.
Qed.

Lemma same_id_string (a : string) (x : Admin.ident) :
  Admin.same_id (Admin.IdStr a) x = Admin.same_id x (Admin.IdStr a).
Proof. destruct x; try reflexivity. cbn. apply String.eqb_sym. Qed.

Lemma distinct_ids_snoc (l : list Admin.Service) (e : Admin.Service) (id : string) :
  Admin.svc_id e = Admin.IdStr id -> fresh_id (Admin.IdStr id) l ->
  distinct_ids l -> distinct_ids (l ++ [e]).
Proof.
  intros He. unfold fresh_id. induction l as [|x l IH]; intros Hf Hd; cbn [app].
  - apply distinct_ids_cons. split; [constructor | apply distinct_ids_nil].
  - apply distinct_ids_cons in Hd as [Hx Hl].
    apply Forall_cons_iff in Hf as [Hfx Hf]. apply distinct_ids_cons.
    split; [|now apply IH]. apply Forall_app. split; [exact Hx|].
    constructor; [|constructor]. rewrite He, same_id_string. now split.
Qed.

Lemma sound_after_rows (f : list Row -> list Row) (st : Admin.State) :
  sound st -> Forall (resolves (Admin.services st)) (f (Admin.rows st)) ->
  sound (AdminEvents.setRows f st).
Proof. intros [] H. now constructor. Qed.

Lemma sound_after_form (n : Admin.NewService) (st : Admin.State) :
  sound st -> is_slug (Admin.new_code n) = true -> sound (Admin.setNewService n st).
Proof. intros [] H. now constructor. Qed.

Lemma sound_after_settings (f : gmap string jsval -> gmap string jsval) (st : Admin.State) :
  sound st -> sound (Admin.setSettings f st).
Proof. intros []. now constructor. Qed.

Lemma sound_after_services (f : list Admin.Service -> list Admin.Service) (st : Admin.State) :
  sound st ->
  f (Admin.services st) <> [] ->
  distinct_ids (f (Admin.services st)) ->
  unique_codes (f (Admin.services st)) ->
  Forall (fun s => is_slug (Admin.code s) = true /\ Admin.code s <> "") (f (Admin.services st)) ->
  sound (Admin.setServices f st).
Proof.
  intros [] H1 H2 H3 H4. constructor; cbn; try assumption.
  now apply keepRowsValid_resolves.
Qed.

Lemma emptyRow_first (first : Admin.Service) (rest : list Admin.Service) (id : string) :
  Admin.code first <> "" ->
  Admin.emptyRow (first :: rest) id
  = {| row_id := id; serviceType := Admin.code first; detail := "";
       hours := VNum 10; hourlyCost := VNum (Admin.defaultHourlyCost first) |}.
Proof.
  intros H. unfold Admin.emptyRow, Admin.firstServiceCode, Admin.getServiceByCode.
  rewrite (or_else_nonempty _ "creacion_web" H). cbn [find].
  rewrite String.eqb_refl. now rewrite (or_else_nonempty _ _ H).
Qed.

Lemma trim_slug (s : string) : is_slug s = true -> trim s = s.
Proof.
  unfold is_slug. rewrite !andb_true_iff. intros [[_ H] _]. apply trim_same.
  eapply every_impl; [|exact H]. intros c Hc. now rewrite (slug_char_not_space c Hc).
Qed.

Lemma form_code_slug (st : Admin.State) :
  is_slug (Admin.new_code (Admin.newService st)) = true -> is_slug (form_code st) = true.
Proof.
  intros H. unfold form_code.
  assert (Hs : is_slug (JsString.or_else (Admin.new_code (Admin.newService st))
                          (Admin.slugifyCode (form_label st))) = true).
  { unfold JsString.or_else. destruct (is_empty _); [apply slugifyCode_is_slug | exact H]. }
  now rewrite (trim_slug _ Hs).
Qed.

Lemma default_services_sound (id : string) : sound (Admin.initial id).
Proof.
  constructor; cbn [Admin.initial Admin.services Admin.rows Admin.newService].
  - discriminate.
  - apply default_ids_distinct.
  - apply default_codes_unique.
  - repeat constructor; try (vm_compute; reflexivity); discriminate.
  - constructor; [|constructor]. eexists. split; [left; reflexivity | reflexivity].
  - reflexivity.
Qed.

Lemma handled_sound (st st' : Admin.State) : handled st st' -> sound st -> sound st'.
Proof.
  intros H Hs. destruct H as [id st|id st|id p st|id c st Hc|c st|v st|v st|k v st
                             |v st|v st|v st|v st|id st Hf|id p st|id answer st].
  - (* addRow *)
    change (Admin.addRow id st)
      with (AdminEvents.setRows (fun rows => rows ++ [Admin.emptyRow (Admin.services st) id]) st).
    apply sound_after_rows; [exact Hs|]. apply Forall_app. split; [apply Hs|].
    constructor; [|constructor]. destruct Hs as [Hn _ _ Hsl _ _].
    destruct (Admin.services st) as [|first rest]; [contradiction|].
    apply Forall_cons_iff in Hsl as [[_ Hne] _]. rewrite (emptyRow_first _ _ _ Hne).
    exists first. split; [now left | reflexivity].
  - (* removeRow *)
    apply sound_after_rows; [exact Hs|]. apply Forall_filter_list, Hs.
  - (* updateRow *)
    apply sound_after_rows; [exact Hs|]. destruct Hs as [_ _ _ _ Hr _].
    unfold updateRow. apply List.Forall_forall. intros r' [r [<- Hin]]%in_map_iff.
    rewrite List.Forall_forall in Hr. specialize (Hr r Hin).
    destruct (String.eqb (row_id r) id); [|exact Hr].
    now apply (resolves_by_service _ r).
  - (* handleServiceChange *)
    apply sound_after_rows; [exact Hs|]. destruct Hs as [_ _ _ _ Hr _].
    unfold Admin.handleServiceChange. apply List.Forall_forall.
    intros r' [r [<- Hin]]%in_map_iff.
    rewrite List.Forall_forall in Hr. specialize (Hr r Hin).
    destruct (String.eqb (row_id r) id); [|exact Hr]. now apply resolves_codes.
  - (* setCurrency *)
    destruct Hs. now constructor.
  - now apply sound_after_settings.
  - now apply sound_after_settings.
  - now apply sound_after_settings.
  - (* the form *)
    apply sound_after_form; [exact Hs|]. cbn. unfold JsString.or_else.
    destruct (is_empty _); [apply slugifyCode_is_slug | apply Hs].
  - apply sound_after_form; [exact Hs|]. apply slugifyCode_is_slug.
  - apply sound_after_form; [exact Hs|]. apply Hs.
  - apply sound_after_form; [exact Hs|]. apply Hs.
  - (* addServiceFromAdmin *)
    destruct (classic_rejected st) as [Hr|Hr].
    { destruct (addService_rejected id st Hr) as [msg ->]. exact Hs. }
    pose proof (add_preserves id st (sound_codes st Hs) (sound_nonempty st Hs)) as [Hu _].
    rewrite (addService_accepted id st Hr) in Hu |- *. cbn [fst] in Hu |- *.
    apply sound_after_form; [|reflexivity]. apply sound_after_services; [exact Hs| | |exact Hu|].
    + intros E. now apply app_eq_nil in E as [_ E].
    + apply (distinct_ids_snoc _ _ id); [reflexivity | exact Hf | apply Hs].
    + apply Forall_app. split; [apply Hs|]. constructor; [|constructor].
      cbn [form_entry Admin.code]. split; [apply form_code_slug, Hs|].
      intros E. apply Hr. right. now left.
  - (* updateService *)
    pose proof (update_preserves id p st (sound_codes st Hs) (sound_nonempty st Hs))
      as [Hu Hn].
    apply sound_after_services; [exact Hs | exact Hn | | exact Hu |].
    + apply distinct_ids_map; [|apply Hs]. intros s.
      now destruct (Admin.same_id (Admin.svc_id s) id).
    + destruct Hs as [_ _ _ Hsl _ _]. apply List.Forall_forall.
      intros s' [s [<- Hin]]%in_map_iff.
      rewrite List.Forall_forall in Hsl. specialize (Hsl s Hin).
      now destruct (Admin.same_id (Admin.svc_id s) id).
  - (* deleteService *)
    pose proof (delete_preserves id answer st (sound_codes st Hs) (sound_nonempty st Hs))
      as [Hu Hn].
    specialize (Hn (sound_ids st Hs)). revert Hu Hn. unfold Admin.deleteService.
    destruct (find _ _) as [svc|]; [|intros _ _; exact Hs].
    destruct (_ <=? _)%nat; [intros _ _; exact Hs|].
    destruct answer; cbn [negb fst]; [|intros _ _; exact Hs].
    intros Hu Hn. apply sound_after_services; [exact Hs | exact Hn | | exact Hu |].
    + apply distinct_ids_filter, Hs.
    + apply Forall_filter_list, Hs.
Qed.

(** X12: whatever the events of a session of the admin variant (rows
    added, edited, removed or moved to a service of the list; services
    added, edited or deleted; the form and the settings edited), as
    long as the catalog is not loaded from the storage: the catalog
    keeps at least one entry, its identifiers and its codes stay
    distinct, every code is a slug that is not empty, the code of the
    form is a slug, and every row of the quotation has a service of
    the catalog. *)
Theorem reachable_states_are_sound (id : string) (st : Admin.State) :
  reachable id st -> sound st.
Proof.
  unfold reachable. revert st. apply (rtc_ind_r (fun st => sound st)).
  - apply default_services_sound.
  - intros y z _ Hyz IH. exact (handled_sound y z Hyz IH).
Qed.

(** A service is typed in and added, and the row is moved to it. *)
Lemma reachable_states_are_sound_witness :
  sound
    (AdminEvents.setRows
       (Admin.handleServiceChange
          (Admin.services
             (fst (Admin.addServiceFromAdmin "s1"
                     (AdminEvents.onLabelChange "Hosting anual" (Admin.initial "r1")))))
          "r1" "hosting_anual")
       (fst (Admin.addServiceFromAdmin "s1"
               (AdminEvents.onLabelChange "Hosting anual" (Admin.initial "r1"))))).
Proof.
  apply (reachable_states_are_sound "r1"). unfold reachable.
  eapply rtc_r;
    [eapply rtc_r; [eapply rtc_once; apply (handled_label "Hosting anual")|]|].
  - apply (handled_add "s1"). vm_compute. repeat constructor.
  - apply (handled_serviceChange "r1" "hosting_anual"). vm_compute. tauto.
Defined.

(** ** Editing, adding and deleting a service *)

(** X13: [updateService] changes neither the identifier nor the code
    of an entry, nor the number or the order of the entries: an entry
    with the identifier given takes the fields of the patch, any other
    entry is unchanged (so an identifier that no entry has changes no
    entry).  The settings, the currency and the form are kept, and so
    are the rows when each of them has a service of the catalog: the
    hourly cost of a row that is already in the quotation does not
    follow the default hourly cost of its service. *)
Theorem updateService_frame (id : Admin.ident) (p : Admin.ServicePatch) (st : Admin.State) :
  map Admin.svc_id (Admin.services (Admin.updateService id p st))
  = map Admin.svc_id (Admin.services st) /\
  map Admin.code (Admin.services (Admin.updateService id p st))
  = map Admin.code (Admin.services st) /\
  Forall2
    (fun s s' =>
       (Admin.same_id (Admin.svc_id s) id = true -> s' = Admin.patch_service s p) /\
       (Admin.same_id (Admin.svc_id s) id = false -> s' = s))
    (Admin.services st) (Admin.services (Admin.updateService id p st)) /\
  (Forall (resolves (Admin.services st)) (Admin.rows st) ->
   Admin.rows (Admin.updateService id p st) = Admin.rows st) /\
  Admin.settings (Admin.updateService id p st) = Admin.settings st /\
  Admin.currency (Admin.updateService id p st) = Admin.currency st /\
  Admin.newService (Admin.updateService id p st) = Admin.newService st.
Proof.
  cbn [Admin.updateService Admin.setServices Admin.services Admin.rows Admin.settings
         Admin.currency Admin.newService].
  assert (Hc : map Admin.code
                 (map (fun s => if Admin.same_id (Admin.svc_id s) id
                                then Admin.patch_service s p else s) (Admin.services st))
               = map Admin.code (Admin.services st)) by apply patch_keeps_codes.
  repeat split.
  - rewrite map_map. apply map_ext. intros s.
    now destruct (Admin.same_id (Admin.svc_id s) id).
  - exact Hc.
  - apply Forall2_map_r. intros s _.
    destruct (Admin.same_id (Admin.svc_id s) id); split; intros H;
      try reflexivity; discriminate H.
  - intros H. apply keepRowsValid_same.
    eapply List.Forall_impl; [|exact H]. intros r Hr.
    apply resolves_codes. rewrite Hc. now apply resolves_codes.
Qed.

Lemma find_snoc {A : Type} (q : A -> bool) (l : list A) (e : A) :
  Forall (fun x => q x = false) l -> q e = true -> find q (l ++ [e]) = Some e.
Proof.
  intros H He. induction H as [|x l Hx H IH]; cbn; [now rewrite He | now rewrite Hx].
Qed.

Lemma not_in_codes (services : list Admin.Service) (c : string) :
  ~ In c (map Admin.code services) ->
  Forall (fun s => String.eqb (Admin.code s) c = false) services.
Proof.
  intros H. apply List.Forall_forall. intros s Hs.
  apply String.eqb_neq. intros E. apply H. rewrite <- E. now apply in_map.
Qed.

(** X14: a service that was just added is the one found by its code:
    moving a row to it gives the row the default hourly cost typed in
    the form (0 when that was zero or no number), and leaves the other
    rows as they were. *)
Theorem added_service_can_be_selected (id rowId : string) (st : Admin.State) :
  ~ rejected st ->
  Admin.getServiceByCode (Admin.services (fst (Admin.addServiceFromAdmin id st)))
    (form_code st)
  = Some (form_entry id st) /\
  service_changed rowId (form_code st)
    (JsNumber.or_else (Admin.new_defaultHourlyCost (Admin.newService st)) 0)
    (Admin.rows (fst (Admin.addServiceFromAdmin id st)))
    (Admin.handleServiceChange (Admin.services (fst (Admin.addServiceFromAdmin id st)))
       rowId (form_code st) (Admin.rows (fst (Admin.addServiceFromAdmin id st)))).
Proof.
  intros Hr. rewrite (addService_accepted id st Hr).
  cbn [fst Admin.setNewService Admin.setServices Admin.services Admin.rows].
  assert (Hf : Admin.getServiceByCode (Admin.services st ++ [form_entry id st]) (form_code st)
               = Some (form_entry id st)).
  { apply find_snoc; [|apply String.eqb_refl]. apply not_in_codes.
    intros H. apply Hr. right. now right. }
  split; [exact Hf|].
  unfold Admin.handleServiceChange. rewrite Hf. apply Forall2_map_r. intros r _.
  destruct (String.eqb_spec (row_id r) rowId) as [E|E].
  - split; [|contradiction]. intros _. cbn. repeat split. exact E.
  - split; [contradiction | reflexivity].
Qed.

(** The service of the form of the sample is added and the row is moved to it. *)
Lemma added_service_can_be_selected_witness :
  Admin.handleServiceChange
    (Admin.services
       (fst (Admin.addServiceFromAdmin "s1" (Sample.with_form Sample.hosting_form Sample.start))))
    "r1" "hosting_anual"
    (Admin.rows
       (fst (Admin.addServiceFromAdmin "s1" (Sample.with_form Sample.hosting_form Sample.start))))
  = [ {| row_id := "r1"; serviceType := "hosting_anual"; detail := "Dominio y servidor.";
         hours := VNum 10; hourlyCost := VNum 75 |} ] /\
  Admin.getServiceByCode
    (Admin.services
       (fst (Admin.addServiceFromAdmin "s1" (Sample.with_form Sample.hosting_form Sample.start))))
    "hosting_anual"
  = Some (form_entry "s1" (Sample.with_form Sample.hosting_form Sample.start)).
Proof.
  split; [reflexivity|].
  apply (added_service_can_be_selected "s1" "r1"
           (Sample.with_form Sample.hosting_form Sample.start)).
  intros [H|[H|H]]; vm_compute in H; try discriminate H.
  repeat (destruct H as [H|H]; [discriminate H|]). exact H.
Defined.

Lemma resolves_more (l l' : list Admin.Service) (r : Row) :
  resolves l r -> resolves (l ++ l') r.
Proof.
  intros (s & H1 & H2). exists s. split; [|exact H2]. apply in_or_app. now left.
Qed.

(** X15: deleting the service that was just added gives back the
    state before it was added, with the form emptied: when the
    identifier that [safeId()] gave is new, the catalog had an entry
    and every row had a service of the catalog, adding the service of
    the form and then deleting it (confirmed) restores the catalog and
    the rows. *)
Theorem deleting_the_added_service_restores (id : string) (st : Admin.State) :
  ~ rejected st ->
  fresh_id (Admin.IdStr id) (Admin.services st) ->
  Admin.services st <> [] ->
  Forall (resolves (Admin.services st)) (Admin.rows st) ->
  fst (Admin.deleteService (Admin.IdStr id) true (fst (Admin.addServiceFromAdmin id st)))
  = Admin.setNewService Admin.blank_service st.
Proof.
  intros Hr Hf Hn Hrows. rewrite (addService_accepted id st Hr). cbn [fst].
  unfold Admin.deleteService.
  cbn [Admin.setNewService Admin.setServices Admin.services].
  rewrite (find_snoc _ _ (form_entry id st)); [|exact Hf|cbn; apply String.eqb_refl].
  rewrite length_app. cbn [length].
  destruct (Admin.services st) as [|s l] eqn:E; [contradiction|]. cbn [length].
  replace (S (length l) + 1 <=? 1)%nat with false by (symmetry; apply Nat.leb_gt; lia).
  cbn [negb fst Admin.setServices Admin.services Admin.rows Admin.settings Admin.currency
         Admin.newService].
  rewrite <- E in *.
  assert (Hfil : List.filter (fun s => negb (Admin.same_id (Admin.svc_id s) (Admin.IdStr id)))
                   (Admin.services st ++ [form_entry id st]) = Admin.services st).
  { rewrite List.filter_app, filter_all.
    - cbn. rewrite String.eqb_refl. cbn. apply app_nil_r.
    - eapply List.Forall_impl; [|exact Hf]. intros x Hx. cbn beta in Hx. now rewrite Hx. }
  unfold Admin.setServices, Admin.setNewService.
  cbn [Admin.services Admin.rows Admin.settings Admin.currency Admin.newService].
  rewrite Hfil.
  rewrite (keepRowsValid_same (Admin.services st ++ [form_entry id st])).
  2:{ eapply List.Forall_impl; [|exact Hrows]. intros r. apply resolves_more. }
  rewrite (keepRowsValid_same _ _ Hrows). reflexivity.
Qed.

Lemma deleting_the_added_service_restores_witness :
  fst (Admin.deleteService (Admin.IdStr "s1") true
         (fst (Admin.addServiceFromAdmin "s1"
                 (Sample.with_form Sample.hosting_form Sample.start))))
  = Sample.start.
Proof.
  apply (deleting_the_added_service_restores "s1"
           (Sample.with_form Sample.hosting_form Sample.start)).
  - intros [H|[H|H]]; vm_compute in H; try discriminate H.
    repeat (destruct H as [H|H]; [discriminate H|]). exact H.
  - vm_compute. repeat constructor.
  - discriminate.
  - constructor; [|constructor]. eexists. split; [left; reflexivity | reflexivity].
Defined.

(** ** Adding and removing a row *)

Lemma removeRow_absent (id : string) (rows : list Row) :
  ~ In id (map row_id rows) -> removeRow id rows = rows.
Proof.
  intros H. apply filter_all, List.Forall_forall. intros r Hr.
  apply negb_true_iff, String.eqb_neq. intros E. apply H. rewrite <- E. now apply in_map.
Qed.

(** X16: in both variants, removing the row that was just added
    gives back the rows as they were, when the identifier that
    [safeId()] gave to the row is new; and removing a row that is not
    there changes nothing.  In any case no row is left with the
    identifier removed, and the rows that stay keep their order. *)
Theorem removing_the_added_row_restores (id : string) (st : Admin.State) :
  (~ In id (map row_id (Admin.rows st)) ->
   removeRow id (Admin.rows (Admin.addRow id st)) = Admin.rows st /\
   removeRow id (Basic.addRow id (Admin.rows st)) = Admin.rows st /\
   removeRow id (Admin.rows st) = Admin.rows st) /\
  ~ In id (map row_id (removeRow id (Admin.rows st))) /\
  removeRow id (removeRow id (Admin.rows st)) = removeRow id (Admin.rows st).
Proof.
  assert (Hgone : ~ In id (map row_id (removeRow id (Admin.rows st)))).
  { intros [r [E [_ Hr]%filter_In]]%in_map_iff.
    apply negb_true_iff, String.eqb_neq in Hr. contradiction. }
  split; [|split; [exact Hgone | now apply removeRow_absent]].
  intros H. pose proof (removeRow_absent id _ H) as Hsame.
  unfold Admin.addRow, Basic.addRow. cbn [Admin.rows]. unfold removeRow in *.
  rewrite !List.filter_app, Hsame. cbn [List.filter Admin.emptyRow Basic.emptyRow row_id].
  rewrite String.eqb_refl. cbn. now rewrite app_nil_r.
Qed.

(** X17: the row that [addRow] appends in the admin variant has no
    detail and 10 hours; it takes the first service of the catalog and
    the default hourly cost of that service, when the code of that
    service is not empty; with an empty catalog it takes the code
    [creacion_web] and the hourly cost 0.  The rows that were there
    are kept, before it. *)
Theorem added_row_takes_the_first_service (id : string) (st : Admin.State) :
  match Admin.services st with
  | [] =>
      Admin.rows (Admin.addRow id st)
      = Admin.rows st ++ [ {| row_id := id; serviceType := "creacion_web"; detail := "";
                              hours := VNum 10; hourlyCost := VNum 0 |} ]
  | first :: _ =>
      Admin.code first <> "" ->
      Admin.rows (Admin.addRow id st)
      = Admin.rows st ++ [ {| row_id := id; serviceType := Admin.code first; detail := "";
                              hours := VNum 10;
                              hourlyCost := VNum (Admin.defaultHourlyCost first) |} ]
  end.
Proof.
  unfold Admin.addRow. cbn [Admin.rows].
  destruct (Admin.services st) as [|first rest]; [reflexivity|].
  intros H. now rewrite (emptyRow_first _ _ _ H).
Qed.

(** ** The detail of a row whose service changes *)

Lemma detail_or_cases (r : Row) (s : string) :
  (blank_detail r -> detail_or r s = s) /\ (~ blank_detail r -> detail_or r s = detail r).
Proof.
  unfold blank_detail, detail_or.
  destruct (trim (detail r)); split; intros H; try reflexivity;
    [contradiction | discriminate H].
Qed.

Lemma detail_filled_once (r : Row) (s1 s2 : string) :
  let r1 := {| row_id := row_id r; serviceType := serviceType r; detail := detail_or r s1;
               hours := hours r; hourlyCost := hourlyCost r |} in
  (~ blank_detail r -> detail_or r1 s2 = detail r) /\
  (blank_detail r -> trim s1 <> "" -> detail_or r1 s2 = s1) /\
  (blank_detail r -> trim s1 = "" -> detail_or r1 s2 = s2).
Proof.
  cbv zeta. destruct (detail_or_cases r s1) as [Hb Hn].
  unfold detail_or at 1 3 5. cbn [detail]. repeat split; intros H.
  - rewrite (Hn H). unfold blank_detail in H. now destruct (trim (detail r)).
  - intros Hs. rewrite (Hb H). now destruct (trim s1).
  - intros Hs. rewrite (Hb H), Hs. reflexivity.
Qed.

(** X18: in both variants the detail of a row is filled by a change
    of service only while it is blank.  After two changes of the
    service of a row, a detail that had text is the one the user
    typed; a detail that was blank (empty, or white space only) is
    the suggestion of the first service chosen, when that suggestion
    is not blank, and not that of the second one: the suggestion
    that filled it is not replaced when the service changes again.
    The rows with another identifier are unchanged. *)
Theorem detail_is_filled_once (services : list Admin.Service) (id c1 c2 : string)
    (rows : list Row) :
  Forall2
    (fun r r' =>
       (row_id r = id ->
        (~ blank_detail r -> detail r' = detail r) /\
        (blank_detail r -> trim (suggested services c1) <> "" ->
         detail r' = suggested services c1) /\
        (blank_detail r -> trim (suggested services c1) = "" ->
         detail r' = suggested services c2)) /\
       (row_id r <> id -> r' = r))
    rows
    (Admin.handleServiceChange services id c2 (Admin.handleServiceChange services id c1 rows)) /\
  Forall2
    (fun r r' =>
       (row_id r = id ->
        (~ blank_detail r -> detail r' = detail r) /\
        (blank_detail r -> trim (basic_suggested c1) <> "" ->
         detail r' = basic_suggested c1) /\
        (blank_detail r -> trim (basic_suggested c1) = "" ->
         detail r' = basic_suggested c2)) /\
       (row_id r <> id -> r' = r))
    rows
    (Basic.handleServiceChange id c2 (Basic.handleServiceChange id c1 rows)).
Proof.
  split.
  - unfold Admin.handleServiceChange. fold (suggested services c1) (suggested services c2).
    rewrite map_map. apply Forall2_map_r. intros r _.
    destruct (String.eqb_spec (row_id r) id) as [E|E]; cbn [row_id].
    + rewrite E, String.eqb_refl. split; [intros _ | contradiction]. cbn [detail].
      rewrite <- E at 1. exact (detail_filled_once r _ _).
    + destruct (String.eqb_spec (row_id r) id) as [E'|_]; [contradiction|].
      split; [contradiction | reflexivity].
  - unfold Basic.handleServiceChange. fold (basic_suggested c1) (basic_suggested c2).
    rewrite map_map. apply Forall2_map_r. intros r _.
    destruct (String.eqb_spec (row_id r) id) as [E|E]; cbn [row_id].
    + rewrite E, String.eqb_refl. split; [intros _ | contradiction]. cbn [detail].
      rewrite <- E at 1. exact (detail_filled_once r _ _).
    + destruct (String.eqb_spec (row_id r) id) as [E'|_]; [contradiction|].
      split; [contradiction | reflexivity].
Qed.

(** A row without detail is moved to the maintenance service, then to
    the design service: it keeps the suggestion of the first. *)
Example detail_of_the_first_service :
  map detail
    (Admin.handleServiceChange Admin.DEFAULT_SERVICES "r1" "diseno_figma"
       (Admin.handleServiceChange Admin.DEFAULT_SERVICES "r1" "mantenimiento_web"
          (Admin.rows Sample.start)))
  = [Admin.suggestion Sample.maintenance].
Proof. reflexivity. Qed.

(** ** The form that adds a service *)

Lemma first_nonempty_cons (a : string) (l : list string) :
  first_nonempty (a :: l) = JsString.or_else a (first_nonempty l).
Proof. unfold first_nonempty. cbn. now destruct a. Qed.

Lemma last_cons_default {A : Type} (l : list A) (a d d' : A) :
  List.last (a :: l) d = List.last (a :: l) d'.
Proof.
  revert a. induction l as [|b l IH]; intros a; [reflexivity|].
  change (List.last (b :: l) d = List.last (b :: l) d'). apply IH.
Qed.

(** X19: while the label of a new service is typed in, its code is
    set once: after any number of changes of the label, the code of
    the form is the code it had if that was not empty, and otherwise
    the slug of the first text of the label whose slug is not empty,
    not the slug of the label as it is in the end.  The label is the
    last text, and the other fields of the form, the catalog and the
    rows are kept. *)
Theorem code_follows_the_first_label (texts : list string) (st : Admin.State) :
  Admin.new_code (Admin.newService (type_label texts st))
  = first_nonempty (Admin.new_code (Admin.newService st) :: map Admin.slugifyCode texts) /\
  Admin.new_label (Admin.newService (type_label texts st))
  = List.last texts (Admin.new_label (Admin.newService st)) /\
  Admin.new_suggestion (Admin.newService (type_label texts st))
  = Admin.new_suggestion (Admin.newService st) /\
  Admin.new_defaultHourlyCost (Admin.newService (type_label texts st))
  = Admin.new_defaultHourlyCost (Admin.newService st) /\
  Admin.services (type_label texts st) = Admin.services st /\
  Admin.rows (type_label texts st) = Admin.rows st.
Proof.
  unfold type_label. revert st. induction texts as [|t texts IH]; intros st.
  - cbn [fold_left map List.last]. rewrite first_nonempty_cons.
    unfold first_nonempty. cbn. unfold JsString.or_else.
    now destruct (Admin.new_code (Admin.newService st)).
  - cbn [fold_left map]. destruct (IH (AdminEvents.onLabelChange t st))
      as (H1 & H2 & H3 & H4 & H5 & H6).
    rewrite H1, H2, H3, H4, H5, H6. cbn. repeat split.
    + rewrite !first_nonempty_cons. unfold JsString.or_else.
      now destruct (Admin.new_code (Admin.newService st)).
    + destruct texts as [|a l]; [reflexivity | apply last_cons_default].
Qed.

(** The label is typed one character after the other: the code is the
    slug of its first character. *)
Example code_of_a_label_typed_in :
  Admin.newService (type_label ["H"; "Ho"; "Hos"; "Host"] Sample.start)
  = {| Admin.new_label := "Host"; Admin.new_code := "h"; Admin.new_suggestion := "";
       Admin.new_defaultHourlyCost := 0 |}.
Proof. reflexivity. Qed.

(** ** The catalog written to the storage and loaded again *)

Lemma filter_map_list {A B : Type} (p : B -> bool) (g : A -> B) (l : list A) :
  List.filter p (map g l) = map g (List.filter (fun x => p (g x)) l).
Proof.
  induction l as [|x l IH]; [reflexivity|]. cbn. rewrite IH. now destruct (p (g x)).
Qed.

Lemma imap_json (f : nat -> jsval -> Admin.Service) (l : list Admin.Service) :
  (forall i s, string_id s -> f i (Storage.json_service s) = reloaded s) ->
  Forall string_id l ->
  imap f (map Storage.json_service l) = map reloaded l.
Proof.
  intros Hf H. revert f Hf. induction H as [|s l Hs H IH]; intros f Hf; [reflexivity|].
  cbn [map imap]. rewrite (Hf 0%nat s Hs). f_equal. apply IH.
  intros i s' Hs'. apply (Hf (S i) s' Hs').
Qed.

Lemma cleaned_json (fresh : nat -> string) (l : list Admin.Service) :
  Forall string_id l ->
  Admin.cleaned fresh (map Storage.json_service l) = map reloaded (List.filter usable l).
Proof.
  intros H. unfold Admin.cleaned. rewrite filter_map_list.
  replace (List.filter _ l) with (List.filter usable l) by (apply filter_ext; reflexivity).
  apply imap_json; [|now apply Forall_filter_list].
  intros i s (t & Hid & Ht). unfold reloaded, reread, Admin.loaded_id.
  change (get (Storage.json_service s) "id") with (Storage.json_id (Admin.svc_id s)).
  change (get (Storage.json_service s) "code") with (VStr (Admin.code s)).
  change (get (Storage.json_service s) "label") with (VStr (Admin.label s)).
  change (get (Storage.json_service s) "suggestion") with (VStr (Admin.suggestion s)).
  change (get (Storage.json_service s) "defaultHourlyCost")
    with (Storage.json_number (Admin.defaultHourlyCost s)).
  rewrite Hid. cbn [Storage.json_id ToString].
  destruct t as [|c t]; [contradiction|]. cbn [is_empty]. f_equal.
  now destruct (Admin.suggestion s).
Qed.

(** No conversion throws for what the persisting effect wrote. *)
Lemma json_converts (l : list Admin.Service) :
  existsb entry_raises (List.filter Admin.kept (map Storage.json_service l)) = false.
Proof.
  apply not_true_is_false. intros [s [[Hs _]%filter_In Hr]]%existsb_exists.
  apply in_map_iff in Hs as (t & <- & _). revert Hr. unfold entry_raises.
  change (get (Storage.json_service t) "code") with (VStr (Admin.code t)).
  change (get (Storage.json_service t) "label") with (VStr (Admin.label t)).
  change (get (Storage.json_service t) "suggestion") with (VStr (Admin.suggestion t)).
  change (get (Storage.json_service t) "defaultHourlyCost")
    with (Storage.json_number (Admin.defaultHourlyCost t)).
  unfold Storage.json_number, JsValue.or_else. cbn [raises orb truthy].
  destruct (is_empty (Admin.suggestion t));
    destruct (isFinite (Admin.defaultHourlyCost t)); cbn [truthy raises];
    try destruct (JsNumber.truthy _); discriminate.
Qed.

(** X20: what the load reads back from the catalog that the
    persisting effect wrote, for a catalog whose identifiers are
    strings that are not empty.  The entries whose code and label are
    not empty come back, in their order, with their identifier, code,
    label and suggestion; an entry whose label was cleared in the
    admin panel is dropped.  A default hourly cost comes back as the
    number read from its decimal text, and as 0 when it is not finite.
    When no entry comes back, the catalog is left as it was before
    the load. *)
Theorem catalog_written_and_loaded (fresh : nat -> string) (st now : Admin.State) :
  Forall string_id (Admin.services st) ->
  Admin.cleaned fresh (map Storage.json_service (Admin.services st))
  = map reloaded (List.filter usable (Admin.services st)) /\
  Admin.services (Admin.loadServices fresh (Storage.persistServices st) now)
  = match List.filter usable (Admin.services st) with
    | [] => Admin.services now
    | kept => map reloaded kept
    end /\
  (forall x, isFinite x = false -> reread x = 0%float) /\
  (forall x, isFinite x = true ->
             reread x = JsNumber.or_else (StringToNumber (NumberToString x)) 0).
Proof.
  intros H. pose proof (cleaned_json fresh _ H) as Hc.
  split; [exact Hc|]. split; [|split].
  - unfold Admin.loadServices, Storage.persistServices. cbn [Admin.parse_item].
    rewrite call_cleaned_cases, json_converts, Hc.
    destruct (Admin.services st) as [|s l] eqn:E; [reflexivity|]. rewrite <- E.
    replace (0 <? length (map Storage.json_service (Admin.services st)))%nat with true
      by (rewrite E; reflexivity).
    now destruct (List.filter usable (Admin.services st)).
  - intros x Hx. unfold reread, Storage.json_number. now rewrite Hx.
  - intros x Hx. unfold reread, Storage.json_number. rewrite Hx.
    unfold JsValue.or_else, JsNumber.or_else. cbn [JsValue.truthy].
    now destruct (JsNumber.truthy _).
Qed.

(** The default catalog, once the label of its second service was
    cleared and the default cost of its third one set to 0.1: the
    second entry is not loaded again. *)
Lemma catalog_written_and_loaded_witness :
  Admin.services
    (Admin.loadServices Sample.fresh
       (Storage.persistServices
          (Admin.updateService (Admin.IdStr "srv_diseno_figma")
             {| Admin.patch_label := None; Admin.patch_suggestion := None;
                Admin.patch_defaultHourlyCost := Some 0.1%float |}
             (Admin.updateService (Admin.IdStr "srv_mantenimiento_web")
                {| Admin.patch_label := Some ""; Admin.patch_suggestion := None;
                   Admin.patch_defaultHourlyCost := None |}
                Sample.start)))
       Sample.start)
  = [ nth 0 Admin.DEFAULT_SERVICES Sample.hosting;
      {| Admin.svc_id := Admin.IdStr "srv_diseno_figma"; Admin.code := "diseno_figma";
         Admin.label := Admin.label (nth 2 Admin.DEFAULT_SERVICES Sample.hosting);
         Admin.suggestion := Admin.suggestion (nth 2 Admin.DEFAULT_SERVICES Sample.hosting);
         Admin.defaultHourlyCost := 0.1 |} ].
Proof.
  destruct (catalog_written_and_loaded Sample.fresh
              (Admin.updateService (Admin.IdStr "srv_diseno_figma")
                 {| Admin.patch_label := None; Admin.patch_suggestion := None;
                    Admin.patch_defaultHourlyCost := Some 0.1%float |}
                 (Admin.updateService (Admin.IdStr "srv_mantenimiento_web")
                    {| Admin.patch_label := Some ""; Admin.patch_suggestion := None;
                       Admin.patch_defaultHourlyCost := None |}
                    Sample.start))
              Sample.start) as (_ & H & _).
  - repeat constructor; eexists; (split; [reflexivity | discriminate]).
  - rewrite H. vm_compute. reflexivity.
Defined.

(** ** The amounts that are shown *)

Lemma moneyFmt_finite (x : float) (c : Currency) : finite_money c (moneyFmt x c).
Proof.
  unfold moneyFmt, finite_money. repeat split.
  destruct (isFinite x) eqn:E; [exact E | reflexivity].
Qed.

(** X21: no amount is formatted from NaN or from an infinite number,
    and each is formatted in the locale of its currency (es-PE for
    PEN, en-US for USD): the amounts of the table of the document in
    both variants, the three figures under it, the three figures of
    the summary on the screen and the converted total. *)
Theorem shown_amounts_are_finite (st : Admin.State) (rows : list Row) (c : Currency) :
  Forall (ends_with_finite_money (Admin.currency st)) (Admin.body st) /\
  Forall (ends_with_finite_money c) (Basic.body rows c) /\
  Forall (fun p => finite_money (Admin.currency st) (snd p)) (AdminView.totals st) /\
  Forall (fun p => finite_money (Admin.currency st) (snd p)) (AdminView.summary st) /\
  finite_money (other (Admin.currency st)) (AdminView.informative st).
Proof.
  split; [|split; [|split; [|split]]].
  - unfold Admin.body. apply List.Forall_forall. intros row [it [<- _]]%in_map_iff.
    eexists [_; _], _. split; [reflexivity | apply moneyFmt_finite].
  - unfold Basic.body. apply List.Forall_forall. intros row [it [<- _]]%in_map_iff.
    eexists [_; _; _], _. split; [reflexivity | apply moneyFmt_finite].
  - unfold AdminView.totals. repeat (apply List.Forall_cons; [apply moneyFmt_finite|]).
    apply List.Forall_nil.
  - unfold AdminView.summary. repeat (apply List.Forall_cons; [apply moneyFmt_finite|]).
    apply List.Forall_nil.
  - apply moneyFmt_finite.
Qed.

(** ** A storage without usable data *)

(** X22: the load changes nothing when the storage gives nothing to
    use: the item of the settings is absent, is no JSON text, or is
    the text of a value that is no object (or is null); and the item
    of the catalog is absent, is no JSON text, is the text of a value
    that is no array, or of an array none of whose elements has both
    a code and a label.  A text that [JSON.parse] rejects raises no
    error. *)
Theorem unusable_storage_changes_nothing (fresh : nat -> string)
    (settingsItem servicesItem : Admin.stored) (st : Admin.State) :
  (forall v, Admin.parse_item settingsItem = Some v -> truthy v && typeof_object v = false) ->
  (forall l, Admin.parse_item servicesItem = Some (VArr l) -> Admin.cleaned fresh l = []) ->
  Admin.load fresh settingsItem servicesItem st = st.
Proof.
  intros Ha Hb. unfold Admin.load.
  assert (Admin.loadSettings settingsItem st = st) as ->.
  { unfold Admin.loadSettings. destruct (Admin.parse_item settingsItem) as [v|]; [|reflexivity].
    now rewrite (Ha v eq_refl). }
  destruct (loadServices_cases fresh servicesItem st) as [E|(l & Hp & _ & Hc & _)];
    [exact E|].
  now contradiction Hc; apply Hb.
Qed.

(** The settings are no JSON text, and the stored catalog has an
    element that is null, one without label, and one with an empty code. *)
Lemma unusable_storage_changes_nothing_witness :
  Admin.load Sample.fresh Admin.BadJSON
    (Admin.Json (VArr [ VNull; VObj [("code", VStr "x")];
                        VObj [("code", VStr ""); ("label", VStr "X")] ]))
    Sample.start
  = Sample.start.
Proof.
  apply (unusable_storage_changes_nothing Sample.fresh).
  - intros v H. discriminate H.
  - intros l H. injection H as <-. reflexivity.
Defined.

(** ** Editing a row *)

Lemma Forall2_map_both {A B : Type} (P : B -> B -> Prop) (f g : A -> B) (l : list A) :
  (forall x, P (f x) (g x)) -> Forall2 P (map f l) (map g l).
Proof. intros H. induction l; constructor; auto. Qed.

Lemma updateRow_items (id : string) (p : RowPatch) (rows : list Row) :
  Forall2
    (fun it it' =>
       it_id it' = it_id it /\ it_serviceType it' = it_serviceType it /\
       (it_id it <> id -> it' = it))
    (map line_item rows) (map line_item (updateRow id p rows)).
Proof.
  unfold updateRow. rewrite map_map. apply Forall2_map_both. intros r.
  destruct (String.eqb_spec (row_id r) id) as [E|E]; cbn; repeat split.
  intros H. contradiction.
Qed.

(** X23: in both variants, editing the detail, the hours or the
    hourly cost of a row changes no other line of the quotation:
    after [updateRow], every line keeps its identifier and its
    service, the lines are as many and in the same order, and a line
    with another identifier is the same line, with the same subtotal. *)
Theorem editing_a_row_changes_no_other_line (id : string) (p : RowPatch) (st : Admin.State) :
  Forall2
    (fun it it' =>
       it_id it' = it_id it /\ it_serviceType it' = it_serviceType it /\
       (it_id it <> id -> it' = it))
    (items (Admin.computed st))
    (items (Admin.computed (AdminEvents.setRows (updateRow id p) st))) /\
  Forall2
    (fun it it' =>
       it_id it' = it_id it /\ it_serviceType it' = it_serviceType it /\
       (it_id it <> id -> it' = it))
    (items (Basic.computed (Admin.rows st) (Admin.currency st)))
    (items (Basic.computed (updateRow id p (Admin.rows st)) (Admin.currency st))).
Proof. split; apply updateRow_items. Qed.

(** ** The names of the lines of the document *)

Lemma found_some_by_code (services : list Admin.Service) (c : string) :
  In c (map Admin.code services) ->
  exists s, Admin.getServiceByCode services c = Some s /\ In s services /\ Admin.code s = c.
Proof.
  unfold Admin.getServiceByCode. intros H.
  destruct (find (fun s => String.eqb (Admin.code s) c) services) as [s|] eqn:E.
  - apply find_some in E as [H1 H2]. apply String.eqb_eq in H2. eauto.
  - apply in_map_iff in H as (s & Hs & Hin).
    pose proof (find_none _ _ E s Hin) as Hn. cbn beta in Hn.
    rewrite Hs, String.eqb_refl in Hn. discriminate Hn.
Qed.

(** X24: when every row has a service of the catalog, every line of
    the table of the document is named after a service of the catalog
    that has the code of the line: by the label of that service, or by
    its code when its label is empty; no line is named by a code that
    the catalog does not have.  The lines are those of the rows, in
    their order, each with its detail. *)
Theorem document_lines_are_named_by_the_catalog (st : Admin.State) :
  Forall (resolves (Admin.services st)) (Admin.rows st) ->
  Forall2
    (fun r line =>
       exists s f,
         In s (Admin.services st) /\ Admin.code s = serviceType r /\
         line = [ Text (JsString.or_else (Admin.label s) (Admin.code s));
                  Text (detail r); Money f ])
    (Admin.rows st) (Admin.body st).
Proof.
  intros H. unfold Admin.body, Admin.computed. cbn [items]. rewrite map_map.
  apply Forall2_map_r. intros r Hr. rewrite List.Forall_forall in H.
  apply H, resolves_codes, found_some_by_code in Hr as (s & Hf & Hin & Hc).
  cbn [line_item it_serviceType it_detail it_subtotal]. rewrite Hf.
  exists s. eexists. split; [exact Hin|]. split; [exact Hc|]. rewrite Hc.
  now destruct (detail r).
Qed.

(** The two rows of the sample, in the default catalog. *)
Lemma document_lines_are_named_by_the_catalog_witness :
  map (firstn 2) (Admin.body Sample.two_services_quoted)
  = [ [Text (Admin.label Sample.maintenance); Text ""];
      [Text (Admin.label (nth 0 Admin.DEFAULT_SERVICES Sample.hosting)); Text ""] ] /\
  Forall2
    (fun r line =>
       exists s f,
         In s (Admin.services Sample.two_services_quoted) /\ Admin.code s = serviceType r /\
         line = [ Text (JsString.or_else (Admin.label s) (Admin.code s));
                  Text (detail r); Money f ])
    (Admin.rows Sample.two_services_quoted) (Admin.body Sample.two_services_quoted).
Proof.
  split; [reflexivity|].
  apply (document_lines_are_named_by_the_catalog Sample.two_services_quoted).
  repeat constructor.
  - exists Sample.maintenance. split; [right; left; reflexivity | reflexivity].
  - eexists. split; [left; reflexivity | reflexivity].
Defined.

(** ** The input of the tax rate *)

Lemma append_nonempty_l (a b : string) : a <> "" -> a +:+ b <> "".
Proof. destruct a; [contradiction | discriminate]. Qed.

Lemma append_nonempty_r (a b : string) : b <> "" -> a +:+ b <> "".
Proof. destruct a; [trivial | discriminate]. Qed.

Lemma layout_nonempty (d : string) (n : Z) : d <> "" -> layout d n <> "".
Proof.
  intros Hd. unfold layout. cbv zeta.
  destruct (_ && _); [now apply append_nonempty_l|].
  destruct (_ && _); [apply append_nonempty_r; discriminate|].
  destruct (_ && _); [discriminate|].
  destruct (_ =? _); [now apply append_nonempty_l|].
  apply append_nonempty_r. discriminate.
Qed.

Lemma NumberToString_nonempty (x : float) : NumberToString x <> "".
Proof.
  unfold NumberToString. destruct (Prim2SF x) as [s|s| |s m e]; try discriminate.
  - now destruct s.
  - destruct (shortest_from _ _ _ _ _ _) as [s0 j0].
    destruct (strip_zeros _ _ _) as [s1 j1].
    apply append_nonempty_r, layout_nonempty.
    assert (H : starts_with_digit (decimal_string s1) = true).
    { unfold decimal_string. apply digits_of_head. discriminate. }
    intros E. rewrite E in H. discriminate H.
Qed.

Example toPercentInput_samples :
  map AdminView.toPercentInput
    [ VNum 0.18; VNum 0.175; VNum 0; VStr "0.07"; VNum 0.12345; VNum nan; VNum infinity;
      VNull; VUndefined; VNum 1e308 ]
  = [ "18"; "17.5"; "0"; "7"; "12.35"; ""; ""; "0"; ""; "Infinity" ] /\
  map (fun t => Admin.percentToDecimal (VStr t)) [ "18"; "17.5"; ""; "abc"; "1e999" ]
  = [ 0.18; 0.175; 0; 0; 0 ]%float.
Proof. vm_compute. split; reflexivity. Qed.

(** X25: the input of the tax rate is blank exactly when the stored
    rate does not coerce to a finite number.  The handler of that input
    stores the rate 0 for any text that is no finite numeral, never
    NaN or an infinite rate: so a rate that is not finite is shown as
    a blank input, and becomes 0 as soon as that blank text is handed
    back to the handler. *)
Theorem percent_input_blank_iff_not_finite (v : jsval) (text : string) (st : Admin.State) :
  (AdminView.toPercentInput v = "" <-> isFinite (ToNumber v) = false) /\
  (isFinite (StringToNumber text) = false ->
   field (Admin.settings (Admin.onIgvRateChange text st)) "igvRate" = VNum 0) /\
  (isFinite (ToNumber v) = false ->
   field (Admin.settings (Admin.onIgvRateChange (AdminView.toPercentInput v) st)) "igvRate"
   = VNum 0).
Proof.
  assert (Hs : forall t,
             field (Admin.settings (Admin.onIgvRateChange t st)) "igvRate"
             = VNum (Admin.percentToDecimal (VStr t))).
  { intros t. unfold Admin.onIgvRateChange, Admin.setSettings, field. cbn [Admin.settings].
    now rewrite lookup_insert, decide_True. }
  split; [|split].
  - unfold AdminView.toPercentInput. cbv zeta.
    destruct (isFinite (ToNumber v)); cbn [negb]; split; intros H;
      try reflexivity; try discriminate H.
    now apply NumberToString_nonempty in H.
  - intros H. rewrite Hs. unfold Admin.percentToDecimal. cbn [ToNumber]. now rewrite H.
  - intros H. rewrite Hs. unfold AdminView.toPercentInput. cbv zeta. rewrite H. reflexivity.
Qed.
